(** * SeaTable static catalog generator: a shallow embedding of
      [generate_catalog.py] and the properties of its specification.

    The file has four parts.  [PyLib] and [MD5] model the Python library
    functions the script calls: string methods, [urllib.parse] and
    [pathlib] as in CPython 3.11, and [hashlib.md5].  Then come the
    script's own functions, under their source names, written in a small
    state-and-exception monad over an explicit world (file system,
    requests sent, standard output).  Then the notions the statements use
    and a small sample base.  The properties come last, one theorem per
    claim of the specification, named C1 to C10 in the comments.

    Conventions.  A Python [str] is represented by the [string] of its
    UTF-8 bytes; the model covers strings without lone surrogates.  A JSON
    number is an integer ([Z]); floating point cells are outside the
    model, and so are JSON objects nested in a row or a configuration.
    Files are looked up as Linux does it, a name having at most 255
    bytes and a path fewer than 4096; what the machine refuses for a
    reason that the world does not show (a permission, a full disk, a
    connection that breaks) is given by the environment. *)

From Stdlib Require Import ZArith String Ascii List Lia Bool DecimalString.
From stdpp Require Import gmap strings.
Import ListNotations.

Local Open Scope string_scope.
Local Open Scope Z_scope.

(** stdpp keeps [simpl] from unfolding [String.append]; here it may. *)
#[local] Arguments String.append !s1 s2 : simpl nomatch.

(** The double quote character, as a one-character string. *)
Definition dq : string := String (ascii_of_nat 34) EmptyString.

(** [q s] is [s] between double quotes. *)
Definition q (s : string) : string := dq +:+ s +:+ dq.

(** The line feed character, as a one-character string. *)
Definition nl : string := String (ascii_of_nat 10) EmptyString.

(** ** Models of the Python library *)

Module PyLib.

(** *** Strings *)

Definition byte_of (c : ascii) : Z := Z.of_N (N_of_ascii c).
Definition chr (z : Z) : ascii := ascii_of_N (Z.to_N z).

Definition bytes_of_string (s : string) : list Z :=
  map byte_of (list_ascii_of_string s).

Definition string_of_bytes (l : list Z) : string :=
  string_of_list_ascii (map chr l).

(** [s.startswith(p)] *)
Fixpoint startswith (p s : string) : bool :=
  match p, s with
  | EmptyString, _ => true
  | String a p', String b s' => if Ascii.eqb a b then startswith p' s' else false
  | String _ _, EmptyString => false
  end.

(** [s[n:]] *)
Fixpoint drop_str (n : nat) (s : string) : string :=
  match n, s with
  | O, _ => s
  | S n', String _ s' => drop_str n' s'
  | S _, EmptyString => EmptyString
  end.

(** [s.endswith(p)] *)
Definition endswith (p s : string) : bool :=
  (String.length p <=? String.length s)%nat
  && String.eqb (drop_str (String.length s - String.length p) s) p.

(** [s[:n]] *)
Fixpoint take_str (n : nat) (s : string) : string :=
  match n, s with
  | O, _ => EmptyString
  | S n', String c s' => String c (take_str n' s')
  | S _, EmptyString => EmptyString
  end.

(** [s.partition(sep)] for a separator that occurs: the text before the
    first occurrence of [sep] and the text after it; [None] when [sep]
    does not occur in [s]. *)
Fixpoint find_sep (sep s : string) : option (string * string) :=
  match s with
  | EmptyString =>
      if startswith sep EmptyString then Some (EmptyString, EmptyString) else None
  | String c s' =>
      if startswith sep s then Some (EmptyString, drop_str (String.length sep) s)
      else match find_sep sep s' with
           | Some (a, b) => Some (String c a, b)
           | None => None
           end
  end.

(** [sub in s] *)
Definition contains (sub s : string) : bool :=
  match find_sep sub s with Some _ => true | None => false end.

(** [s.split(sep)] for a non-empty [sep]: Python scans from the left and
    cuts at each occurrence that does not overlap the previous one.  Every
    cut consumes at least one character, so [String.length s] rounds are
    enough ([split_unfold] below). *)
Fixpoint split_fuel (n : nat) (sep s : string) : list string :=
  match n with
  | O => [s]
  | S n' =>
      match find_sep sep s with
      | None => [s]
      | Some (a, b) => a :: split_fuel n' sep b
      end
  end.

Definition split (sep s : string) : list string :=
  split_fuel (String.length s) sep s.

(** [s.split(sep, 1)] *)
Definition split1 (sep s : string) : list string :=
  match find_sep sep s with
  | None => [s]
  | Some (a, b) => [a; b]
  end.

(** [sep.join(l)] *)
Fixpoint join (sep : string) (l : list string) : string :=
  match l with
  | [] => EmptyString
  | [x] => x
  | x :: rest => x +:+ sep +:+ join sep rest
  end.

(** Number of (possibly overlapping) positions of [s] at which [sub]
    starts; used to count cards and links in a rendered page. *)
Fixpoint count_sub (sub s : string) : nat :=
  match s with
  | EmptyString => O
  | String _ s' => ((if startswith sub s then 1 else 0) + count_sub sub s')%nat
  end.

(** *** Hexadecimal digits *)

Definition hex_lower : string := "0123456789abcdef".
Definition hex_upper : string := "0123456789ABCDEF".

Definition nth_char (digits : string) (z : Z) : ascii :=
  match String.get (Z.to_nat z) digits with
  | Some c => c
  | None => "0"%char
  end.

(** Two hexadecimal digits of a byte, most significant first. *)
Definition hex2 (digits : string) (b : Z) : string :=
  String (nth_char digits (Z.land (Z.shiftr b 4) 15))
    (String (nth_char digits (Z.land b 15)) EmptyString).

Definition is_hex_lower (c : ascii) : bool :=
  let n := byte_of c in
  ((48 <=? n) && (n <=? 57)) || ((97 <=? n) && (n <=? 102)).

Definition hex_val (c : ascii) : option Z :=
  let n := byte_of c in
  if (48 <=? n) && (n <=? 57) then Some (n - 48)
  else if (97 <=? n) && (n <=? 102) then Some (n - 87)
  else if (65 <=? n) && (n <=? 70) then Some (n - 55)
  else None.

Fixpoint all_chars (p : ascii -> bool) (s : string) : bool :=
  match s with
  | EmptyString => true
  | String c s' => p c && all_chars p s'
  end.

(** *** [urllib.parse] *)

Definition is_ascii_alpha (c : ascii) : bool :=
  let n := byte_of c in
  ((65 <=? n) && (n <=? 90)) || ((97 <=? n) && (n <=? 122)).

Definition is_digit (c : ascii) : bool :=
  let n := byte_of c in (48 <=? n) && (n <=? 57).

Definition char_in (set : string) (c : ascii) : bool :=
  contains (String c EmptyString) set.

(** [scheme_chars] of urllib.parse *)
Definition is_scheme_char (c : ascii) : bool :=
  is_ascii_alpha c || is_digit c || char_in "+-." c.

Definition lower_char (c : ascii) : ascii :=
  let n := byte_of c in
  if (65 <=? n) && (n <=? 90) then chr (n + 32) else c.

Fixpoint map_str (f : ascii -> ascii) (s : string) : string :=
  match s with
  | EmptyString => EmptyString
  | String c s' => String (f c) (map_str f s')
  end.

Fixpoint filter_str (p : ascii -> bool) (s : string) : string :=
  match s with
  | EmptyString => EmptyString
  | String c s' => if p c then String c (filter_str p s') else filter_str p s'
  end.

(** [url.lstrip(_WHATWG_C0_CONTROL_OR_SPACE)] *)
Fixpoint lstrip_c0 (s : string) : string :=
  match s with
  | EmptyString => EmptyString
  | String c s' => if byte_of c <=? 32 then lstrip_c0 s' else s
  end.

(** Tab, carriage return and line feed, which [urlsplit] deletes. *)
Definition is_unsafe_url_byte (c : ascii) : bool :=
  let n := byte_of c in (n =? 9) || (n =? 13) || (n =? 10).

Definition uses_params : list string :=
  [ EmptyString; "ftp"; "hdl"; "prospero"; "http"; "imap"; "https"; "shttp";
    "rtsp"; "rtspu"; "sip"; "sips"; "mms"; "sftp"; "tel" ].

(** The scheme of a URL and the text after it (the first lines of
    [urlsplit]). *)
Definition split_scheme (url : string) : string * string :=
  match find_sep ":" url with
  | Some (String c pre, post) =>
      if is_ascii_alpha c && all_chars is_scheme_char pre
      then (map_str lower_char (String c pre), post)
      else (EmptyString, url)
  | _ => (EmptyString, url)
  end.

(** [_splitnetloc(url, 2)] on the text after the two slashes: the network
    location ends at the first of [/], [?] and [#]. *)
Fixpoint splitnetloc (s : string) : string * string :=
  match s with
  | EmptyString => (EmptyString, EmptyString)
  | String c s' =>
      if char_in "/?#" c then (EmptyString, s)
      else let '(n, rest) := splitnetloc s' in (String c n, rest)
  end.

(** Python checks a host in brackets with [ipaddress] and a non-ASCII
    host with [unicodedata], and raises [ValueError] for some of them.
    The model rejects every such host: a URL the model accepts is
    accepted by Python, with the same path. *)
Definition netloc_rejected (netloc : string) : bool :=
  contains "[" netloc || contains "]" netloc
  || negb (all_chars (fun c => byte_of c <? 128) netloc).

Definition before (sep s : string) : string :=
  match find_sep sep s with
  | Some (a, _) => a
  | None => s
  end.

(** The last path segment of [s] with its leading slash, or all of [s]
    without a slash: [s[s.rfind('/'):]]. *)
Fixpoint last_segment (s : string) : option string :=
  match s with
  | EmptyString => None
  | String c s' =>
      match last_segment s' with
      | Some t => Some t
      | None => if Ascii.eqb c "/" then Some s else None
      end
  end.

(** The first component of [_splitparams(url)]. *)
Definition splitparams (url : string) : string :=
  match last_segment url with
  | Some seg =>
      match find_sep ";" seg with
      | Some (a, _) =>
          take_str (String.length url - String.length seg) url +:+ a
      | None => url
      end
  | None => before ";" url
  end.

(** [urlparse(url).path] for a [str]; [None] stands for [ValueError]. *)
Definition urlparse_path (url : string) : option string :=
  let url := filter_str (fun c => negb (is_unsafe_url_byte c)) (lstrip_c0 url) in
  let '(scheme, url) := split_scheme url in
  let '(netloc, url) :=
    if startswith "//" url then splitnetloc (drop_str 2 url)
    else (EmptyString, url) in
  if netloc_rejected netloc then None
  else
    let url := before "#" url in
    let url := before "?" url in
    if existsb (String.eqb scheme) uses_params && contains ";" url
    then Some (splitparams url)
    else Some url.

(** Decoding UTF-8 with [errors='replace']: every maximal ill-formed
    subsequence becomes U+FFFD (bytes EF BF BD); well-formed text is
    unchanged. *)
Definition is_cont (lo hi : Z) (l : list Z) : bool :=
  match l with
  | b :: _ => (lo <=? b) && (b <=? hi)
  | [] => false
  end.

Definition fffd : list Z := [239; 191; 189].

Definition second_range (b : Z) : Z * Z :=
  if b =? 224 then (160, 191)
  else if b =? 237 then (128, 159)
  else if b =? 240 then (144, 191)
  else if b =? 244 then (128, 143)
  else (128, 191).

Definition seq_len (b : Z) : nat :=
  if (194 <=? b) && (b <=? 223) then 2
  else if (224 <=? b) && (b <=? 239) then 3
  else if (240 <=? b) && (b <=? 244) then 4
  else 0.

(** [n] continuation bytes at the head of [l], all in 80..BF. *)
Fixpoint conts (n : nat) (l : list Z) : nat :=
  match n with
  | O => O
  | S n' => if is_cont 128 191 l then S (conts n' (tl l)) else O
  end.

Fixpoint utf8_replace_fuel (fuel : nat) (l : list Z) : list Z :=
  match fuel, l with
  | O, _ => []
  | _, [] => []
  | S f, b :: rest =>
      if b <? 128 then b :: utf8_replace_fuel f rest
      else
        match seq_len b with
        | O => fffd ++ utf8_replace_fuel f rest
        | S O => fffd ++ utf8_replace_fuel f rest
        | S (S k) =>
            let '(lo, hi) := second_range b in
            if is_cont lo hi rest then
              let got := conts k (tl rest) in
              if (got =? k)%nat
              then firstn (S (S k)) l ++ utf8_replace_fuel f (skipn (S k) rest)
              else fffd ++ utf8_replace_fuel f (skipn (S got) rest)
            else fffd ++ utf8_replace_fuel f rest
        end
  end.

Definition utf8_replace (s : string) : string :=
  let l := bytes_of_string s in
  string_of_bytes (utf8_replace_fuel (length l) l).

(** [unquote_to_bytes]: every [%XX] with two hexadecimal digits becomes
    the byte; any other [%] stays. *)
Fixpoint unquote_bytes (s : string) : string :=
  match s with
  | EmptyString => EmptyString
  | String c s' =>
      if Ascii.eqb c "%" then
        match s' with
        | String h (String l s'') =>
            match hex_val h, hex_val l with
            | Some x, Some y => String (chr (16 * x + y)) (unquote_bytes s'')
            | _, _ => String c (unquote_bytes s')
            end
        | _ => String c (unquote_bytes s')
        end
      else String c (unquote_bytes s')
  end.

(** [unquote(s)]: the escapes are decoded as UTF-8 with replacement. *)
Definition unquote (s : string) : string :=
  if contains "%" s then utf8_replace (unquote_bytes s) else s.

(** [_ALWAYS_SAFE] of urllib.parse together with the default [safe='/']. *)
Definition is_quote_safe (c : ascii) : bool :=
  is_ascii_alpha c || is_digit c || char_in "_.-~/" c.

(** [quote(s)] for a [str]: the UTF-8 bytes, each unsafe one as [%XX]. *)
Fixpoint quote (s : string) : string :=
  match s with
  | EmptyString => EmptyString
  | String c s' =>
      if is_quote_safe c then String c (quote s')
      else "%" +:+ hex2 hex_upper (byte_of c) +:+ quote s'
  end.

(** *** [pathlib] (POSIX flavour) *)

(** [s.split('/')], by one pass over the characters. *)
Fixpoint split_slash (s : string) : list string :=
  match s with
  | EmptyString => [EmptyString]
  | String c s' =>
      if Ascii.eqb c "/" then EmptyString :: split_slash s'
      else match split_slash s' with
           | x :: rest => String c x :: rest
           | [] => [String c EmptyString]
           end
  end.

Definition is_component (x : string) : bool :=
  negb (String.eqb x EmptyString) && negb (String.eqb x ".").

(** [Path(p).name]: the last component that is neither empty nor [.]. *)
Definition path_name (p : string) : string :=
  List.last (List.filter is_component (split_slash p)) EmptyString.

(** The text of [s] from its last dot on. *)
Fixpoint last_dot_tail (s : string) : option string :=
  match s with
  | EmptyString => None
  | String c s' =>
      match last_dot_tail s' with
      | Some t => Some t
      | None => if Ascii.eqb c "." then Some s else None
      end
  end.

(** [Path(name).suffix] for a file name: with [i = name.rfind('.')], the
    text [name[i:]] when [0 < i < len(name) - 1], else the empty string. *)
Definition path_suffix (name : string) : string :=
  match name with
  | EmptyString => EmptyString
  | String _ rest =>
      match last_dot_tail rest with
      | Some t => if (1 <? String.length t)%nat then t else EmptyString
      | None => EmptyString
      end
  end.

(** [base / name] for a relative [name] without slashes. *)
Definition path_join (base name : string) : string :=
  if String.eqb name EmptyString then base else base +:+ "/" +:+ name.

(** *** [str()] and [repr()] *)

Definition Z_to_string (z : Z) : string :=
  DecimalString.NilZero.string_of_int (Z.to_int z).

(** [repr(s)] for a [str]: single quotes, unless [s] has a single quote
    and no double quote; backslash escapes for the quote, the backslash
    and the control characters.  Bytes of non-ASCII characters are kept,
    which is what Python does for printable characters. *)
Definition repr_char (quote_char : ascii) (c : ascii) : string :=
  let n := byte_of c in
  if Ascii.eqb c quote_char || (n =? 92) then String (chr 92) (String c EmptyString)
  else if n =? 9 then String (chr 92) "t"
  else if n =? 10 then String (chr 92) "n"
  else if n =? 13 then String (chr 92) "r"
  else if (n <? 32) || (n =? 127) then String (chr 92) ("x" +:+ hex2 hex_lower n)
  else String c EmptyString.

Fixpoint concat_map_str (f : ascii -> string) (s : string) : string :=
  match s with
  | EmptyString => EmptyString
  | String c s' => f c +:+ concat_map_str f s'
  end.

Definition repr_str (s : string) : string :=
  let sq := chr 39 in
  let quote_char := if char_in s sq && negb (contains dq s) then chr 34 else sq in
  String quote_char (concat_map_str (repr_char quote_char) s)
    +:+ String quote_char EmptyString.

End PyLib.

(** *** [hashlib.md5] (RFC 1321), on 32-bit words kept in [Z] *)

Module MD5.

Definition mask32 (x : Z) : Z := Z.land x 0xffffffff.

Definition add32 (x y : Z) : Z := mask32 (x + y).

Definition rotl32 (x : Z) (n : Z) : Z :=
  mask32 (Z.lor (Z.shiftl x n) (Z.shiftr x (32 - n))).

Definition not32 (x : Z) : Z := Z.lxor x 0xffffffff.

Definition K : list Z :=
  [ 0xd76aa478; 0xe8c7b756; 0x242070db; 0xc1bdceee;
    0xf57c0faf; 0x4787c62a; 0xa8304613; 0xfd469501;
    0x698098d8; 0x8b44f7af; 0xffff5bb1; 0x895cd7be;
    0x6b901122; 0xfd987193; 0xa679438e; 0x49b40821;
    0xf61e2562; 0xc040b340; 0x265e5a51; 0xe9b6c7aa;
    0xd62f105d; 0x02441453; 0xd8a1e681; 0xe7d3fbc8;
    0x21e1cde6; 0xc33707d6; 0xf4d50d87; 0x455a14ed;
    0xa9e3e905; 0xfcefa3f8; 0x676f02d9; 0x8d2a4c8a;
    0xfffa3942; 0x8771f681; 0x6d9d6122; 0xfde5380c;
    0xa4beea44; 0x4bdecfa9; 0xf6bb4b60; 0xbebfbc70;
    0x289b7ec6; 0xeaa127fa; 0xd4ef3085; 0x04881d05;
    0xd9d4d039; 0xe6db99e5; 0x1fa27cf8; 0xc4ac5665;
    0xf4292244; 0x432aff97; 0xab9423a7; 0xfc93a039;
    0x655b59c3; 0x8f0ccc92; 0xffeff47d; 0x85845dd1;
    0x6fa87e4f; 0xfe2ce6e0; 0xa3014314; 0x4e0811a1;
    0xf7537e82; 0xbd3af235; 0x2ad7d2bb; 0xeb86d391 ].

Definition shifts : list Z :=
  [ 7; 12; 17; 22; 7; 12; 17; 22; 7; 12; 17; 22; 7; 12; 17; 22;
    5; 9; 14; 20; 5; 9; 14; 20; 5; 9; 14; 20; 5; 9; 14; 20;
    4; 11; 16; 23; 4; 11; 16; 23; 4; 11; 16; 23; 4; 11; 16; 23;
    6; 10; 15; 21; 6; 10; 15; 21; 6; 10; 15; 21; 6; 10; 15; 21 ].

Record state := mkState { sa : Z; sb : Z; sc : Z; sd : Z }.

Definition init : state :=
  mkState 0x67452301 0xefcdab89 0x98badcfe 0x10325476.

(** The message padded to a multiple of 64 bytes: a 1 bit, zeros, and the
    bit length as a 64-bit little-endian integer. *)
Definition le_bytes (n : nat) (x : Z) : list Z :=
  map (fun i => Z.land (Z.shiftr x (8 * Z.of_nat i)) 255) (seq 0 n).

Definition pad (msg : list Z) : list Z :=
  let len := Z.of_nat (length msg) in
  let zeros := Z.to_nat ((55 - len) mod 64) in
  msg ++ [128] ++ repeat 0 zeros ++ le_bytes 8 (Z.land (8 * len) 0xffffffffffffffff).

Fixpoint words_le (n : nat) (bytes : list Z) : list Z :=
  match n with
  | O => []
  | S n' =>
      match bytes with
      | b0 :: b1 :: b2 :: b3 :: rest =>
          (b0 + Z.shiftl b1 8 + Z.shiftl b2 16 + Z.shiftl b3 24) :: words_le n' rest
      | _ => []
      end
  end.

Definition round_fg (i : Z) (b c d : Z) : Z * Z :=
  if i <? 16 then (Z.lor (Z.land b c) (Z.land (not32 b) d), i)
  else if i <? 32 then (Z.lor (Z.land d b) (Z.land (not32 d) c), (5 * i + 1) mod 16)
  else if i <? 48 then (Z.lxor (Z.lxor b c) d, (3 * i + 5) mod 16)
  else (Z.lxor c (Z.lor b (not32 d)), (7 * i) mod 16).

Definition step (m : list Z) (st : state) (i : nat) : state :=
  let '(mkState a b c d) := st in
  let '(f, g) := round_fg (Z.of_nat i) b c d in
  let f' := add32 (add32 (add32 f a) (nth i K 0)) (nth (Z.to_nat g) m 0) in
  mkState d (add32 b (rotl32 f' (nth i shifts 0))) b c.

Definition block (st : state) (bytes : list Z) : state :=
  let m := words_le 16 bytes in
  let st' := fold_left (step m) (seq 0 64) st in
  mkState (add32 (sa st) (sa st')) (add32 (sb st) (sb st'))
          (add32 (sc st) (sc st')) (add32 (sd st) (sd st')).

Fixpoint blocks (n : nat) (st : state) (bytes : list Z) : state :=
  match n with
  | O => st
  | S n' => blocks n' (block st (firstn 64 bytes)) (skipn 64 bytes)
  end.

(** The 16 bytes of [hashlib.md5(msg).digest()]. *)
Definition digest (msg : list Z) : list Z :=
  let p := pad msg in
  let st := blocks (length p / 64) init p in
  le_bytes 4 (sa st) ++ le_bytes 4 (sb st) ++ le_bytes 4 (sc st) ++ le_bytes 4 (sd st).

(** [hashlib.md5(s.encode()).hexdigest()] *)
Definition hexdigest (s : string) : string :=
  fold_right (fun b acc => PyLib.hex2 PyLib.hex_lower b +:+ acc) EmptyString
    (digest (PyLib.bytes_of_string s)).

End MD5.

(** ** Data model *)

(** A JSON value as Python sees it after [json.load] or [response.json()]:
    [None], a boolean, an integer, a string, or a list of image
    references. *)
Inductive value :=
| VNone
| VBool (b : bool)
| VInt (z : Z)
| VStr (s : string)
| VList (l : list string).

(** Python truth value: [if v:]. *)
Definition truthy (v : value) : bool :=
  match v with
  | VNone => false
  | VBool b => b
  | VInt z => negb (z =? 0)
  | VStr s => negb (String.eqb s EmptyString)
  | VList l => match l with [] => false | _ :: _ => true end
  end.

(** [str(v)], which is how an f-string formats [{v}]. *)
Definition py_str (v : value) : string :=
  match v with
  | VNone => "None"
  | VBool true => "True"
  | VBool false => "False"
  | VInt z => PyLib.Z_to_string z
  | VStr s => s
  | VList l => "[" +:+ PyLib.join ", " (map PyLib.repr_str l) +:+ "]"
  end.

(** A row, and a configuration, is a [dict] from keys to values. *)
Abbreviation dict := (gmap string value).

(** [d.get(k, default)] *)
Definition dict_get (d : dict) (k : string) (default : value) : value :=
  match d !! k with
  | Some v => v
  | None => default
  end.

(** A column descriptor of the schema; the script reads its fields with
    [col.get], so each may be missing. *)
Record column := mkColumn {
  col_key : option string;
  col_name : option string;
  col_type : option string
}.

Record table := mkTable {
  table_name : string;
  table_columns : list column
}.

(** ** Exceptions, the world, and the monad of a run *)

Inductive exn :=
| SystemExit (code : Z)
| HTTPError (status : Z)
| PayloadError     (* the body of a reply is not the JSON the script indexes *)
| ValueError (msg : string)
| KeyError (key : string)
| TypeError
| AttributeError
| IndexError
| StopIteration
| FileNotFoundError
| JSONDecodeError (msg : string)
| UnicodeDecodeError (msg : string)   (* a [ValueError], as [JSONDecodeError] is *)
| IsADirectoryError
| NotADirectoryError
| PermissionError
| FileExistsError
| RecursionError
| OSError (errno : Z)                 (* any other [OSError] *)
| StreamError.                        (* a [RequestException] of [iter_content]: the
                                         body broke off ([ChunkedEncodingError],
                                         [ConnectionError]) *)

Inductive result (A : Type) :=
| Ok (a : A)
| Raise (e : exn).
Arguments Ok {A} a.
Arguments Raise {A} e.

(** The exit status of the process when [main] ends with [r]. *)
Definition exit_code {A : Type} (r : result A) : Z :=
  match r with
  | Ok _ => 0
  | Raise (SystemExit n) => n
  | Raise _ => 1
  end.

(** The requests the script sends with [requests.get]. *)
Inductive request :=
| ReqToken (api_token : string)
| ReqMetadata (base_token base_uuid : string)
| ReqRows (base_token base_uuid table_name : string) (view_name : option value)
| ReqDownloadLink (api_token path : string)
| ReqDownload (url : string).

(** A reply: its HTTP status and what the script reads of its body.  For
    a JSON reply that is [Some] of the fields the script indexes, when
    the body has them (the contract of the remote API), else [None]; for
    a download it is the bytes of the body, which are streamed (see
    [stream_error] below). *)
Record reply (A : Type) := mkReply {
  status : Z;
  payload : A
}.
Arguments mkReply {A} status payload.
Arguments status {A} r.
Arguments payload {A} r.

(** What [json.load] makes of a file's text. *)
Inductive json_doc :=
| NotText (msg : string)         (* the bytes are not text: [UnicodeDecodeError] *)
| BadNumber (msg : string)       (* an integer of too many digits: [ValueError] *)
| TooDeep                        (* brackets nested too deep: [RecursionError] *)
| JsonInvalid (msg : string)     (* raises [json.JSONDecodeError] *)
| JsonObject (d : dict)
| JsonOther (v : value).

(** The calls of the operating system behind [Path.exists], [open] and
    [Path.mkdir]. *)
Inductive os_call :=
| OsStat (p : string)
| OsOpenRead (p : string)
| OsOpenWrite (p : string)
| OsMkdir (p : string).

(** The surroundings of a run that the script reads and never changes:
    the JSON reading of each file text, the remote service, and what
    the machine refuses.  [os_error] is the [errno] with which the
    operating system refuses a call for a reason that the world below
    does not show (a missing permission, a read-only or failing device),
    if it does; [write_error p] is the [errno] that ends the writing of
    the file at [p] early and the number of bytes written before it (a
    full disk); [stream_error url] is the number of bytes received
    before the body of the download of [url] breaks off, if it does. *)
Record environment := mkEnv {
  json_load : string -> json_doc;
  app_access_token : string -> reply (option (string * string));
  metadata : string -> string -> reply (option (list table));
  rows : string -> string -> string -> option value -> reply (option (list dict));
  app_download_link : string -> string -> reply (option string);
  download : string -> reply string;
  os_error : os_call -> option Z;
  write_error : string -> option (Z * nat);
  stream_error : string -> option nat
}.

(** The state a run changes: the regular files that the process can
    read, by path; the directories that exist, each listed with its
    ancestors; the requests sent and the lines printed (both oldest
    first).  Paths are relative to the working directory and spelled as
    [pathlib] spells them; [..] and symbolic links are outside the
    model. *)
Record world := mkWorld {
  env : environment;
  files : gmap string string;
  dirs : list string;
  requests : list request;
  stdout : list string
}.

Definition M (A : Type) : Type := world -> result A * world.

Definition ret {A : Type} (a : A) : M A := fun w => (Ok a, w).

Definition raise {A : Type} (e : exn) : M A := fun w => (Raise e, w).

Definition bind {A B : Type} (m : M A) (k : A -> M B) : M B :=
  fun w =>
    match m w with
    | (Ok a, w') => k a w'
    | (Raise e, w') => (Raise e, w')
    end.

Notation "x <- m ;; k" := (bind m (fun x => k))
  (at level 100, m at next level, right associativity).
Notation "m ;;; k" := (bind m (fun _ => k))
  (at level 100, right associativity).

(** [try: m except: handler] for the exceptions [handler] catches. *)
Definition try_except {A : Type} (m : M A) (handler : exn -> option (M A)) : M A :=
  fun w =>
    match m w with
    | (Ok a, w') => (Ok a, w')
    | (Raise e, w') =>
        match handler e with
        | Some h => h w'
        | None => (Raise e, w')
        end
    end.

Definition lift {A : Type} (r : result A) : M A := fun w => (r, w).

(** The ways in which a run changes the world. *)
Definition printed (w : world) (line : string) : world :=
  mkWorld (env w) (files w) (dirs w) (requests w) (stdout w ++ [line]).

Definition sent (w : world) (req : request) : world :=
  mkWorld (env w) (files w) (dirs w) (requests w ++ [req]) (stdout w).

Definition written (w : world) (p content : string) : world :=
  mkWorld (env w) (<[p := content]> (files w)) (dirs w) (requests w) (stdout w).

Definition with_dirs (w : world) (new : list string) : world :=
  mkWorld (env w) (files w) (dirs w ++ new) (requests w) (stdout w).

Definition print (line : string) : M unit :=
  fun w => (Ok tt, printed w line).

Definition sys_exit {A : Type} (code : Z) : M A := raise (SystemExit code).

(** *** More of [pathlib]: [Path(s)], [str(path)], [path.parent] *)

Definition path_root (s : string) : string :=
  if PyLib.startswith "///" s then "/"
  else if PyLib.startswith "//" s then "//"
  else if PyLib.startswith "/" s then "/"
  else EmptyString.

Definition path_parts (s : string) : list string :=
  List.filter PyLib.is_component (PyLib.split_slash s).

Definition path_of_parts (root : string) (parts : list string) : string :=
  match root, parts with
  | EmptyString, [] => "."
  | _, _ => root +:+ PyLib.join "/" parts
  end.

(** [str(Path(s))] *)
Definition Path (s : string) : string :=
  path_of_parts (path_root s) (path_parts s).

(** [str(Path(s).parent)] *)
Definition path_parent (s : string) : string :=
  path_of_parts (path_root s) (removelast (path_parts s)).

(** *** The file system *)

(** The exception that Python makes of an [errno].  The classes of
    [OSError] that no line of the script could tell apart from [OSError]
    itself are not told apart here. *)
Definition exn_of_errno (errno : Z) : exn :=
  if (errno =? 2) then FileNotFoundError
  else if (errno =? 1) || (errno =? 13) then PermissionError
  else if (errno =? 17) then FileExistsError
  else if (errno =? 20) then NotADirectoryError
  else if (errno =? 21) then IsADirectoryError
  else OSError errno.

(** The [errno]s that [pathlib] takes to mean that nothing exists:
    ENOENT, ENOTDIR, EBADF and ELOOP. *)
Definition ignored_by_exists (errno : Z) : bool :=
  (errno =? 2) || (errno =? 20) || (errno =? 9) || (errno =? 40).

(** Whether something exists at path [p]. *)
Definition exists_at (w : world) (p : string) : bool :=
  bool_decide (is_Some (files w !! p)) || bool_decide (p ∈ dirs w).

(** The limits of Linux on a file name and on a path, in bytes. *)
Definition NAME_MAX : nat := 255.
Definition PATH_MAX : nat := 4096.

(** Python refuses a path with a NUL byte before it asks the system. *)
Definition has_nul (p : string) : bool := PyLib.char_in p (ascii_of_nat 0).

Definition is_file (w : world) (p : string) : bool :=
  bool_decide (is_Some (files w !! p)).

Definition is_dir (w : world) (p : string) : bool :=
  String.eqb p "." || String.eqb p "/" || bool_decide (p ∈ dirs w).

(** The directories on the way to [p], outermost first, and then [p]:
    [art], [art/images], [art/images/a.jpg]. *)
Definition chain (p : string) : list string :=
  let root := path_root p in
  let parts := path_parts p in
  map (fun k => path_of_parts root (firstn k parts)) (seq 1 (length parts)).

(** What the system finds when it walks down to a path, component by
    component. *)
Inductive lookup :=
| ReachedDir                    (* a directory *)
| ReachedFile (p : string)      (* the regular file [p] *)
| AbsentLast                    (* nothing, in a directory that exists *)
| AbsentInside                  (* a directory on the way is missing: ENOENT *)
| NotDir                        (* a regular file on the way: ENOTDIR *)
| TooLong.                      (* a name over [NAME_MAX]: ENAMETOOLONG *)

Fixpoint walk (w : world) (prefixes : list string) : lookup :=
  match prefixes with
  | [] => ReachedDir
  | d :: rest =>
      if (NAME_MAX <? String.length (PyLib.path_name d))%nat then TooLong
      else if is_dir w d then walk w rest
      else if is_file w d then
        match rest with
        | [] => ReachedFile d
        | _ :: _ => NotDir
        end
      else
        match rest with
        | [] => AbsentLast
        | _ :: _ => AbsentInside
        end
  end.

(** [path.exists()]: [os.stat], whose errors ENOENT and ENOTDIR, and the
    [ValueError] for a NUL byte, mean that nothing exists; any other
    error is raised. *)
Definition stat (w : world) (p : string) : result bool :=
  if exists_at w p then Ok true
  else if has_nul p then Ok false
  else if (PATH_MAX <=? String.length p)%nat then Raise (OSError 36)
  else
    match walk w (chain p) with
    | TooLong => Raise (OSError 36)
    | ReachedDir | ReachedFile _ => Ok true
    | AbsentLast | AbsentInside | NotDir =>
        match os_error (env w) (OsStat p) with
        | Some errno =>
            if ignored_by_exists errno then Ok false else Raise (exn_of_errno errno)
        | None => Ok false
        end
    end.

Definition path_exists (p : string) : M bool :=
  fun w => (stat w p, w).

(** [open(p, 'r')] and the reading of the file. *)
Definition read_text (w : world) (p : string) : result string :=
  match files w !! p with
  | Some text => Ok text
  | None =>
      if has_nul p then Raise (ValueError "embedded null byte")
      else if String.eqb p EmptyString then Raise FileNotFoundError
      else if (PATH_MAX <=? String.length p)%nat then Raise (OSError 36)
      else
        match walk w (chain p) with
        | TooLong => Raise (OSError 36)
        | NotDir => Raise NotADirectoryError
        | ReachedDir => Raise IsADirectoryError
        | ReachedFile d =>
            match files w !! d with
            | Some text => Ok text
            | None => Raise FileNotFoundError
            end
        | AbsentLast | AbsentInside =>
            match os_error (env w) (OsOpenRead p) with
            | Some errno => Raise (exn_of_errno errno)
            | None => Raise FileNotFoundError
            end
        end
  end.

(** [open(p, 'w')]: the error it raises, or [None] when it leaves the
    file at [p] open and empty. *)
Definition open_write (w : world) (p : string) : option exn :=
  if has_nul p then Some (ValueError "embedded null byte")
  else if String.eqb p EmptyString then Some FileNotFoundError
  else if (PATH_MAX <=? String.length p)%nat then Some (OSError 36)
  else
    match walk w (chain p) with
    | TooLong => Some (OSError 36)
    | NotDir => Some NotADirectoryError
    | ReachedDir => Some IsADirectoryError
    | AbsentInside => Some FileNotFoundError
    | ReachedFile _ | AbsentLast => option_map exn_of_errno (os_error (env w) (OsOpenWrite p))
    end.

(** The failure of a download that is being saved at [p]: the body
    breaks off, or a write fails, whichever comes after fewer bytes. *)
Definition transfer_failure (w : world) (url p : string) : option (exn * nat) :=
  match stream_error (env w) url, write_error (env w) p with
  | Some n1, Some (errno, n2) =>
      if (n2 <? n1)%nat then Some (exn_of_errno errno, n2) else Some (StreamError, n1)
  | Some n1, None => Some (StreamError, n1)
  | None, Some (errno, n2) => Some (exn_of_errno errno, n2)
  | None, None => None
  end.

(** The failure of [write_text] at [p]. *)
Definition write_failure (w : world) (p : string) : option (exn * nat) :=
  match write_error (env w) p with
  | Some (errno, n) => Some (exn_of_errno errno, n)
  | None => None
  end.

(** Writing [content] to the file at [p], which is open and empty: a
    failure leaves the bytes written before it. *)
Definition store (p content : string) (failure : option (exn * nat)) : M unit :=
  fun w =>
    match failure with
    | None => (Ok tt, written w p content)
    | Some (e, n) => (Raise e, written w p (PyLib.take_str n content))
    end.

(** [path.write_text(content)] *)
Definition write_file (p content : string) : M unit :=
  fun w =>
    match open_write w p with
    | Some e => (Raise e, w)
    | None => store p content (write_failure w p) w
    end.

(** [with open(p, 'wb') as f: for chunk in response.iter_content(): f.write(chunk)]
    for the body [content] of the download of [url]. *)
Definition save_stream (p url content : string) : M unit :=
  fun w =>
    match open_write w p with
    | Some e => (Raise e, w)
    | None => store p content (transfer_failure w url p) w
    end.

(** The directories that [mkdir] makes for [p]: those of its chain that
    do not exist. *)
Definition missing_dirs (w : world) (p : string) : list string :=
  List.filter (fun d => negb (is_dir w d)) (chain p).

Definition made_dir (w : world) (p : string) : world :=
  with_dirs w (missing_dirs w p).

(** [path.mkdir(parents=True, exist_ok=True)], which is taken to
    succeed: the directory exists afterwards, with its ancestors. *)
Definition mkdir (p : string) : M unit :=
  fun w => (Ok tt, made_dir w p).

(** [requests.get]: the request is sent, and the reply is the one the
    environment gives for it. *)
Definition requests_get {A : Type} (req : request) (answer : environment -> reply A)
  : M (reply A) :=
  fun w => (Ok (answer (env w)), sent w req).

(** A reply that is not a success: a client or a server error. *)
Definition failed {A : Type} (r : reply A) : bool :=
  (400 <=? status r) && (status r <? 600).

(** [response.raise_for_status()] *)
Definition raise_for_status {A : Type} (r : reply A) : M unit :=
  if failed r then raise (HTTPError (status r)) else ret tt.

(** [response.json()] and the indexing that follows it. *)
Definition json_of {A : Type} (r : reply (option A)) : M A :=
  match payload r with
  | Some a => ret a
  | None => raise PayloadError
  end.

(** The same for code without effects: [result] alone. *)
Definition rbind {A B : Type} (r : result A) (k : A -> result B) : result B :=
  match r with
  | Ok a => k a
  | Raise e => Raise e
  end.

Notation "x <~ r ;; k" := (rbind r (fun x => k))
  (at level 100, r at next level, right associativity).

(** [s[:n]] counted in characters: a UTF-8 continuation byte belongs to
    the character before it. *)
Fixpoint take_chars (n : nat) (s : string) : string :=
  match s with
  | EmptyString => EmptyString
  | String c s' =>
      let b := PyLib.byte_of c in
      if (128 <=? b) && (b <=? 191) then String c (take_chars n s')
      else match n with
           | O => EmptyString
           | S n' => String c (take_chars n' s')
           end
  end.

Fixpoint repeat_str (s : string) (n : nat) : string :=
  match n with
  | O => EmptyString
  | S n' => s +:+ repeat_str s n'
  end.

(** ** The script *)

(** Configuration - Constants (same for all catalogs) *)
Definition API_TOKEN : string := "15d2c34c1ab2c226a629c1dcb9c9e02cffec1376".
Definition SERVER_URL : string := "https://cloud.seatable.io".
Definition TABLE_NAME : string := "Works & Exhibits".

(** Images directory (shared across all catalogs) *)
Definition IMAGES_DIR : string := Path "art/images".

Definition required : list string :=
  [ "view_name"; "output_file"; "header_logo"; "header_title"; "page_title" ].

(** The [try] block of [load_config]. *)
Definition load_config_body (config_file : string) : M dict :=
  fun w =>
    match read_text w config_file with
    | Raise e => (Raise e, w)
    | Ok text =>
        match json_load (env w) text with
        | NotText msg => (Raise (UnicodeDecodeError msg), w)
        | BadNumber msg => (Raise (ValueError msg), w)
        | TooDeep => (Raise RecursionError, w)
        | JsonInvalid msg => (Raise (JSONDecodeError msg), w)
        | JsonOther _ => (Raise AttributeError, w)
        | JsonObject config =>
            let config :=
              <[ "include_purchase_button" :=
                   dict_get config "include_purchase_button" (VBool false) ]> config in
            let missing :=
              List.filter (fun field => negb (bool_decide (is_Some (config !! field))))
                required in
            match missing with
            | [] => (Ok config, w)
            | _ :: _ =>
                (Raise (ValueError ("Missing required config fields: "
                                      +:+ PyLib.join ", " missing)), w)
            end
        end
    end.

(** Load catalog configuration from JSON file *)
Definition load_config (config_file : string) : M dict :=
  try_except (load_config_body config_file)
    (fun e =>
       match e with
       | FileNotFoundError =>
           Some (print ("Error: Config file '" +:+ config_file +:+ "' not found") ;;;
                 sys_exit 1)
       | JSONDecodeError msg =>
           Some (print ("Error: Invalid JSON in config file: " +:+ msg) ;;;
                 sys_exit 1)
       | ValueError msg | UnicodeDecodeError msg =>
           Some (print ("Error: " +:+ msg) ;;; sys_exit 1)
       | _ => None
       end).

(** Get temporary base token from API token *)
Definition get_base_token (api_token : string) : M (string * string) :=
  response <- requests_get (ReqToken api_token) (fun e => app_access_token e api_token) ;;
  raise_for_status response ;;;
  json_of response.

(** Get base metadata including tables and columns *)
Definition get_metadata (base_token base_uuid : string) : M (list table) :=
  response <- requests_get (ReqMetadata base_token base_uuid)
                (fun e => metadata e base_token base_uuid) ;;
  raise_for_status response ;;;
  json_of response.

(** Get all rows from a table/view *)
Definition get_rows (base_token base_uuid table_name : string) (view_name : value)
  : M (list dict) :=
  let params := if truthy view_name then Some view_name else None in
  response <- requests_get (ReqRows base_token base_uuid table_name params)
                (fun e => rows e base_token base_uuid table_name params) ;;
  raise_for_status response ;;;
  json_of response.

(** [unquote(urlparse(image_url).path)], the first two lines of both
    [get_image_filename] and [download_image]. *)
Definition url_path (image_url : value) : result string :=
  match image_url with
  | VStr url =>
      match PyLib.urlparse_path url with
      | Some p => Ok (PyLib.unquote p)
      | None => Raise (ValueError "Invalid URL")
      end
  | _ => Raise AttributeError
  end.

(** Generate unique filename from image URL: hash of the full path, and
    the original extension. *)
Definition get_image_filename (image_url : value) : result string :=
  path <~ url_path image_url ;;
  let original_filename := PyLib.path_name path in
  let extension := PyLib.path_suffix original_filename in
  let path_hash := PyLib.take_str 12 (MD5.hexdigest path) in
  Ok (path_hash +:+ extension).

(** Download image from SeaTable to output path *)
Definition download_image (image_url : value) (api_token : string) (output_path : string)
  : M bool :=
  e <- path_exists output_path ;;
  if e then
    print ("  ✓ Already exists: " +:+ PyLib.path_name output_path) ;;;
    ret true
  else
    path <- lift (url_path image_url) ;;
    if PyLib.contains "/asset/" path then
      let after_asset := nth 1 (PyLib.split "/asset/" path) EmptyString in
      let path_parts := PyLib.split1 "/" after_asset in
      if (1 <? length path_parts)%nat then
        let relative_path := nth 1 path_parts EmptyString in
        response <- requests_get (ReqDownloadLink api_token relative_path)
                      (fun e => app_download_link e api_token relative_path) ;;
        raise_for_status response ;;;
        download_url <- json_of response ;;
        response <- requests_get (ReqDownload download_url)
                      (fun e => download e download_url) ;;
        raise_for_status response ;;;
        save_stream output_path download_url (payload response) ;;;
        print ("  ✓ Downloaded: " +:+ PyLib.path_name output_path) ;;;
        ret true
      else
        print ("  ✗ Could not parse path: " +:+ path) ;;;
        ret false
    else
      print ("  ✗ Invalid URL format: " +:+ py_str image_url) ;;;
      ret false.

(** Find the first image column in the table *)
Definition find_image_column (columns : list column) : option string :=
  match List.find (fun col => bool_decide (col_key col = Some "Jcpv")) columns with
  | Some col => col_key col
  | None =>
      match List.find (fun col => bool_decide (col_type col = Some "image")) columns with
      | Some col =>
          match col_key col with
          | Some k => if String.eqb k EmptyString then col_name col else Some k
          | None => col_name col
          end
      | None => None
      end
  end.

(** *** [generate_html]: the fixed text of the page *)

Definition html_head (page_title header_logo header_title : string) : string :=
  "<!DOCTYPE html>
<html lang=" +:+ dq +:+ "en" +:+ dq +:+ ">
<head>
    <meta charset=" +:+ dq +:+ "UTF-8" +:+ dq +:+ ">
    <meta name=" +:+ dq +:+ "viewport" +:+ dq +:+ " content=" +:+ dq +:+ "width=device-width, initial-scale=1.0" +:+ dq +:+ ">
    <title>" +:+ page_title +:+ "</title>
    <style>
        * {
            margin: 0;
            padding: 0;
            box-sizing: border-box;
        }
        
        body {
            font-family: -apple-system, BlinkMacSystemFont, 'Segoe UI', sans-serif;
            background: #fff;
            padding: 20px;
        }
        
        .container {
            max-width: 1400px;
            margin: 0 auto;
        }
        
        .header {
            display: flex;
            flex-direction: column;
            align-items: center;
            gap: 15px;
            margin-bottom: 40px;
        }
        
        .header img {
            max-width: 100%;
            height: auto;
        }
        
        .header .logo {
            max-width: 400px;
        }
        
        .header .title {
            max-width: 600px;
        }
        
        h1 {
            font-size: 2rem;
            margin-bottom: 30px;
            font-weight: 300;
            text-align: center;
        }
        
        .grid {
            display: grid;
            grid-template-columns: repeat(auto-fill, minmax(300px, 1fr));
            gap: 30px;
        }
        
        .artwork-card {
            background: #f9f9f9;
            border-radius: 2px;
            overflow: hidden;
            box-shadow: 0 1px 3px rgba(0,0,0,0.1);
            transition: box-shadow 0.2s;
        }
        
        .artwork-card:hover {
            box-shadow: 0 4px 12px rgba(0,0,0,0.15);
        }
        
        .artwork-image {
            width: 100%;
            height: 300px;
            background: #f9f9f9;
            display: flex;
            align-items: center;
            justify-content: center;
            padding: 20px;
        }
        
        .artwork-image img {
            max-width: 100%;
            max-height: 300px;
            width: auto;
            height: auto;
            object-fit: contain;
            display: block;
        }
        
        .artwork-info {
            padding: 20px;
        }
        
        .artwork-title {
            font-size: 1.1rem;
            font-weight: 600;
            margin-bottom: 8px;
            color: #222;
        }
        
        .artwork-meta {
            font-size: 0.9rem;
            color: #666;
            line-height: 1.6;
        }
        
        .artwork-meta div {
            margin-bottom: 4px;
        }
        
        .inv-number {
            font-family: monospace;
            color: #999;
            font-size: 0.85rem;
            margin-bottom: 8px;
        }
        
        .price {
            margin-top: 8px;
            font-weight: 600;
            color: #222;
        }
        
        .inquire-btn {
            display: block;
            width: 100%;
            margin-top: 15px;
            padding: 10px;
            background: #888;
            color: white;
            text-align: center;
            text-decoration: none;
            border-radius: 2px;
            font-size: 0.9rem;
            font-weight: 500;
            transition: background 0.2s;
        }
        
        .inquire-btn:hover {
            background: #666;
        }
    </style>
</head>
<body>
    <div class=" +:+ dq +:+ "container" +:+ dq +:+ ">
        <div class=" +:+ dq +:+ "header" +:+ dq +:+ ">
            <img src=" +:+ dq +:+ header_logo +:+ dq +:+ " alt=" +:+ dq +:+ "John Woodruff" +:+ dq +:+ " class=" +:+ dq +:+ "logo" +:+ dq +:+ ">
            <img src=" +:+ dq +:+ header_title +:+ dq +:+ " alt=" +:+ dq +:+ "Available Works" +:+ dq +:+ " class=" +:+ dq +:+ "title" +:+ dq +:+ ">
        </div>
        <div class=" +:+ dq +:+ "grid" +:+ dq +:+ ">
".

Definition card_open (image_filename title : string) : string :=
  "            <div class=" +:+ dq +:+ "artwork-card" +:+ dq +:+ ">
                <div class=" +:+ dq +:+ "artwork-image" +:+ dq +:+ ">
                    <img src=" +:+ dq +:+ "images/" +:+ image_filename +:+ dq +:+ " alt=" +:+ dq +:+ title +:+ dq +:+ ">
                </div>
                <div class=" +:+ dq +:+ "artwork-info" +:+ dq +:+ ">
                    <div class=" +:+ dq +:+ "artwork-title" +:+ dq +:+ ">" +:+ title +:+ "</div>
                    <div class=" +:+ dq +:+ "artwork-meta" +:+ dq +:+ ">
".

Definition card_close : string :=
  "                    </div>
                </div>
            </div>
".

Definition html_foot : string :=
  "        </div>
    </div>
</body>
</html>".

(** *** [generate_html]: one card *)

(** The fields of a row, by the column keys of the SeaTable base. *)
Record fields := mkFields {
  inventory : value;      (* '0000' Inventory number *)
  title : value;          (* 'gScu' Title *)
  series : value;         (* 'z350' Collection/Series *)
  year : value;           (* '4UG7' Date/Year *)
  edition : value;        (* 'rXGj' Current sequence/edition *)
  image_size : value;     (* 'gWXH' Image size *)
  paper_size : value;     (* '2Te2' Paper size *)
  frame_size : value;     (* '6Ci3' Frame size *)
  edition_desc : value;   (* '3y0u' Edition description *)
  medium : value;         (* 'Xe9e' Medium *)
  price : value           (* 'upE4' Price *)
}.

Definition extract_fields (row : dict) : fields :=
  {| inventory := dict_get row "0000" (VStr EmptyString);
     title := dict_get row "gScu" (VStr "Untitled");
     series := dict_get row "z350" (VStr EmptyString);
     year := dict_get row "4UG7" (VStr EmptyString);
     edition := dict_get row "rXGj" (VStr EmptyString);
     image_size := dict_get row "gWXH" (VStr EmptyString);
     paper_size := dict_get row "2Te2" (VStr EmptyString);
     frame_size := dict_get row "6Ci3" (VStr EmptyString);
     edition_desc := dict_get row "3y0u" (VStr EmptyString);
     medium := dict_get row "Xe9e" (VStr EmptyString);
     price := dict_get row "upE4" (VStr EmptyString) |}.

(** [if v: text += s] *)
Definition when (v : value) (s : string) : string :=
  if truthy v then s else EmptyString.

Definition indent : string := "                        ".

(** The lines of the card between the title and the links. *)
Definition card_meta (f : fields) : string :=
  when (inventory f)
    (indent +:+ "<div class=" +:+ q "inv-number" +:+ ">" +:+ py_str (inventory f) +:+ "</div>" +:+ nl)
  +:+ when (series f)
    (indent +:+ "<div><strong>Series:</strong> " +:+ py_str (series f) +:+ "</div>" +:+ nl)
  +:+ when (year f)
    (indent +:+ "<div><strong>Year:</strong> " +:+ py_str (year f) +:+ "</div>" +:+ nl)
  +:+ when (edition f)
    (indent +:+ "<div><strong>Edition:</strong> " +:+ py_str (edition f) +:+ "</div>" +:+ nl)
  +:+ when (image_size f)
    (indent +:+ "<div><strong>Image:</strong> " +:+ py_str (image_size f) +:+ dq +:+ "</div>" +:+ nl)
  +:+ when (paper_size f)
    (indent +:+ "<div><strong>Paper:</strong> " +:+ py_str (paper_size f) +:+ dq +:+ "</div>" +:+ nl)
  +:+ when (frame_size f)
    (indent +:+ "<div><strong>Frame:</strong> " +:+ py_str (frame_size f) +:+ dq +:+ "</div>" +:+ nl)
  +:+ when (edition_desc f)
    (indent +:+ "<div style=" +:+ q "margin-top: 10px; font-size: 0.85rem; line-height: 1.5;"
       +:+ ">" +:+ py_str (edition_desc f) +:+ "</div>" +:+ nl)
  +:+ when (medium f)
    (indent +:+ "<div><strong>Medium:</strong> " +:+ py_str (medium f) +:+ "</div>" +:+ nl)
  +:+ when (price f)
    (indent +:+ "<div class=" +:+ q "price" +:+ ">$" +:+ py_str (price f) +:+ "</div>" +:+ nl).

(** The text of the inquiry email. *)
Definition email_body (f : fields) : string :=
  "I'm interested in the following artwork:" +:+ nl +:+ nl
  +:+ "Title: " +:+ py_str (title f) +:+ nl
  +:+ when (inventory f) ("Inventory: " +:+ py_str (inventory f) +:+ nl)
  +:+ when (series f) ("Series: " +:+ py_str (series f) +:+ nl)
  +:+ when (year f) ("Year: " +:+ py_str (year f) +:+ nl)
  +:+ when (edition f) ("Edition: " +:+ py_str (edition f) +:+ nl)
  +:+ when (image_size f) ("Image Size: " +:+ py_str (image_size f) +:+ dq +:+ nl)
  +:+ when (paper_size f) ("Paper Size: " +:+ py_str (paper_size f) +:+ dq +:+ nl)
  +:+ when (frame_size f) ("Frame Size: " +:+ py_str (frame_size f) +:+ dq +:+ nl)
  +:+ when (edition_desc f) (nl +:+ "Details: " +:+ py_str (edition_desc f) +:+ nl)
  +:+ when (medium f) ("Medium: " +:+ py_str (medium f) +:+ nl)
  +:+ when (price f) (nl +:+ "Price: $" +:+ py_str (price f) +:+ nl).

Definition email_subject (f : fields) : string :=
  "Inquiry: " +:+ py_str (title f)
  +:+ when (inventory f) (" (" +:+ py_str (inventory f) +:+ ")").

(** URL encode for mailto link *)
Definition mailto_link (f : fields) : string :=
  "mailto:jofowood@gmail.com?subject=" +:+ PyLib.quote (email_subject f)
  +:+ "&body=" +:+ PyLib.quote (email_body f).

Definition inquire_button (f : fields) : string :=
  indent +:+ "<a href=" +:+ q (mailto_link f) +:+ " class=" +:+ q "inquire-btn"
  +:+ ">Inquire</a>" +:+ nl.

(** [quote(v)] raises [TypeError] unless [v] is a [str] (or bytes). *)
Definition py_quote (v : value) : result string :=
  match v with
  | VStr s => Ok (PyLib.quote s)
  | _ => Raise TypeError
  end.

Definition form_base_url : string :=
  "https://docs.google.com/forms/d/e/1FAIpQLSeexuq8vTsj5KrOr4trdD1vFrIVnS31sMlGT8sQB_Egc3Idag/viewform".
Definition github_base_url : string := "https://jofowood.github.io/art/art".

(** Only add Purchase Info button if configured *)
Definition purchase_button (config : dict) (f : fields) (image_filename : string)
  : result string :=
  if truthy (dict_get config "include_purchase_button" (VBool false)) then
    let image_url_full := github_base_url +:+ "/images/" +:+ image_filename in
    quoted_title <~ py_quote (title f) ;;
    let purchase_link :=
      form_base_url +:+ "?entry.370646706=" +:+ quoted_title
      +:+ "&entry.673557102=" +:+ PyLib.quote image_url_full in
    Ok (indent +:+ "<a href=" +:+ q purchase_link +:+ " class=" +:+ q "inquire-btn"
        +:+ " target=" +:+ q "_blank" +:+ ">Purchase Info</a>" +:+ nl)
  else Ok EmptyString.

(** [images[0] if isinstance(images, list) else images], for [images]
    that passed [if not images: continue]. *)
Definition first_image (images : value) : result value :=
  match images with
  | VList (url :: _) => Ok (VStr url)
  | VList [] => Raise IndexError
  | v => Ok v
  end.

(** The text one iteration of the loop over the rows adds to the page:
    nothing for a row without images, else one card. *)
Definition render_row (image_column : string) (config : dict) (row : dict)
  : result string :=
  let images := dict_get row image_column (VList []) in
  if negb (truthy images) then Ok EmptyString
  else
    image_url <~ first_image images ;;
    image_filename <~ get_image_filename image_url ;;
    let f := extract_fields row in
    purchase <~ purchase_button config f image_filename ;;
    Ok (card_open image_filename (py_str (title f))
        +:+ card_meta f +:+ inquire_button f +:+ purchase +:+ card_close).

Fixpoint render_rows (image_column : string) (config : dict) (rows : list dict)
  (html : string) : result string :=
  match rows with
  | [] => Ok html
  | row :: rest =>
      card <~ render_row image_column config row ;;
      render_rows image_column config rest (html +:+ card)
  end.

(** Generate HTML catalog page matching existing style *)
Definition generate_html (rows : list dict) (image_column : string)
  (columns : list column) (header_logo header_title page_title : value)
  (config : dict) : result string :=
  (* column_map = {col['name']: col for col in columns} *)
  if negb (forallb (fun col => bool_decide (is_Some (col_name col))) columns)
  then Raise (KeyError "name")
  else
    let html := html_head (py_str page_title) (py_str header_logo) (py_str header_title) in
    html <~ render_rows image_column config rows html ;;
    Ok (html +:+ html_foot).

(** *** [main] *)

Definition nat_str (n : nat) : string := PyLib.Z_to_string (Z.of_nat n).

(** [d[k]] *)
Definition dict_item (d : dict) (k : string) : M value :=
  match d !! k with
  | Some v => ret v
  | None => raise (KeyError k)
  end.

(** [Path(v)] accepts a [str] only. *)
Definition as_path (v : value) : M string :=
  match v with
  | VStr s => ret (Path s)
  | _ => raise TypeError
  end.

(** The body of the loop that downloads the images, for the row numbered
    [i] out of [total]; the result tells whether an image was processed. *)
Definition download_step (image_column : string) (total i : nat) (row : dict) : M bool :=
  let images := dict_get row image_column (VList []) in
  if negb (truthy images) then ret false
  else
    image_url <- lift (first_image images) ;;
    image_filename <- lift (get_image_filename image_url) ;;
    let output_path := PyLib.path_join IMAGES_DIR image_filename in
    print ("   [" +:+ nat_str i +:+ "/" +:+ nat_str total +:+ "] "
           +:+ py_str (dict_get row "gScu"
                         (dict_get row "Title" (dict_get row "Name" (VStr "Untitled"))))) ;;;
    download_image image_url API_TOKEN output_path ;;;
    ret true.

(** [for i, row in enumerate(rows, 1): ...], returning [image_count]. *)
Fixpoint download_loop (image_column : string) (total i : nat) (rows : list dict)
  (image_count : nat) : M nat :=
  match rows with
  | [] => ret image_count
  | row :: rest =>
      processed <- download_step image_column total i row ;;
      download_loop image_column total (S i) rest
        (if processed then S image_count else image_count)
  end.

(** [tables[0] if not TABLE_NAME else next(t for t in tables if t["name"] == TABLE_NAME)] *)
Definition select_table (tables : list table) : M table :=
  if String.eqb TABLE_NAME EmptyString then
    match tables with
    | t :: _ => ret t
    | [] => raise IndexError
    end
  else
    match List.find (fun t => String.eqb (table_name t) TABLE_NAME) tables with
    | Some t => ret t
    | None => raise StopIteration
    end.

(** [main()], for [sys.argv = argv]. *)
Definition main (argv : list string) : M unit :=
  (* Check for config file argument *)
  match argv with
  | _ :: config_file :: _ =>
      (* Load configuration *)
      config <- load_config config_file ;;
      view_name <- dict_item config "view_name" ;;
      output_value <- dict_item config "output_file" ;;
      output_file <- as_path output_value ;;
      header_logo <- dict_item config "header_logo" ;;
      header_title <- dict_item config "header_title" ;;
      page_title <- dict_item config "page_title" ;;
      print "SeaTable Static Catalog Generator" ;;;
      print (repeat_str "=" 50) ;;;
      print ("Config: " +:+ config_file) ;;;
      print ("View: " +:+ py_str view_name) ;;;
      print ("Output: " +:+ output_file) ;;;
      (* Create output directories *)
      mkdir (path_parent output_file) ;;;
      mkdir IMAGES_DIR ;;;
      (* Get base token *)
      print (nl +:+ "1. Authenticating with SeaTable...") ;;;
      token <- get_base_token API_TOKEN ;;
      let '(base_token, base_uuid) := token in
      print ("   ✓ Connected to base: " +:+ take_chars 8 base_uuid +:+ "...") ;;;
      (* Get metadata *)
      print (nl +:+ "2. Loading base structure...") ;;;
      tables <- get_metadata base_token base_uuid ;;
      (* Select table *)
      table <- select_table tables ;;
      print ("   ✓ Using table: " +:+ table_name table) ;;;
      (* Find image column *)
      match find_image_column (table_columns table) with
      | None => print "   ✗ No image column found!"
      | Some image_column =>
          if String.eqb image_column EmptyString then print "   ✗ No image column found!"
          else
            print ("   ✓ Image column: " +:+ image_column) ;;;
            (* Get all columns for display *)
            let all_columns := table_columns table in
            (* Get rows *)
            print (nl +:+ "3. Loading rows from view: " +:+ py_str view_name +:+ "...") ;;;
            rows <- get_rows base_token base_uuid (table_name table) view_name ;;
            print ("   ✓ Found " +:+ nat_str (length rows) +:+ " rows") ;;;
            (* Download images *)
            print (nl +:+ "4. Downloading images to " +:+ IMAGES_DIR +:+ "...") ;;;
            image_count <- download_loop image_column (length rows) 1 rows 0 ;;
            print (nl +:+ "   ✓ Processed " +:+ nat_str image_count +:+ " images") ;;;
            (* Generate HTML *)
            print (nl +:+ "5. Generating " +:+ output_file +:+ "...") ;;;
            html <- lift (generate_html rows image_column all_columns
                            header_logo header_title page_title config) ;;
            write_file output_file html ;;;
            print "   ✓ Catalog generated!" ;;;
            print (nl +:+ "✓ Complete!") ;;;
            print (nl +:+ "Next steps:") ;;;
            print ("  1. Review the generated catalog: " +:+ output_file) ;;;
            print "  2. Commit to git: git add art/" ;;;
            print "  3. Push to GitHub: git push"
      end
  | _ =>
      print "Usage: python3 generate_catalog.py <config_file.json>" ;;;
      print (nl +:+ "Example: python3 generate_catalog.py config_available_works.json") ;;;
      sys_exit 1
  end.

(** The run of the script: the result of [main] and the world it leaves. *)
Definition run (argv : list string) (w : world) : result unit * world := main argv w.

(** * Notions used in the statements *)

(** The value [col.get("key") or col.get("name")] of a column. *)
Definition key_or_name (c : column) : option string :=
  match col_key c with
  | Some k => if String.eqb k EmptyString then col_name c else Some k
  | None => col_name c
  end.

(** The required fields that a configuration object lacks, in the order
    in which they are required. *)
Definition missing_fields (cfg : dict) : list string :=
  List.filter (fun field => bool_decide (cfg !! field = None)) required.

(** A string of [2 * n] lower-case hexadecimal digits. *)
Definition hex_string (n : nat) (s : string) : Prop :=
  String.length s = (2 * n)%nat /\ PyLib.all_chars PyLib.is_hex_lower s = true.

Definition no_slash (s : string) : bool :=
  PyLib.all_chars (fun c => negb (Ascii.eqb c "/")) s.

(** The path has the form [.../asset/<id>/<rest>]; [<id>] and [<rest>]
    may be any text, also none. *)
Definition has_asset_structure (path : string) : Prop :=
  exists pre id rest, path = pre +:+ "/asset/" +:+ id +:+ "/" +:+ rest.

(** The two ways in which [download_image] gives up on a path. *)
Definition rejected (path : string) : Prop :=
  PyLib.contains "/asset/" path = false
  \/ (PyLib.contains "/asset/" path = true
      /\ (1 <? length (PyLib.split1 "/"
                         (nth 1 (PyLib.split "/asset/" path) EmptyString)))%nat = false).

(** The last step of a download: the body is saved, and the file is
    reported. *)
Definition save_and_report (output_path url body : string) : M bool :=
  save_stream output_path url body ;;;
  print ("  ✓ Downloaded: " +:+ PyLib.path_name output_path) ;;;
  ret true.


(** The text that opens a card, and the text that opens a link. *)
Definition card_tag : string := "<div class=" +:+ q "artwork-card" +:+ ">".
Definition link_tag : string := "<a href=".

(** How often [sub] occurs in a page. *)
Definition count_in (r : result string) (sub : string) : option nat :=
  match r with
  | Ok html => Some (PyLib.count_sub sub html)
  | Raise _ => None
  end.

(** ** The display fields other than the title, in the words of the
    specification: a table of fields, each with its line in the card and
    its line in the email, to be compared with [card_meta] and
    [email_body] of the script. *)

Inductive display_field :=
| Inventory | Series | Year | Edition | ImageSize | PaperSize | FrameSize
| EditionDesc | Medium | Price.

Definition all_display_fields : list display_field :=
  [ Inventory; Series; Year; Edition; ImageSize; PaperSize; FrameSize;
    EditionDesc; Medium; Price ].

(** The column key of a display field. *)
Definition field_key (d : display_field) : string :=
  match d with
  | Inventory => "0000" | Series => "z350" | Year => "4UG7" | Edition => "rXGj"
  | ImageSize => "gWXH" | PaperSize => "2Te2" | FrameSize => "6Ci3"
  | EditionDesc => "3y0u" | Medium => "Xe9e" | Price => "upE4"
  end.

Definition field_value (row : dict) (d : display_field) : value :=
  dict_get row (field_key d) (VStr EmptyString).

(** The line of the card for a display field with text [v]. *)
Definition card_line (d : display_field) (v : string) : string :=
  indent +:+
  match d with
  | Inventory => "<div class=" +:+ q "inv-number" +:+ ">" +:+ v +:+ "</div>"
  | Series => "<div><strong>Series:</strong> " +:+ v +:+ "</div>"
  | Year => "<div><strong>Year:</strong> " +:+ v +:+ "</div>"
  | Edition => "<div><strong>Edition:</strong> " +:+ v +:+ "</div>"
  | ImageSize => "<div><strong>Image:</strong> " +:+ v +:+ dq +:+ "</div>"
  | PaperSize => "<div><strong>Paper:</strong> " +:+ v +:+ dq +:+ "</div>"
  | FrameSize => "<div><strong>Frame:</strong> " +:+ v +:+ dq +:+ "</div>"
  | EditionDesc =>
      "<div style=" +:+ q "margin-top: 10px; font-size: 0.85rem; line-height: 1.5;"
      +:+ ">" +:+ v +:+ "</div>"
  | Medium => "<div><strong>Medium:</strong> " +:+ v +:+ "</div>"
  | Price => "<div class=" +:+ q "price" +:+ ">$" +:+ v +:+ "</div>"
  end +:+ nl.

(** The line of the inquiry email for a display field with text [v]. *)
Definition email_line (d : display_field) (v : string) : string :=
  match d with
  | Inventory => "Inventory: " +:+ v
  | Series => "Series: " +:+ v
  | Year => "Year: " +:+ v
  | Edition => "Edition: " +:+ v
  | ImageSize => "Image Size: " +:+ v +:+ dq
  | PaperSize => "Paper Size: " +:+ v +:+ dq
  | FrameSize => "Frame Size: " +:+ v +:+ dq
  | EditionDesc => nl +:+ "Details: " +:+ v
  | Medium => "Medium: " +:+ v
  | Price => nl +:+ "Price: $" +:+ v
  end +:+ nl.

(** The display fields of a row that are present and not empty. *)
Definition shown (row : dict) : list display_field :=
  List.filter (fun d => truthy (field_value row d)) all_display_fields.

(** The lines of the fields [ds], one after the other. *)
Definition lines_of (line : display_field -> string -> string) (row : dict)
  (ds : list display_field) : string :=
  fold_right (fun d acc => line d (py_str (field_value row d)) +:+ acc) EmptyString ds.

(** * Sample data: a small base, to run the script on concrete input *)

(** Columns: one with the key [Jcpv] and not of type [image], an image
    column without a key, one that is neither, and an image column whose
    key is the empty string. *)
Definition jcpv_text_column : column := mkColumn (Some "Jcpv") (Some "Picture") (Some "text").
Definition keyless_image_column : column := mkColumn None (Some "Photo") (Some "image").
Definition plain_column : column := mkColumn (Some "0000") (Some "Inv") (Some "text").
Definition empty_key_image_column : column :=
  mkColumn (Some EmptyString) (Some "Pic") (Some "image").

Definition demo_columns : list column :=
  [ mkColumn (Some "0000") (Some "Inventory") (Some "text");
    mkColumn (Some "Jcpv") (Some "Image") (Some "image") ].

(** An image URL of the usual form, and one whose path ends in [.JPG] as
    the whole last component. *)
Definition dawn_url : string :=
  "https://cloud.seatable.io/workspace/1/asset/u-1/images/2024-02/file.JPG".
Definition dotfile_url : string :=
  "https://cloud.seatable.io/workspace/1/asset/u-1/images/2024-02/.JPG".

(** The cache file of [dawn_url]. *)
Definition dawn_path : string := "art/images/c964f01aec55.JPG".

(** The row of the end-to-end scenario of the specification: title
    [Dawn], inventory [A-1], price [500], one image. *)
Definition dawn_row : dict :=
  list_to_map
    [ ("gScu", VStr "Dawn"); ("0000", VStr "A-1"); ("upE4", VStr "500");
      ("Jcpv", VList [dawn_url]) ].

(** The same row without its price. *)
Definition unpriced_row : dict :=
  list_to_map [ ("gScu", VStr "Dawn"); ("0000", VStr "A-1"); ("Jcpv", VList [dawn_url]) ].

(** A row whose title is the empty string. *)
Definition untitled_row : dict :=
  list_to_map [ ("gScu", VStr EmptyString); ("Jcpv", VList [dawn_url]) ].

(** A row with a title and no image. *)
Definition imageless_row : dict :=
  list_to_map [ ("gScu", VStr "Dusk"); ("Jcpv", VList []) ].

(** A row whose image URL has no [/asset/] in its path. *)
Definition stray_row : dict :=
  list_to_map [ ("gScu", VStr "Stray"); ("Jcpv", VList ["https://example.org/pictures/a.png"]) ].

(** A row whose image URL has no [/asset/] in its path and a suffix of
    300 characters: its cache file name has 313. *)
Definition long_suffix_url : string :=
  "https://example.org/pictures/a." +:+ repeat_str "x" 300.
Definition long_suffix_row : dict :=
  list_to_map [ ("gScu", VStr "Long"); ("Jcpv", VList [long_suffix_url]) ].

(** Configurations: the one of the sample base as written in its file,
    the same as loaded with the purchase button off and on, and the
    object [{"view_name": "X"}]. *)
Definition demo_config : dict :=
  list_to_map
    [ ("view_name", VStr "Available");
      ("output_file", VStr "art/index.html");
      ("header_logo", VStr "logo.png");
      ("header_title", VStr "title.png");
      ("page_title", VStr "Available Works") ].
Definition config_without_button : dict :=
  <[ "include_purchase_button" := VBool false ]> demo_config.
Definition config_with_button : dict :=
  <[ "include_purchase_button" := VBool true ]> demo_config.
Definition only_view_name : dict := {[ "view_name" := VStr "X" ]}.

(** The page of the scenario. *)
Definition scenario_page (config : dict) : result string :=
  generate_html [dawn_row] "Jcpv" demo_columns
    (VStr "logo.png") (VStr "title.png") (VStr "Available Works") config.

(** A remote service that answers every request with success, for given
    tables and rows; one that answers status 503 to the token exchange
    ([stage = 1]), the metadata request ([2]) or the request for rows
    ([3]); and one that is never reached, for a configuration [cfg]. *)
Definition demo_env (tables : list table) (rows : list dict) : environment :=
  mkEnv (fun _ => JsonObject demo_config)
    (fun _ => mkReply 200 (Some ("session-token", "0123456789abcdef")))
    (fun _ _ => mkReply 200 (Some tables))
    (fun _ _ _ _ => mkReply 200 (Some rows))
    (fun _ _ => mkReply 200 (Some "https://cloud.seatable.io/seafhttp/files/t/file.JPG"))
    (fun _ => mkReply 200 "JPEG bytes")
    (fun _ => None) (fun _ => None) (fun _ => None).

Definition failing_env (stage : nat) : environment :=
  mkEnv (fun _ => JsonObject demo_config)
    (fun _ => if (stage =? 1)%nat then mkReply 503 None
              else mkReply 200 (Some ("session-token", "0123456789abcdef")))
    (fun _ _ => if (stage =? 2)%nat then mkReply 503 None
                else mkReply 200 (Some [mkTable TABLE_NAME demo_columns]))
    (fun _ _ _ _ => if (stage =? 3)%nat then mkReply 503 None
                    else mkReply 200 (Some [dawn_row]))
    (fun _ _ => mkReply 200 (Some "https://cloud.seatable.io/seafhttp/files/t/file.JPG"))
    (fun _ => mkReply 200 "JPEG bytes")
    (fun _ => None) (fun _ => None) (fun _ => None).

Definition silent_remote (cfg : dict) : environment :=
  mkEnv (fun _ => JsonObject cfg)
    (fun _ => mkReply 500 None)
    (fun _ _ => mkReply 500 None)
    (fun _ _ _ _ => mkReply 500 None)
    (fun _ _ => mkReply 500 None)
    (fun _ => mkReply 500 EmptyString)
    (fun _ => None) (fun _ => None) (fun _ => None).

(** A world whose only file is the configuration, with the directories
    of the catalog, before any request or output. *)
Definition config_world (e : environment) : world :=
  mkWorld e {[ "config.json" := "{...}" ]} ["art"; "art/images"] [] [].

Definition demo_argv : list string := ["generate_catalog.py"; "config.json"].

Definition demo_world : world :=
  config_world (demo_env [mkTable TABLE_NAME demo_columns] [dawn_row]).

(** A base whose table has no column with key [Jcpv] and none of type
    [image]. *)
Definition no_image_world : world :=
  config_world (demo_env [mkTable TABLE_NAME [plain_column]] [dawn_row]).

(** * Notions and sample data for the further properties *)

(** The row has an image: [images] is not empty, [None] or zero. *)
Definition has_image (image_column : string) (row : dict) : bool :=
  truthy (dict_get row image_column (VList [])).

(** A world without any file, and one whose configuration is not JSON. *)
Definition empty_world : world :=
  mkWorld (silent_remote demo_config) ∅ [] [] [].

Definition broken_json_world : world :=
  config_world
    (mkEnv (fun _ => JsonInvalid "Expecting value: line 1 column 1 (char 0)")
       (fun _ => mkReply 500 None)
       (fun _ _ => mkReply 500 None)
       (fun _ _ _ _ => mkReply 500 None)
       (fun _ _ => mkReply 500 None)
       (fun _ => mkReply 500 EmptyString)
       (fun _ => None) (fun _ => None) (fun _ => None)).

(** A world in which the process may not open [secret.json], and one
    whose configuration file does not hold text. *)
Definition locked_world : world :=
  mkWorld
    (mkEnv (fun _ => JsonObject demo_config)
       (fun _ => mkReply 500 None)
       (fun _ _ => mkReply 500 None)
       (fun _ _ _ _ => mkReply 500 None)
       (fun _ _ => mkReply 500 None)
       (fun _ => mkReply 500 EmptyString)
       (fun call => match call with
                    | OsOpenRead "secret.json" => Some 13
                    | _ => None
                    end)
       (fun _ => None) (fun _ => None))
    ∅ [] [] [].

Definition binary_config_world : world :=
  config_world
    (mkEnv (fun _ => NotText "'utf-8' codec can't decode byte 0xff in position 0: invalid start byte")
       (fun _ => mkReply 500 None)
       (fun _ _ => mkReply 500 None)
       (fun _ _ _ _ => mkReply 500 None)
       (fun _ _ => mkReply 500 None)
       (fun _ => mkReply 500 EmptyString)
       (fun _ => None) (fun _ => None) (fun _ => None)).

(** [mkdir(parents=True, exist_ok=True)] succeeds for [p]: no NUL byte,
    the path and its names are not too long, nothing on the way is a
    regular file, and the system does not refuse to make what is
    missing. *)
Definition can_make_dir (w : world) (p : string) : bool :=
  negb (has_nul p)
  && (String.length p <? PATH_MAX)%nat
  && forallb
       (fun d =>
          (String.length (PyLib.path_name d) <=? NAME_MAX)%nat
          && negb (is_file w d)
          && (is_dir w d
              || match os_error (env w) (OsMkdir d) with
                 | Some _ => false
                 | None => true
                 end))
       (chain p).

(** The exceptions that the handlers of [load_config] catch:
    [FileNotFoundError] and the classes of [ValueError]. *)
Definition caught_by_load_config (e : exn) : bool :=
  match e with
  | FileNotFoundError | JSONDecodeError _ | ValueError _ | UnicodeDecodeError _ => true
  | _ => false
  end.


(** An environment with other failures of the machine. *)
Definition with_faults (e : environment) (os : os_call -> option Z)
  (wr : string -> option (Z * nat)) (st : string -> option nat) : environment :=
  mkEnv (json_load e) (app_access_token e) (metadata e) (rows e) (app_download_link e)
    (download e) os wr st.

(** The sample base when the body of every download breaks off after
    four bytes, and when the disk is full after six. *)
Definition broken_stream_world : world :=
  config_world
    (with_faults (demo_env [mkTable TABLE_NAME demo_columns] [dawn_row])
       (fun _ => None) (fun _ => None) (fun _ => Some 4%nat)).
Definition full_disk_world : world :=
  config_world
    (with_faults (demo_env [mkTable TABLE_NAME demo_columns] [dawn_row])
       (fun _ => None) (fun _ => Some (28, 6%nat)) (fun _ => None)).

(** A base without the table [TABLE_NAME]. *)
Definition other_table_world : world :=
  config_world (demo_env [mkTable "Archive" demo_columns] [dawn_row]).

(** What a call that fetches JSON returns for a reply: the error status
    comes first, then the body. *)
Definition fetched {A : Type} (r : reply (option A)) : result A :=
  if failed r then Raise (HTTPError (status r))
  else match payload r with
       | Some a => Ok a
       | None => Raise PayloadError
       end.

(** The texts [l], one after the other. *)
Definition concat_str (l : list string) : string :=
  fold_right String.append EmptyString l.

(** [cards] are the texts the rows add to the page, row by row. *)
Definition cards_of (image_column : string) (config : dict) (rows : list dict)
  (cards : list string) : Prop :=
  Forall2 (fun row card => render_row image_column config row = Ok card) rows cards.

Definition all_named (columns : list column) : bool :=
  forallb (fun col => bool_decide (is_Some (col_name col))) columns.

(** The characters of a link made of [quote]d text between the fixed
    parts of the script: letters, digits and [_.-~/%:@?=&]. *)
Definition is_href_safe (c : ascii) : bool :=
  PyLib.is_quote_safe c || PyLib.char_in "%:@?=&" c.

(** The card of [dawn_row] without and with the purchase button. *)
Definition dawn_card (config : dict) : string :=
  match render_row "Jcpv" config dawn_row with
  | Ok card => card
  | Raise _ => EmptyString
  end.

(** A row whose image cell is a number, and one whose title is. *)
Definition numeric_image_row : dict :=
  list_to_map [ ("gScu", VStr "Noon"); ("Jcpv", VInt 7) ].
Definition numeric_title_row : dict :=
  list_to_map [ ("gScu", VInt 1984); ("Jcpv", VList [dawn_url]) ].

(** A column without a name. *)
Definition nameless_column : column := mkColumn (Some "x1") None (Some "text").

(** A URL whose path has [/asset/] twice. *)
Definition nested_asset_url : string :=
  "https://cloud.seatable.io/workspace/1/asset/u-1/images/asset/file.JPG".

(** The requests of the download step: for a link, with the API token,
    and for the bytes. *)
Definition is_download_request (req : request) : Prop :=
  match req with
  | ReqDownloadLink token _ => token = API_TOKEN
  | ReqDownload _ => True
  | _ => False
  end.

(** The number of rows that have an image. *)
Definition image_rows (image_column : string) (rows : list dict) : nat :=
  length (List.filter (has_image image_column) rows).

(** What the download loop may change between [w] and [w'], for [k] rows
    with an image: no file that exists is changed, no file outside
    [art/images/] appears, and at most [2 * k] requests are added, all of
    them download requests. *)
Definition loop_frame (w w' : world) (k : nat) : Prop :=
  env w' = env w /\ dirs w' = dirs w
  /\ (forall p content, files w !! p = Some content -> files w' !! p = Some content)
  /\ (forall p, PyLib.startswith "art/images/" p = false -> files w' !! p = files w !! p)
  /\ exists new,
       requests w' = (requests w ++ new)%list
       /\ (length new <= 2 * k)%nat
       /\ Forall is_download_request new.

(** Rows for the download loop: one without the [/asset/] structure, the
    row of the scenario, one without image. *)
Definition mixed_rows : list dict := [stray_row; dawn_row; imageless_row].

(** A host, a path and a query as they are found in ordinary URLs: the
    host is ASCII without brackets and without [/], [?] or [#]; the path
    is empty or starts with a slash and has no [?], [#] or [;]; none has
    a tab or a line break. *)
Definition keeps_byte (c : ascii) : bool := negb (PyLib.is_unsafe_url_byte c).

Definition plain_host (host : string) : bool :=
  negb (PyLib.netloc_rejected host)
  && PyLib.all_chars (fun c => negb (PyLib.char_in "/?#" c)) host
  && PyLib.all_chars keeps_byte host.

Definition plain_path (path : string) : bool :=
  (String.eqb path EmptyString || PyLib.startswith "/" path)
  && negb (PyLib.char_in path "#") && negb (PyLib.char_in path "?")
  && negb (PyLib.char_in path ";")
  && PyLib.all_chars keeps_byte path.

Definition plain_query (query : string) : bool := PyLib.all_chars keeps_byte query.

(** The characters [quote] gives: the ones it keeps and the percent sign
    of its escapes. *)
Definition is_quoted (c : ascii) : bool := PyLib.is_quote_safe c || Ascii.eqb c "%".

(** A row whose title has characters that mean something in a link. *)
Definition ampersand_row : dict :=
  list_to_map
    [ ("gScu", VStr "Dawn & Dusk?"); ("0000", VStr "A-1"); ("upE4", VStr "500");
      ("Jcpv", VList [dawn_url]) ].

(** The image of a row is in the cache. *)
Definition cached (image_column : string) (w : world) (row : dict) : Prop :=
  has_image image_column row = true ->
  exists image_url image_filename,
    first_image (dict_get row image_column (VList [])) = Ok image_url
    /\ get_image_filename image_url = Ok image_filename
    /\ exists_at w (PyLib.path_join IMAGES_DIR image_filename) = true.

(** [path.exists()] finds the image of a row in the cache. *)
Definition found (image_column : string) (w : world) (row : dict) : Prop :=
  has_image image_column row = true ->
  exists image_url image_filename,
    first_image (dict_get row image_column (VList [])) = Ok image_url
    /\ get_image_filename image_url = Ok image_filename
    /\ stat w (PyLib.path_join IMAGES_DIR image_filename) = Ok true.

(** The image of a row, as the download loop takes it. *)
Definition image_of (image_column : string) (row : dict) : value :=
  match first_image (dict_get row image_column (VList [])) with
  | Ok v => v
  | Raise _ => VNone
  end.

(** [download_image] finds the part [/asset/<id>/<rest>] in the path of
    the URL. *)
Definition recognized (image_url : value) : bool :=
  match url_path image_url with
  | Ok path =>
      PyLib.contains "/asset/" path
      && (1 <? length (PyLib.split1 "/" (nth 1 (PyLib.split "/asset/" path) EmptyString)))%nat
  | Raise _ => false
  end.

Definition all_recognized (image_column : string) (rows : list dict) : bool :=
  forallb (fun row => negb (has_image image_column row)
                      || recognized (image_of image_column row)) rows.

(** * Properties *)

(** ** The library models on examples *)

Example md5_empty : MD5.hexdigest EmptyString = "d41d8cd98f00b204e9800998ecf8427e".
Proof. vm_compute. reflexivity. Qed.

Example md5_abc : MD5.hexdigest "abc" = "900150983cd24fb0d6963f7d28e17f72".
Proof. vm_compute. reflexivity. Qed.

Example md5_two_blocks :
  MD5.hexdigest "12345678901234567890123456789012345678901234567890123456789012345678901234567890"
  = "57edf4a22be3c955ac49da2e2107b67a".
Proof. vm_compute. reflexivity. Qed.

Example unquote_ex : PyLib.unquote "/caf%C3%A9/a%20b%2Fc%zz" = "/café/a b/c%zz".
Proof. vm_compute. reflexivity. Qed.

Example quote_ex : PyLib.quote "Inquiry: Dawn (A-1)" = "Inquiry%3A%20Dawn%20%28A-1%29".
Proof. vm_compute. reflexivity. Qed.

Example path_name_ex :
  map PyLib.path_name ["/a/b/file.JPG"; "/a/b/"; "/a/./b/."; "/"; "x"]
  = ["file.JPG"; "b"; "b"; EmptyString; "x"].
Proof. vm_compute. reflexivity. Qed.

Example path_suffix_ex :
  map PyLib.path_suffix ["file.JPG"; "archive.tar.gz"; ".JPG"; "name."; "name"]
  = [".JPG"; ".gz"; EmptyString; EmptyString; EmptyString].
Proof. vm_compute. reflexivity. Qed.

Example split_ex :
  PyLib.split "/asset/" "/w/asset/u/asset/x/y" = ["/w"; "u"; "x/y"]
  /\ PyLib.split1 "/" "u/images/f.jpg" = ["u"; "images/f.jpg"].
Proof. vm_compute. split; reflexivity. Qed.

Example urlparse_path_ex :
  PyLib.urlparse_path
    "https://cloud.seatable.io/workspace/1/asset/u/images/2024-02/fi%20le.JPG;p?q#f"
  = Some "/workspace/1/asset/u/images/2024-02/fi%20le.JPG".
Proof. vm_compute. reflexivity. Qed.

(** ** Strings *)

Lemma append_nil_r (s : string) : s +:+ EmptyString = s.
Proof. induction s as [|c s IH]; simpl; [reflexivity | now rewrite IH]. Qed.

Lemma append_assoc (a b c : string) : (a +:+ b) +:+ c = a +:+ (b +:+ c).
Proof. induction a as [|x a IH]; simpl; [reflexivity | now rewrite IH]. Qed.

Lemma length_append (a b : string) :
  String.length (a +:+ b) = (String.length a + String.length b)%nat.
Proof. induction a as [|x a IH]; simpl; [reflexivity | now rewrite IH]. Qed.

Lemma startswith_spec (p s : string) :
  PyLib.startswith p s = true -> s = p +:+ PyLib.drop_str (String.length p) s.
Proof.
  revert s. induction p as [|a p IH]; intros s H; simpl in *.
  - reflexivity.
  - destruct s as [|b s]; [discriminate|].
    destruct (Ascii.eqb a b) eqn:E; [|discriminate].
    apply Ascii.eqb_eq in E. subst b. simpl. f_equal. now apply IH.
Qed.

Lemma startswith_append (p s : string) : PyLib.startswith p (p +:+ s) = true.
Proof.
  induction p as [|a p IH]; simpl; [reflexivity|].
  now rewrite Ascii.eqb_refl.
Qed.

(** [find_sep] cuts [s] around an occurrence of [sep]. *)
Lemma find_sep_Some (sep s a b : string) :
  PyLib.find_sep sep s = Some (a, b) -> s = a +:+ sep +:+ b.
Proof.
  revert a b. induction s as [|c s IH]; intros a b H; simpl in H.
  - destruct sep; simpl in H; [|discriminate].
    now inversion H.
  - destruct (PyLib.startswith sep (String c s)) eqn:E.
    + inversion H; subst. simpl. now apply startswith_spec.
    + destruct (PyLib.find_sep sep s) as [[a' b']|] eqn:F; [|discriminate].
      inversion H; subst. simpl. f_equal. now apply IH.
Qed.

Lemma find_sep_at_start (sep s : string) :
  PyLib.startswith sep s = true -> PyLib.find_sep sep s <> None.
Proof.
  intros H. destruct s as [|c s]; cbn [PyLib.find_sep]; rewrite H; discriminate.
Qed.

(** [find_sep] finds every occurrence: if [sep] occurs, the result is not
    [None]. *)
Lemma find_sep_complete (sep a b : string) :
  PyLib.find_sep sep (a +:+ sep +:+ b) <> None.
Proof.
  induction a as [|c a IH].
  - change (EmptyString +:+ sep +:+ b) with (sep +:+ b).
    apply find_sep_at_start. apply startswith_append.
  - change (String c a +:+ sep +:+ b) with (String c (a +:+ sep +:+ b)).
    cbn [PyLib.find_sep].
    destruct (PyLib.startswith sep (String c (a +:+ sep +:+ b))); [discriminate|].
    destruct (PyLib.find_sep sep (a +:+ sep +:+ b)) as [[x y]|]; [discriminate|].
    contradiction.
Qed.

(** The first piece of a split is a prefix of the text. *)
Lemma split_fuel_hd (n : nat) (sep s : string) :
  exists rest, s = hd EmptyString (PyLib.split_fuel n sep s) +:+ rest.
Proof.
  destruct n as [|n].
  - exists EmptyString. symmetry. apply append_nil_r.
  - cbn [PyLib.split_fuel].
    destruct (PyLib.find_sep sep s) as [[a b]|] eqn:F.
    + exists (sep +:+ b). now apply find_sep_Some.
    + exists EmptyString. symmetry. apply append_nil_r.
Qed.

(** A cut leaves less text, so the rounds of [split] never run out. *)
Lemma find_sep_shorter (sep s a b : string) :
  sep <> EmptyString -> PyLib.find_sep sep s = Some (a, b) ->
  (String.length b < String.length s)%nat.
Proof.
  intros Hsep H. apply find_sep_Some in H. subst s.
  rewrite !length_append. destruct sep; [contradiction | simpl; lia].
Qed.

Lemma find_sep_empty (sep : string) :
  sep <> EmptyString -> PyLib.find_sep sep EmptyString = None.
Proof. intros H. destruct sep; [contradiction | reflexivity]. Qed.

Lemma split_fuel_enough (sep : string) (n m : nat) (s : string) :
  sep <> EmptyString ->
  (String.length s <= n)%nat -> (String.length s <= m)%nat ->
  PyLib.split_fuel n sep s = PyLib.split_fuel m sep s.
Proof.
  intros Hsep. revert m s. induction n as [|n IH]; intros m s Hn Hm.
  - destruct s; [|simpl in Hn; lia].
    destruct m; cbn [PyLib.split_fuel]; [reflexivity|].
    now rewrite find_sep_empty.
  - destruct m as [|m].
    + destruct s; [|simpl in Hm; lia].
      cbn [PyLib.split_fuel]. now rewrite find_sep_empty.
    + cbn [PyLib.split_fuel].
      destruct (PyLib.find_sep sep s) as [[a b]|] eqn:F; [|reflexivity].
      pose proof (find_sep_shorter _ _ _ _ Hsep F). f_equal. apply IH; lia.
Qed.

(** [split] is Python's: the text before the first occurrence of the
    separator, then the split of the text after it. *)
Lemma split_unfold (sep s : string) :
  sep <> EmptyString ->
  PyLib.split sep s
  = match PyLib.find_sep sep s with
    | None => [s]
    | Some (a, b) => a :: PyLib.split sep b
    end.
Proof.
  intros Hsep. unfold PyLib.split.
  destruct (String.length s) as [|n] eqn:L.
  - destruct s; [|discriminate L]. now rewrite find_sep_empty.
  - cbn [PyLib.split_fuel].
    destruct (PyLib.find_sep sep s) as [[a b]|] eqn:F; [|reflexivity].
    pose proof (find_sep_shorter _ _ _ _ Hsep F). f_equal.
    apply split_fuel_enough; [assumption | lia | lia].
Qed.

(** The rounds of [utf8_replace] never run out either: each consumes at
    least one byte. *)
Lemma utf8_replace_fuel_enough (f g : nat) (l : list Z) :
  (length l <= f)%nat -> (length l <= g)%nat ->
  PyLib.utf8_replace_fuel f l = PyLib.utf8_replace_fuel g l.
Proof.
  revert g l. induction f as [|f IH]; intros g l Hf Hg.
  - destruct l; [|simpl in Hf; lia]. destruct g; reflexivity.
  - destruct g as [|g]; [destruct l; [reflexivity | simpl in Hg; lia]|].
    destruct l as [|b rest]; [reflexivity|]. simpl in Hf, Hg.
    assert (Hskip : forall k, (length (skipn k rest) <= length rest)%nat).
    { intros k. rewrite length_skipn. lia. }
    cbn [PyLib.utf8_replace_fuel].
    destruct (b <? 128); [f_equal; apply IH; lia|].
    destruct (PyLib.seq_len b) as [|[|k]]; [f_equal; apply IH; lia ..|].
    destruct (PyLib.second_range b) as [lo hi].
    destruct (PyLib.is_cont lo hi rest); [|f_equal; apply IH; lia].
    destruct (_ =? k)%nat; f_equal; apply IH;
      match goal with |- (length (skipn ?j rest) <= _)%nat => specialize (Hskip j); lia end.
Qed.

(** ** Lists *)

Lemma find_all_false {A : Type} (f : A -> bool) (l : list A) :
  (forall x, In x l -> f x = false) -> List.find f l = None.
Proof.
  induction l as [|a l IH]; intros H; simpl; [reflexivity|].
  rewrite (H a (or_introl eq_refl)). apply IH. intros x Hx. apply H. now right.
Qed.

Lemma find_first {A : Type} (f : A -> bool) (pre : list A) (c : A) (post : list A) :
  (forall x, In x pre -> f x = false) -> f c = true ->
  List.find f (pre ++ c :: post) = Some c.
Proof.
  induction pre as [|a pre IH]; intros H Hc; simpl.
  - now rewrite Hc.
  - rewrite (H a (or_introl eq_refl)). apply IH; [|assumption].
    intros x Hx. apply H. now right.
Qed.

(** ** C9: the choice of the image column *)

(** C9, as amended.  A column with key ["Jcpv"] wins whatever its type.
    Without one, the first column of type ["image"] is taken, and the
    result is its key when that is present and not empty, else its name.
    Without either, there is no image column. *)
Theorem find_image_column_rule :
  (forall columns,
     (exists c, In c columns /\ col_key c = Some "Jcpv") ->
     find_image_column columns = Some "Jcpv")
  /\ (forall pre c post,
        (forall x, In x (pre ++ c :: post) -> col_key x <> Some "Jcpv") ->
        (forall x, In x pre -> col_type x <> Some "image") ->
        col_type c = Some "image" ->
        find_image_column (pre ++ c :: post) = key_or_name c
        /\ (forall k, col_key c = Some k -> k <> EmptyString ->
                      find_image_column (pre ++ c :: post) = Some k)
        /\ (col_key c = None -> find_image_column (pre ++ c :: post) = col_name c))
  /\ (forall columns,
        (forall x, In x columns ->
                   col_key x <> Some "Jcpv" /\ col_type x <> Some "image") ->
        find_image_column columns = None).
Proof.
  split; [|split].
  - intros columns (c & Hin & Hk). unfold find_image_column.
    destruct (List.find _ columns) as [col|] eqn:F.
    + apply find_some in F. destruct F as [_ F].
      now apply bool_decide_eq_true in F.
    + exfalso. eapply find_none in F; [|exact Hin].
      apply bool_decide_eq_false in F. contradiction.
  - intros pre c post Hj Hpre Hc.
    assert (E : find_image_column (pre ++ c :: post) = key_or_name c).
    { unfold find_image_column. rewrite find_all_false.
      - rewrite (find_first _ pre c post); [reflexivity | | ].
        + intros x Hx. apply bool_decide_eq_false. now apply Hpre.
        + now apply bool_decide_eq_true.
      - intros x Hx. apply bool_decide_eq_false. now apply Hj. }
    split; [exact E|]. rewrite E. unfold key_or_name. split.
    + intros k Hk Hne. rewrite Hk.
      destruct (String.eqb k EmptyString) eqn:Q; [|reflexivity].
      apply String.eqb_eq in Q. contradiction.
    + intros Hk. now rewrite Hk.
  - intros columns H. unfold find_image_column.
    rewrite find_all_false.
    + rewrite find_all_false; [reflexivity|].
      intros x Hx. apply bool_decide_eq_false. now apply H.
    + intros x Hx. apply bool_decide_eq_false. now apply H.
Qed.

Lemma find_image_column_rule_witness :
  find_image_column [keyless_image_column; jcpv_text_column] = Some "Jcpv"
  /\ find_image_column [plain_column; keyless_image_column] = Some "Photo"
  /\ find_image_column [plain_column] = None.
Proof.
  destruct find_image_column_rule as (H1 & H2 & H3).
  split; [|split].
  - apply H1. exists jcpv_text_column. split; [right; left; reflexivity | reflexivity].
  - apply (H2 [plain_column] keyless_image_column []).
    + intros x [<-|[<-|[]]]; discriminate.
    + intros x [<-|[]]; discriminate.
    + reflexivity.
    + reflexivity.
  - apply H3. intros x [<-|[]]. split; discriminate.
Defined.

(** C9 as stated fails: it has the fallback return the key whenever the
    key is not missing. *)
Lemma find_image_column_empty_key :
  ~ (forall pre c post,
       (forall x, In x (pre ++ c :: post) -> col_key x <> Some "Jcpv") ->
       (forall x, In x pre -> col_type x <> Some "image") ->
       col_type c = Some "image" ->
       find_image_column (pre ++ c :: post)
       = match col_key c with Some k => Some k | None => col_name c end).
Proof.
  intros H. specialize (H [] empty_key_image_column []).
  assert (E : find_image_column [empty_key_image_column] = Some "Pic") by reflexivity.
  simpl in H. rewrite E in H.
  assert (G : Some "Pic" = Some EmptyString).
  { apply H.
    - intros x [<-|[]]. discriminate.
    - intros x [].
    - reflexivity. }
  discriminate G.
Qed.

(** ** C5: validation of the configuration *)

Lemma missing_fields_spec (cfg : dict) (field : string) :
  In field (missing_fields cfg) <-> In field required /\ cfg !! field = None.
Proof.
  unfold missing_fields. rewrite filter_In, bool_decide_eq_true. reflexivity.
Qed.

Lemma not_is_Some_None {A : Type} (o : option A) :
  negb (bool_decide (is_Some o)) = bool_decide (o = None).
Proof. destruct o; reflexivity. Qed.

(** Setting [include_purchase_button] does not change which required
    fields are missing. *)
Lemma missing_after_default (cfg : dict) (v : value) :
  List.filter
    (fun field =>
       negb (bool_decide (is_Some (<[ "include_purchase_button" := v ]> cfg !! field))))
    required
  = missing_fields cfg.
Proof.
  unfold missing_fields. apply filter_ext_in. intros field Hin.
  rewrite not_is_Some_None.
  assert (Hne : "include_purchase_button" <> field).
  { unfold required in Hin. simpl in Hin.
    destruct Hin as [<-|[<-|[<-|[<-|[<-|[]]]]]]; discriminate. }
  now rewrite lookup_insert_ne.
Qed.

(** C5.  For a configuration file that holds a JSON object: the missing
    fields are exactly the required fields the object lacks; when there
    are any, [load_config] prints one line that names them, in order and
    separated by commas, and exits with status 1, writing and sending
    nothing; when there are none, it returns the object with
    [include_purchase_button] set to [False] if it was absent, and
    otherwise unchanged. *)
Theorem load_config_validation (w : world) (config_file text : string) (cfg : dict) :
  files w !! config_file = Some text ->
  json_load (env w) text = JsonObject cfg ->
  (forall field,
     In field (missing_fields cfg) <-> In field required /\ cfg !! field = None)
  /\ (missing_fields cfg <> [] ->
      exists w',
        load_config config_file w = (Raise (SystemExit 1), w')
        /\ exit_code (fst (load_config config_file w)) <> 0
        /\ stdout w' = (stdout w ++ [ "Error: Missing required config fields: "
                                        +:+ PyLib.join ", " (missing_fields cfg) ])%list
        /\ files w' = files w /\ requests w' = requests w)
  /\ (missing_fields cfg = [] ->
      exists config,
        load_config config_file w = (Ok config, w)
        /\ (cfg !! "include_purchase_button" = None ->
            config !! "include_purchase_button" = Some (VBool false))
        /\ (forall v, cfg !! "include_purchase_button" = Some v ->
                      config !! "include_purchase_button" = Some v)
        /\ (forall k, k <> "include_purchase_button" -> config !! k = cfg !! k)).
Proof.
  intros Hfile Hjson.
  split; [intros field; apply missing_fields_spec|].
  assert (Hbody : load_config_body config_file w =
    match missing_fields cfg with
    | [] => (Ok (<[ "include_purchase_button" :=
                      dict_get cfg "include_purchase_button" (VBool false) ]> cfg), w)
    | _ :: _ => (Raise (ValueError ("Missing required config fields: "
                                      +:+ PyLib.join ", " (missing_fields cfg))), w)
    end).
  { unfold load_config_body, read_text. rewrite Hfile, Hjson.
    rewrite missing_after_default. reflexivity. }
  split.
  - intros Hne. unfold load_config, try_except. rewrite Hbody.
    destruct (missing_fields cfg) as [|m ms] eqn:E; [contradiction|].
    eexists. split; [reflexivity|]. simpl. repeat split. discriminate.
  - intros Hnone. unfold load_config, try_except. rewrite Hbody, Hnone.
    eexists. split; [reflexivity|]. unfold dict_get. repeat split.
    + intros H. now rewrite lookup_insert_eq, H.
    + intros v H. now rewrite lookup_insert_eq, H.
    + intros k Hk. now rewrite lookup_insert_ne.
Qed.

(** The example of the specification: the four other required fields are
    named, and only they. *)
Lemma load_config_validation_witness :
  exists w',
    load_config "config.json" (config_world (silent_remote only_view_name))
    = (Raise (SystemExit 1), w')
    /\ stdout w' = [ "Error: Missing required config fields: output_file, header_logo, header_title, page_title" ].
Proof.
  destruct (load_config_validation (config_world (silent_remote only_view_name))
              "config.json" "{...}" only_view_name) as (_ & Hmiss & _).
  - reflexivity.
  - reflexivity.
  - destruct Hmiss as (w' & Hrun & _ & Hout & _).
    + vm_compute. discriminate.
    + exists w'. split; [exact Hrun|]. rewrite Hout. vm_compute. reflexivity.
Defined.

(** ** C3: the cache file name of an image *)

Lemma nibble_bounds (x : Z) : 0 <= Z.land x 15 < 16.
Proof.
  change 15 with (Z.ones 4). rewrite Z.land_ones by lia.
  apply Z.mod_pos_bound. reflexivity.
Qed.

Lemma hex_lower_digit (n : Z) :
  0 <= n < 16 -> PyLib.is_hex_lower (PyLib.nth_char PyLib.hex_lower n) = true.
Proof.
  intros H. rewrite <- (Z2Nat.id n) by lia.
  assert (Hk : (Z.to_nat n < 16)%nat) by lia.
  revert Hk. generalize (Z.to_nat n) as k. intros k Hk.
  do 16 (destruct k as [|k]; [reflexivity|]). lia.
Qed.

Lemma hex2_shape (b : Z) :
  exists c1 c2,
    PyLib.hex2 PyLib.hex_lower b = String c1 (String c2 EmptyString)
    /\ PyLib.is_hex_lower c1 = true /\ PyLib.is_hex_lower c2 = true.
Proof.
  unfold PyLib.hex2. eexists _, _. split; [reflexivity|].
  split; apply hex_lower_digit, nibble_bounds.
Qed.

Lemma all_chars_app (p : ascii -> bool) (a b : string) :
  PyLib.all_chars p (a +:+ b) = PyLib.all_chars p a && PyLib.all_chars p b.
Proof.
  induction a as [|c a IH]; simpl; [reflexivity|].
  now rewrite IH, andb_assoc.
Qed.

Lemma hex_of_bytes (l : list Z) :
  hex_string (length l)
    (fold_right (fun b acc => PyLib.hex2 PyLib.hex_lower b +:+ acc) EmptyString l).
Proof.
  induction l as [|b l [IHlen IHhex]]; [split; reflexivity|].
  cbn [fold_right length].
  destruct (hex2_shape b) as (c1 & c2 & -> & H1 & H2).
  split.
  - rewrite length_append, IHlen. simpl. lia.
  - rewrite all_chars_app, IHhex. simpl. now rewrite H1, H2.
Qed.

(** [hexdigest()] is 32 lower-case hexadecimal digits. *)
Lemma hexdigest_shape (s : string) : hex_string 16 (MD5.hexdigest s).
Proof. unfold MD5.hexdigest, MD5.digest. apply hex_of_bytes. Qed.

Lemma take_str_hex (n m : nat) (s : string) :
  (n <= m)%nat -> hex_string m s ->
  String.length (PyLib.take_str (2 * n) s) = (2 * n)%nat
  /\ PyLib.all_chars PyLib.is_hex_lower (PyLib.take_str (2 * n) s) = true.
Proof.
  intros Hle [Hlen Hhex].
  assert (Hk : (2 * n <= String.length s)%nat) by lia.
  clear Hlen Hle. revert s Hk Hhex. generalize (2 * n)%nat as k.
  induction k as [|k IH]; intros s Hk Hhex; [split; reflexivity|].
  destruct s as [|c s]; simpl in *; [lia|].
  apply andb_prop in Hhex. destruct Hhex as [Hc Hs].
  destruct (IH s) as [L A]; [lia | assumption |].
  split; [now rewrite L | now rewrite Hc, A].
Qed.

(** The twelve digits that start every file name. *)
Lemma path_hash_shape (path : string) :
  String.length (PyLib.take_str 12 (MD5.hexdigest path)) = 12%nat
  /\ PyLib.all_chars PyLib.is_hex_lower (PyLib.take_str 12 (MD5.hexdigest path)) = true.
Proof.
  apply (take_str_hex 6 16); [lia | apply hexdigest_shape].
Qed.

Lemma split_slash_cons (s : string) : PyLib.split_slash s <> [].
Proof.
  destruct s as [|c s]; simpl; [discriminate|].
  destruct (Ascii.eqb c "/"); [discriminate|].
  destruct (PyLib.split_slash s); discriminate.
Qed.

Lemma split_slash_no_slash (s : string) :
  no_slash s = true -> PyLib.split_slash s = [s].
Proof.
  induction s as [|c s IH]; intros H; simpl in *; [reflexivity|].
  apply andb_prop in H. destruct H as [Hc Hs].
  apply negb_true_iff in Hc. rewrite Hc, (IH Hs). reflexivity.
Qed.

(** The pieces of [d/n] are those of [d] and then those of [n]. *)
Lemma split_slash_app (d n : string) :
  PyLib.split_slash (d +:+ "/" +:+ n) = (PyLib.split_slash d ++ PyLib.split_slash n)%list.
Proof.
  induction d as [|c d IH]; [reflexivity|].
  change (String c d +:+ "/" +:+ n) with (String c (d +:+ "/" +:+ n)).
  cbn [PyLib.split_slash]. rewrite IH.
  destruct (Ascii.eqb c "/"); [reflexivity|].
  destruct (PyLib.split_slash d) eqn:E; [|reflexivity].
  now apply split_slash_cons in E.
Qed.

Lemma last_filter_app (l : list string) (n : string) :
  PyLib.is_component n = true ->
  List.last (List.filter PyLib.is_component (l ++ [n])) EmptyString = n.
Proof.
  intros H. rewrite List.filter_app. simpl. rewrite H. apply last_last.
Qed.

(** The name of a path is its text after the last slash, when that text
    is a component. *)
Lemma path_name_last (dir n : string) :
  dir = EmptyString \/ (exists d, dir = d +:+ "/") ->
  no_slash n = true -> PyLib.is_component n = true ->
  PyLib.path_name (dir +:+ n) = n.
Proof.
  intros Hdir Hn Hc. unfold PyLib.path_name. destruct Hdir as [->|[d ->]].
  - simpl. rewrite (split_slash_no_slash n Hn). simpl. now rewrite Hc.
  - rewrite append_assoc, split_slash_app, (split_slash_no_slash n Hn).
    now apply last_filter_app.
Qed.

Lemma last_dot_tail_JPG (a : string) :
  PyLib.last_dot_tail (a +:+ ".JPG") = Some ".JPG".
Proof.
  induction a as [|c a IH]; [reflexivity|].
  change (String c a +:+ ".JPG") with (String c (a +:+ ".JPG")).
  cbn [PyLib.last_dot_tail]. now rewrite IH.
Qed.

Lemma path_suffix_JPG (stem : string) :
  stem <> EmptyString -> PyLib.path_suffix (stem +:+ ".JPG") = ".JPG".
Proof.
  intros H. destruct stem as [|c stem]; [contradiction|].
  change (String c stem +:+ ".JPG") with (String c (stem +:+ ".JPG")).
  unfold PyLib.path_suffix. now rewrite last_dot_tail_JPG.
Qed.

Lemma is_component_JPG (stem : string) :
  stem <> EmptyString -> PyLib.is_component (stem +:+ ".JPG") = true.
Proof.
  intros H. destruct stem as [|c [|c' stem]]; [contradiction| |].
  - unfold PyLib.is_component. simpl.
    destruct (Ascii.eqb c "."); reflexivity.
  - unfold PyLib.is_component. simpl.
    destruct (Ascii.eqb c "."); reflexivity.
Qed.

Lemma no_slash_app (a b : string) :
  no_slash a = true -> no_slash b = true -> no_slash (a +:+ b) = true.
Proof.
  unfold no_slash. induction a as [|c a IH]; intros Ha Hb; simpl in *; [assumption|].
  apply andb_prop in Ha. destruct Ha as [Hc Ha]. now rewrite Hc, IH.
Qed.

Lemma drop_str_app (a b : string) : PyLib.drop_str (String.length a) (a +:+ b) = b.
Proof. induction a as [|c a IH]; simpl; [reflexivity | assumption]. Qed.

Lemma endswith_app (a p : string) : PyLib.endswith p (a +:+ p) = true.
Proof.
  unfold PyLib.endswith. rewrite length_append.
  replace (String.length a + String.length p - String.length p)%nat
    with (String.length a) by lia.
  rewrite drop_str_app, String.eqb_refl, andb_true_r.
  apply Nat.leb_le. lia.
Qed.

(** C3, as amended.  The file name of an image URL depends on the URL
    alone, whatever the world of the call.  It is twelve lower-case
    hexadecimal digits, the start of the MD5 digest of the decoded path,
    followed by the suffix of the path's last component.  When that last
    component is a non-empty stem followed by [.JPG], the file name ends
    in [.JPG]. *)
Theorem get_image_filename_shape (url : string) :
  (forall w1 w2 : world,
     fst (lift (get_image_filename (VStr url)) w1)
     = fst (lift (get_image_filename (VStr url)) w2))
  /\ (forall fn,
        get_image_filename (VStr url) = Ok fn ->
        exists p,
          PyLib.urlparse_path url = Some p
          /\ fn = PyLib.take_str 12 (MD5.hexdigest (PyLib.unquote p))
                  +:+ PyLib.path_suffix (PyLib.path_name (PyLib.unquote p))
          /\ String.length (PyLib.take_str 12 (MD5.hexdigest (PyLib.unquote p))) = 12%nat
          /\ PyLib.all_chars PyLib.is_hex_lower
               (PyLib.take_str 12 (MD5.hexdigest (PyLib.unquote p))) = true)
  /\ (forall p dir stem,
        PyLib.urlparse_path url = Some p ->
        PyLib.unquote p = dir +:+ stem +:+ ".JPG" ->
        dir = EmptyString \/ (exists d, dir = d +:+ "/") ->
        stem <> EmptyString ->
        no_slash stem = true ->
        exists fn,
          get_image_filename (VStr url) = Ok fn
          /\ fn = PyLib.take_str 12 (MD5.hexdigest (PyLib.unquote p)) +:+ ".JPG"
          /\ PyLib.endswith ".JPG" fn = true).
Proof.
  split; [reflexivity|]. split.
  - intros fn H. unfold get_image_filename, url_path in H.
    destruct (PyLib.urlparse_path url) as [p|]; [|discriminate].
    cbn [rbind] in H. inversion H; subst fn. exists p.
    split; [reflexivity|]. split; [reflexivity|]. apply path_hash_shape.
  - intros p dir stem Hp Hpath Hdir Hstem Hslash.
    unfold get_image_filename, url_path. rewrite Hp. cbn [rbind]. rewrite Hpath.
    rewrite (path_name_last dir (stem +:+ ".JPG")); try assumption.
    + rewrite (path_suffix_JPG stem Hstem). eexists. split; [reflexivity|].
      split; [reflexivity | apply endswith_app].
    + now apply no_slash_app.
    + now apply is_component_JPG.
Qed.

Lemma get_image_filename_shape_witness :
  get_image_filename (VStr dawn_url) = Ok "c964f01aec55.JPG".
Proof.
  destruct (get_image_filename_shape dawn_url) as (_ & _ & H).
  destruct (H "/workspace/1/asset/u-1/images/2024-02/file.JPG"
              "/workspace/1/asset/u-1/images/2024-02/" "file")
    as (fn & Hfn & Heq & _).
  - vm_compute. reflexivity.
  - vm_compute. reflexivity.
  - right. exists "/workspace/1/asset/u-1/images/2024-02". reflexivity.
  - discriminate.
  - reflexivity.
  - rewrite Hfn, Heq. vm_compute. reflexivity.
Defined.

(** C3 as stated fails: a path that ends in [.JPG] can give a file name
    without it, because a name that is only a dot and letters has no
    suffix. *)
Lemma get_image_filename_dotfile :
  ~ (forall url p fn,
       PyLib.urlparse_path url = Some p ->
       PyLib.endswith ".JPG" (PyLib.unquote p) = true ->
       get_image_filename (VStr url) = Ok fn ->
       PyLib.endswith ".JPG" fn = true).
Proof.
  intros H.
  specialize (H dotfile_url "/workspace/1/asset/u-1/images/2024-02/.JPG" "4a8882098c82").
  assert (E : PyLib.endswith ".JPG" "4a8882098c82" = true).
  { apply H; vm_compute; reflexivity. }
  vm_compute in E. discriminate E.
Qed.

(** ** C4 and C7: downloading one image *)

Lemma nth_1_cons (a : string) (l : list string) :
  nth 1 (a :: l) EmptyString = hd EmptyString l.
Proof. destruct l; reflexivity. Qed.

(** Without the structure, [download_image] finds no [/asset/] in the
    path, or no slash in what follows it. *)
Lemma no_structure_cases (path : string) :
  ~ has_asset_structure path ->
  PyLib.contains "/asset/" path = false
  \/ (PyLib.contains "/asset/" path = true
      /\ (1 <? length (PyLib.split1 "/"
                         (nth 1 (PyLib.split "/asset/" path) EmptyString)))%nat = false).
Proof.
  intros Hno. unfold PyLib.contains.
  destruct (PyLib.find_sep "/asset/" path) as [[a b]|] eqn:F; [right | now left].
  split; [reflexivity|].
  pose proof (find_sep_Some _ _ _ _ F) as Hpath.
  unfold PyLib.split.
  destruct (String.length path) as [|n] eqn:L.
  { destruct path; [discriminate F | discriminate L]. }
  cbn [PyLib.split_fuel]. rewrite F, nth_1_cons.
  destruct (split_fuel_hd n "/asset/" b) as [r Hb].
  set (seg := hd EmptyString (PyLib.split_fuel n "/asset/" b)) in *.
  unfold PyLib.split1.
  destruct (PyLib.find_sep "/" seg) as [[id r2]|] eqn:G; [|reflexivity].
  exfalso. apply Hno. exists a, id, (r2 +:+ r).
  apply find_sep_Some in G. rewrite Hpath, Hb, G.
  now rewrite !append_assoc.
Qed.

Lemma exists_at_printed (w : world) (line p : string) :
  exists_at (printed w line) p = exists_at w p.
Proof. reflexivity. Qed.

(** The file system shows the files and the directories only: printing
    and sending change nothing for it. *)
Lemma walk_same (w w' : world) (prefixes : list string) :
  files w' = files w -> dirs w' = dirs w -> walk w' prefixes = walk w prefixes.
Proof.
  intros Hf Hd. induction prefixes as [|d rest IH]; [reflexivity|].
  cbn [walk]. unfold is_dir, is_file. now rewrite Hf, Hd, IH.
Qed.

Lemma stat_same (w w' : world) (p : string) :
  env w' = env w -> files w' = files w -> dirs w' = dirs w -> stat w' p = stat w p.
Proof.
  intros He Hf Hd. unfold stat, exists_at.
  now rewrite (walk_same w w' _ Hf Hd), He, Hf, Hd.
Qed.

Lemma open_write_same (w w' : world) (p : string) :
  env w' = env w -> files w' = files w -> dirs w' = dirs w ->
  open_write w' p = open_write w p.
Proof.
  intros He Hf Hd. unfold open_write. now rewrite (walk_same w w' _ Hf Hd), He.
Qed.

Lemma stat_printed (w : world) (line p : string) : stat (printed w line) p = stat w p.
Proof. now apply stat_same. Qed.

Lemma stat_sent (w : world) (req : request) (p : string) : stat (sent w req) p = stat w p.
Proof. now apply stat_same. Qed.

Lemma open_write_printed (w : world) (line p : string) :
  open_write (printed w line) p = open_write w p.
Proof. now apply open_write_same. Qed.

Lemma open_write_sent (w : world) (req : request) (p : string) :
  open_write (sent w req) p = open_write w p.
Proof. now apply open_write_same. Qed.

(** What exists, [path.exists()] finds. *)
Lemma stat_exists (w : world) (p : string) : exists_at w p = true -> stat w p = Ok true.
Proof. intros H. unfold stat. now rewrite H. Qed.

Lemma exists_at_written (w : world) (p content : string) :
  exists_at (written w p content) p = true.
Proof. unfold exists_at, written. cbn [files]. now rewrite lookup_insert_eq. Qed.

Lemma download_image_rejects (image_url : value) (token output_path path : string)
  (w : world) :
  url_path image_url = Ok path ->
  rejected path ->
  stat w output_path = Ok false ->
  exists line, download_image image_url token output_path w = (Ok false, printed w line).
Proof.
  intros Hurl Hrej Hex.
  unfold download_image, bind, path_exists. rewrite Hex.
  unfold lift. rewrite Hurl.
  destruct Hrej as [C|[C D]]; rewrite C.
  - eexists. reflexivity.
  - rewrite D. eexists. reflexivity.
Qed.

(** An image whose path lacks the structure is not downloaded: with no
    file in the cache, [download_image] prints one line and returns
    [False]. *)
Lemma download_image_unrecognized (image_url : value) (token output_path path : string)
  (w : world) :
  url_path image_url = Ok path ->
  ~ has_asset_structure path ->
  stat w output_path = Ok false ->
  exists line, download_image image_url token output_path w = (Ok false, printed w line).
Proof.
  intros Hurl Hno Hex. eapply download_image_rejects; eauto.
  now apply no_structure_cases.
Qed.

(** A file that [path.exists()] finds is not downloaded again. *)
Lemma download_image_found (image_url : value) (token output_path : string) (w : world) :
  stat w output_path = Ok true ->
  download_image image_url token output_path w
  = (Ok true, printed w ("  ✓ Already exists: " +:+ PyLib.path_name output_path)).
Proof.
  intros Hex. unfold download_image, bind, path_exists. now rewrite Hex.
Qed.

Lemma download_image_cached (image_url : value) (token output_path : string) (w : world) :
  exists_at w output_path = true ->
  download_image image_url token output_path w
  = (Ok true, printed w ("  ✓ Already exists: " +:+ PyLib.path_name output_path)).
Proof. intros Hex. now apply download_image_found, stat_exists. Qed.

(** When [path.exists()] raises, so does [download_image], at once. *)
Lemma download_image_lookup_fails (image_url : value) (token output_path : string)
  (w : world) (e : exn) :
  stat w output_path = Raise e ->
  download_image image_url token output_path w = (Raise e, w).
Proof.
  intros Hex. unfold download_image, bind, path_exists. now rewrite Hex.
Qed.

(** What saving does, case by case. *)
Lemma save_and_report_cases (output_path url body : string) (w : world) :
  (exists e, open_write w output_path = Some e
             /\ save_and_report output_path url body w = (Raise e, w))
  \/ (open_write w output_path = None
      /\ exists e n,
           transfer_failure w url output_path
           = Some (e, n)
           /\ save_and_report output_path url body w
              = (Raise e, written w output_path (PyLib.take_str n body)))
  \/ (open_write w output_path = None
      /\ transfer_failure w url output_path = None
      /\ save_and_report output_path url body w
         = (Ok true,
            printed (written w output_path body)
              ("  ✓ Downloaded: " +:+ PyLib.path_name output_path))).
Proof.
  unfold save_and_report, bind, save_stream, store.
  destruct (open_write w output_path) as [e|]; [left; eauto|].
  right.
  destruct (transfer_failure w url output_path)
    as [[e n]|]; [left | right]; eauto 6.
Qed.

(** The steps of [download_image] for a path that does not exist and a
    URL with the structure. *)
Lemma download_image_steps (image_url : value) (token output_path path : string)
  (w : world) :
  stat w output_path = Ok false ->
  url_path image_url = Ok path ->
  PyLib.contains "/asset/" path = true ->
  (1 <? length (PyLib.split1 "/" (nth 1 (PyLib.split "/asset/" path) EmptyString)))%nat
  = true ->
  let rel := nth 1 (PyLib.split1 "/" (nth 1 (PyLib.split "/asset/" path) EmptyString))
               EmptyString in
  let w1 := sent w (ReqDownloadLink token rel) in
  download_image image_url token output_path w
  = match fetched (app_download_link (env w) token rel) with
    | Raise e => (Raise e, w1)
    | Ok link =>
        if failed (download (env w) link)
        then (Raise (HTTPError (status (download (env w) link))),
              sent w1 (ReqDownload link))
        else save_and_report output_path link (payload (download (env w) link))
               (sent w1 (ReqDownload link))
    end.
Proof.
  intros Hex Hurl C D rel w1.
  unfold download_image, bind at 1, path_exists. rewrite Hex.
  unfold bind at 1, lift. rewrite Hurl, C, D. fold rel.
  unfold fetched, bind at 1, requests_get. fold w1.
  unfold bind at 1, raise_for_status.
  change (env w1) with (env w).
  destruct (failed (app_download_link (env w) token rel)); [reflexivity|].
  unfold ret, bind at 1, json_of.
  destruct (payload (app_download_link (env w) token rel)) as [link|]; [|reflexivity].
  unfold ret, bind at 1. unfold bind at 1.
  change (env w1) with (env w).
  destruct (failed (download (env w) link)); reflexivity.
Qed.

(** What one call of [download_image] does, case by case: the requests
    it adds are none, the request for a link, or that and the download;
    and after a call that returned, a second call returns the same
    without any request or write. *)
Lemma download_image_once (image_url : value) (token output_path : string) (w : world) :
  forall r1 w1,
    download_image image_url token output_path w = (r1, w1) ->
    (exists new,
        requests w1 = (requests w ++ new)%list
        /\ (new = []
            \/ (exists rel, new = [ReqDownloadLink token rel])
            \/ (exists rel u, new = [ReqDownloadLink token rel; ReqDownload u])))
    /\ (forall b, r1 = Ok b ->
          exists line,
            download_image image_url token output_path w1 = (Ok b, printed w1 line)).
Proof.
  intros r1 w1 H.
  destruct (stat w output_path) as [[|]|e0] eqn:Hex.
  { rewrite (download_image_found _ _ _ _ Hex) in H. inversion H; subst. split.
    - exists []. split; [simpl; now rewrite app_nil_r | now left].
    - intros b Hb. inversion Hb; subst b. eexists.
      apply download_image_found. now rewrite stat_printed. }
  2:{ rewrite (download_image_lookup_fails _ _ _ _ _ Hex) in H. inversion H; subst.
      split; [|discriminate]. exists []. split; [now rewrite app_nil_r | now left]. }
  destruct (url_path image_url) as [path|e] eqn:Hurl.
  2:{ unfold download_image, bind, path_exists in H. rewrite Hex in H.
      unfold lift in H. rewrite Hurl in H.
      inversion H; subst. split; [|discriminate].
      exists []. split; [now rewrite app_nil_r | now left]. }
  assert (Hfalse : rejected path ->
    (exists new,
        requests w1 = (requests w ++ new)%list
        /\ (new = []
            \/ (exists rel, new = [ReqDownloadLink token rel])
            \/ (exists rel u, new = [ReqDownloadLink token rel; ReqDownload u])))
    /\ (forall b, r1 = Ok b ->
          exists line,
            download_image image_url token output_path w1 = (Ok b, printed w1 line))).
  { intros Hrej.
    destruct (download_image_rejects image_url token output_path path w Hurl Hrej Hex)
      as [line E].
    rewrite E in H. inversion H; subst. split.
    - exists []. split; [simpl; now rewrite app_nil_r | now left].
    - intros b Hb. inversion Hb; subst b.
      eapply download_image_rejects; eauto. now rewrite stat_printed. }
  destruct (PyLib.contains "/asset/" path) eqn:C.
  2:{ apply Hfalse. now left. }
  destruct (1 <? length (PyLib.split1 "/" (nth 1 (PyLib.split "/asset/" path) EmptyString)))%nat
    eqn:D.
  2:{ apply Hfalse. right. now split. }
  clear Hfalse.
  rewrite (download_image_steps _ _ _ _ _ Hex Hurl C D) in H. cbv zeta in H.
  set (rel := nth 1 (PyLib.split1 "/" (nth 1 (PyLib.split "/asset/" path) EmptyString))
                EmptyString) in *.
  destruct (fetched (app_download_link (env w) token rel)) as [link|e].
  2:{ inversion H; subst. split; [|discriminate].
      exists [ReqDownloadLink token rel]. split; [reflexivity | right; left; eauto]. }
  assert (Htwo : requests (sent (sent w (ReqDownloadLink token rel)) (ReqDownload link))
                 = (requests w ++ [ReqDownloadLink token rel; ReqDownload link])%list).
  { simpl. now rewrite <- app_assoc. }
  destruct (failed (download (env w) link)).
  { inversion H; subst. split; [|discriminate].
    exists [ReqDownloadLink token rel; ReqDownload link].
    split; [exact Htwo | right; right; eauto]. }
  destruct (save_and_report_cases output_path link (payload (download (env w) link))
              (sent (sent w (ReqDownloadLink token rel)) (ReqDownload link)))
    as [(e & _ & E) | [(_ & e & n & _ & E) | (_ & _ & E)]];
    rewrite E in H; inversion H; subst.
  - split; [|discriminate]. exists [ReqDownloadLink token rel; ReqDownload link].
    split; [exact Htwo | right; right; eauto].
  - split; [|discriminate]. exists [ReqDownloadLink token rel; ReqDownload link].
    split; [exact Htwo | right; right; eauto].
  - split.
    + exists [ReqDownloadLink token rel; ReqDownload link].
      split; [exact Htwo | right; right; eauto].
    + intros b Hb. inversion Hb; subst b. eexists. apply download_image_cached.
      rewrite exists_at_printed. apply exists_at_written.
Qed.

(** C4.  When something exists at the output path, [download_image]
    returns [True] at once, reports it, and sends no request and writes
    nothing.  One call sends at most one request for a link and one
    download.  After a call that returned, a second call returns the same
    with no request and no write; so two calls in a row send no more
    requests than the first one alone. *)
Theorem download_image_idempotent (image_url : value) (token output_path : string)
  (w : world) :
  (exists_at w output_path = true ->
   exists w1,
     download_image image_url token output_path w = (Ok true, w1)
     /\ requests w1 = requests w /\ files w1 = files w
     /\ stdout w1 = (stdout w ++ [ "  ✓ Already exists: "
                                    +:+ PyLib.path_name output_path ])%list)
  /\ (forall r1 w1,
        download_image image_url token output_path w = (r1, w1) ->
        (exists new,
            requests w1 = (requests w ++ new)%list
            /\ (new = []
                \/ (exists rel, new = [ReqDownloadLink token rel])
                \/ (exists rel u, new = [ReqDownloadLink token rel; ReqDownload u])))
        /\ (forall b, r1 = Ok b ->
              exists w2,
                download_image image_url token output_path w1 = (Ok b, w2)
                /\ requests w2 = requests w1 /\ files w2 = files w1)
        /\ requests (snd ((download_image image_url token output_path ;;;
                           download_image image_url token output_path) w))
           = requests w1).
Proof.
  split.
  - intros Hex. eexists. split; [now apply download_image_cached|].
    repeat split.
  - intros r1 w1 H.
    destruct (download_image_once image_url token output_path w r1 w1 H) as [Hnew Hagain].
    split; [exact Hnew|]. split.
    + intros b Hb. destruct (Hagain b Hb) as [line E].
      eexists. split; [exact E|]. split; reflexivity.
    + unfold bind. rewrite H. destruct r1 as [b|e]; [|reflexivity].
      destruct (Hagain b eq_refl) as [line E]. rewrite E. reflexivity.
Qed.

(** A first call downloads the image with two requests; a second call
    finds the file and sends none. *)
Lemma download_image_idempotent_witness :
  exists w1 w2,
    download_image (VStr dawn_url) API_TOKEN dawn_path demo_world = (Ok true, w1)
    /\ length (requests w1) = 2%nat
    /\ download_image (VStr dawn_url) API_TOKEN dawn_path w1 = (Ok true, w2)
    /\ requests w2 = requests w1.
Proof.
  destruct (download_image_idempotent (VStr dawn_url) API_TOKEN dawn_path demo_world)
    as [_ H].
  destruct (H (fst (download_image (VStr dawn_url) API_TOKEN dawn_path demo_world))
              (snd (download_image (VStr dawn_url) API_TOKEN dawn_path demo_world)))
    as (_ & Hagain & _).
  - destruct (download_image _ _ _ _). reflexivity.
  - destruct (Hagain true) as (w2 & E & Hreq & _).
    + vm_compute. reflexivity.
    + eexists _, w2. split; [|split; [|split; [exact E | exact Hreq]]].
      * vm_compute. reflexivity.
      * vm_compute. reflexivity.
Defined.

(** C7.  Take a row whose first image has a path without the
    [/asset/<id>/<rest>] structure, and let [path.exists()] find no file
    for it in the cache and raise nothing.  Then [download_image]
    returns [False] with no request and no write, and the loop over the
    rows goes on with the rows that follow, in a world that differs only
    by the lines printed. *)
Theorem unrecognized_image_path_is_skipped (image_column : string) (total i count : nat)
  (row : dict) (rest : list dict) (image_url : value) (path : string) (w : world) :
  truthy (dict_get row image_column (VList [])) = true ->
  first_image (dict_get row image_column (VList [])) = Ok image_url ->
  url_path image_url = Ok path ->
  ~ has_asset_structure path ->
  (forall fn, get_image_filename image_url = Ok fn ->
              stat w (PyLib.path_join IMAGES_DIR fn) = Ok false) ->
  exists fn,
    get_image_filename image_url = Ok fn
    /\ (exists w1,
          download_image image_url API_TOKEN (PyLib.path_join IMAGES_DIR fn) w = (Ok false, w1)
          /\ requests w1 = requests w /\ files w1 = files w)
    /\ (exists w2,
          download_loop image_column total i (row :: rest) count w
          = download_loop image_column total (S i) rest (S count) w2
          /\ requests w2 = requests w /\ files w2 = files w
          /\ dirs w2 = dirs w /\ env w2 = env w).
Proof.
  intros Himg Hfirst Hurl Hno Hex.
  assert (Hfn : exists fn, get_image_filename image_url = Ok fn).
  { unfold get_image_filename. rewrite Hurl. cbn [rbind]. eauto. }
  destruct Hfn as [fn Hfn]. exists fn. split; [exact Hfn|].
  specialize (Hex fn Hfn). split.
  - destruct (download_image_unrecognized image_url API_TOKEN _ path w Hurl Hno Hex)
      as [line E].
    eexists. split; [exact E|]. split; reflexivity.
  - cbn [download_loop]. unfold bind at 1. unfold download_step.
    rewrite Himg. cbn [negb]. unfold bind at 1. unfold lift at 1. rewrite Hfirst.
    unfold bind at 1. unfold lift at 1. rewrite Hfn.
    unfold bind at 1. unfold print at 1. cbv beta iota.
    unfold bind at 1.
    match goal with
    | |- context [download_image _ _ _ ?w'] =>
        destruct (download_image_unrecognized image_url API_TOKEN
                    (PyLib.path_join IMAGES_DIR fn) path w' Hurl Hno) as [line E];
          [now rewrite stat_printed|]
    end.
    rewrite E. unfold ret.
    eexists. split; [reflexivity|]. repeat split.
Qed.

Lemma unrecognized_image_path_is_skipped_witness :
  exists w2,
    download_loop "Jcpv" 2 1 [stray_row; dawn_row] 0 demo_world
    = download_loop "Jcpv" 2 2 [dawn_row] 1 w2
    /\ requests w2 = requests demo_world /\ files w2 = files demo_world.
Proof.
  destruct (unrecognized_image_path_is_skipped "Jcpv" 2 1 0 stray_row [dawn_row]
              (VStr "https://example.org/pictures/a.png") "/pictures/a.png" demo_world)
    as (fn & _ & _ & (w2 & E & Hreq & Hfiles & _)).
  - reflexivity.
  - reflexivity.
  - vm_compute. reflexivity.
  - intros (pre & id & rest & H).
    pose proof (find_sep_complete "/asset/" pre (id +:+ "/" +:+ rest)) as C.
    rewrite <- H in C. apply C. vm_compute. reflexivity.
  - intros fn Hfn. vm_compute in Hfn. inversion Hfn; subst fn. vm_compute. reflexivity.
  - exists w2. split; [exact E|]. split; assumption.
Defined.

(** The claim as the specification states it, for every image whose path
    lacks the structure and that is not in the cache, fails for
    [long_suffix_url]: the name of its cache file has 313 bytes, more
    than a file name may have, so [path.exists()] raises [OSError] (file
    name too long) and [download_image] with it. *)
Lemma long_cache_name_is_not_skipped :
  ~ (forall image_column total i count row rest image_url path w,
       truthy (dict_get row image_column (VList [])) = true ->
       first_image (dict_get row image_column (VList [])) = Ok image_url ->
       url_path image_url = Ok path ->
       ~ has_asset_structure path ->
       (forall fn, get_image_filename image_url = Ok fn ->
                   exists_at w (PyLib.path_join IMAGES_DIR fn) = false) ->
       exists fn,
         get_image_filename image_url = Ok fn
         /\ (exists w1,
               download_image image_url API_TOKEN (PyLib.path_join IMAGES_DIR fn) w
               = (Ok false, w1)
               /\ requests w1 = requests w /\ files w1 = files w)
         /\ (exists w2,
               download_loop image_column total i (row :: rest) count w
               = download_loop image_column total (S i) rest (S count) w2
               /\ requests w2 = requests w /\ files w2 = files w
               /\ dirs w2 = dirs w /\ env w2 = env w)).
Proof.
  intros H.
  destruct (H "Jcpv" 1%nat 1%nat 0%nat long_suffix_row [] (VStr long_suffix_url)
              ("/pictures/a." +:+ repeat_str "x" 300) demo_world)
    as (fn & Hfn & (w1 & E & _) & _).
  - reflexivity.
  - reflexivity.
  - vm_compute. reflexivity.
  - intros (pre & id & rest & Hp).
    pose proof (find_sep_complete "/asset/" pre (id +:+ "/" +:+ rest)) as C.
    rewrite <- Hp in C. apply C. vm_compute. reflexivity.
  - intros fn Hfn. vm_compute in Hfn. inversion Hfn; subst fn. vm_compute. reflexivity.
  - vm_compute in Hfn. inversion Hfn; subst fn.
    assert (X : fst (download_image (VStr long_suffix_url) API_TOKEN
                       (PyLib.path_join IMAGES_DIR
                          (PyLib.take_str 12 (MD5.hexdigest ("/pictures/a." +:+ repeat_str "x" 300))
                           +:+ "." +:+ repeat_str "x" 300)) demo_world)
                = Raise (OSError 36)) by (vm_compute; reflexivity).
    match type of E with
    | download_image ?u ?t ?p ?w = _ =>
        assert (Y : fst (download_image u t p w) = Ok false) by now rewrite E
    end.
    vm_compute in Y. discriminate Y.
Qed.

(** The same in a run: the image of the first row has no [/asset/] in its
    path, and the run ends there with [OSError], without a catalog. *)
Example long_cache_name_ends_run :
  let w := config_world (demo_env [mkTable TABLE_NAME demo_columns]
                           [long_suffix_row; dawn_row]) in
  fst (run demo_argv w) = Raise (OSError 36)
  /\ exit_code (fst (run demo_argv w)) = 1
  /\ files (snd (run demo_argv w)) = files w
  /\ List.filter (fun req => match req with ReqDownloadLink _ _ => true | _ => false end)
       (requests (snd (run demo_argv w))) = [].
Proof. vm_compute. repeat split; reflexivity. Qed.

(** A call that raises leaves no file: a later call in the world it left
    asks again.  Here the service answers 500 to every request. *)
Example download_image_asks_again_after_error :
  let w := config_world (silent_remote demo_config) in
  let first := download_image (VStr dawn_url) API_TOKEN dawn_path w in
  let second := download_image (VStr dawn_url) API_TOKEN dawn_path (snd first) in
  fst first = Raise (HTTPError 500)
  /\ requests (snd first) = [ReqDownloadLink API_TOKEN "images/2024-02/file.JPG"]
  /\ requests (snd second) = [ReqDownloadLink API_TOKEN "images/2024-02/file.JPG";
                              ReqDownloadLink API_TOKEN "images/2024-02/file.JPG"].
Proof. vm_compute. repeat split; reflexivity. Qed.

(** A path that ends with the slash after the id has the structure, with
    nothing for [<rest>]: the link is requested, for the empty path. *)
Example download_image_trailing_slash :
  requests (snd (download_image (VStr "https://cloud.seatable.io/workspace/1/asset/u-1/")
                   API_TOKEN "art/images/x" demo_world))
  = [ReqDownloadLink API_TOKEN EmptyString;
     ReqDownload "https://cloud.seatable.io/seafhttp/files/t/file.JPG"].
Proof. vm_compute. reflexivity. Qed.

(** ** Running [main] step by step *)

Lemma bind_ok {A B : Type} (m : M A) (k : A -> M B) (w w' : world) (a : A) :
  m w = (Ok a, w') -> bind m k w = k a w'.
Proof. intros H. unfold bind. now rewrite H. Qed.

Lemma bind_raise {A B : Type} (m : M A) (k : A -> M B) (w w' : world) (e : exn) :
  m w = (Raise e, w') -> bind m k w = (Raise e, w').
Proof. intros H. unfold bind. now rewrite H. Qed.

Create Rewrite HintDb world.

Lemma requests_printed w l : requests (printed w l) = requests w. Proof. reflexivity. Qed.
Lemma requests_made_dir w p : requests (made_dir w p) = requests w. Proof. reflexivity. Qed.
Lemma requests_written w p c : requests (written w p c) = requests w. Proof. reflexivity. Qed.
Lemma requests_sent w r : requests (sent w r) = (requests w ++ [r])%list. Proof. reflexivity. Qed.
Lemma files_printed w l : files (printed w l) = files w. Proof. reflexivity. Qed.
Lemma files_made_dir w p : files (made_dir w p) = files w. Proof. reflexivity. Qed.
Lemma files_sent w r : files (sent w r) = files w. Proof. reflexivity. Qed.
Lemma files_written w p c : files (written w p c) = <[p := c]> (files w). Proof. reflexivity. Qed.
Lemma env_printed w l : env (printed w l) = env w. Proof. reflexivity. Qed.
Lemma env_made_dir w p : env (made_dir w p) = env w. Proof. reflexivity. Qed.
Lemma env_sent w r : env (sent w r) = env w. Proof. reflexivity. Qed.
Lemma env_written w p c : env (written w p c) = env w. Proof. reflexivity. Qed.
Lemma stdout_printed w l : stdout (printed w l) = (stdout w ++ [l])%list. Proof. reflexivity. Qed.
Lemma stdout_made_dir w p : stdout (made_dir w p) = stdout w. Proof. reflexivity. Qed.
Lemma stdout_sent w r : stdout (sent w r) = stdout w. Proof. reflexivity. Qed.
Lemma stdout_written w p c : stdout (written w p c) = stdout w. Proof. reflexivity. Qed.
#[global] Hint Rewrite requests_printed requests_made_dir requests_written requests_sent
  files_printed files_made_dir files_sent files_written
  env_printed env_made_dir env_sent env_written
  stdout_printed stdout_made_dir stdout_sent stdout_written : world.

Lemma fetch_failed {A : Type} (req : request) (answer : environment -> reply (option A))
  (w : world) :
  failed (answer (env w)) = true ->
  (response <- requests_get req answer ;; raise_for_status response ;;; json_of response) w
  = (Raise (HTTPError (status (answer (env w)))), sent w req).
Proof.
  intros H. unfold bind, requests_get, raise_for_status. rewrite H. reflexivity.
Qed.

Lemma fetch_ok {A : Type} (req : request) (answer : environment -> reply (option A))
  (w : world) (a : A) :
  failed (answer (env w)) = false ->
  payload (answer (env w)) = Some a ->
  (response <- requests_get req answer ;; raise_for_status response ;;; json_of response) w
  = (Ok a, sent w req).
Proof.
  intros H P. unfold bind, requests_get, raise_for_status, json_of.
  rewrite H. unfold ret. now rewrite P.
Qed.

Lemma filter_nil_false {A : Type} (f : A -> bool) (l : list A) (x : A) :
  List.filter f l = [] -> In x l -> f x = false.
Proof.
  intros H Hin. destruct (f x) eqn:E; [|reflexivity].
  assert (In x (List.filter f l)) by (apply filter_In; auto).
  rewrite H in H0. contradiction.
Qed.

Lemma load_config_ok (config_file : string) (config : dict) (w w' : world) :
  load_config config_file w = (Ok config, w') ->
  w' = w /\ forall field, In field required -> is_Some (config !! field).
Proof.
  unfold load_config, try_except, load_config_body.
  destruct (read_text w config_file) as [text|e];
    [|destruct e; intros H; cbn in H; discriminate H].
  destruct (json_load (env w) text) as [msg|msg| |msg|cfg|v];
    [discriminate|discriminate|discriminate|discriminate| |discriminate].
  set (config' := <[ _ := _ ]> cfg).
  destruct (List.filter _ required) as [|m ms] eqn:F; [|discriminate].
  intros H. inversion H; subst. split; [reflexivity|].
  intros field Hin.
  pose proof (filter_nil_false _ _ field F Hin) as E. cbv beta in E.
  apply negb_false_iff, bool_decide_eq_true in E. exact E.
Qed.

(** One statement of [main] that returns: [tac] proves what it returns. *)
Ltac step_with tac :=
  eapply eq_trans; [eapply bind_ok; tac | cbv beta].
Ltac step := step_with ltac:(reflexivity).
Ltac step_item H := step_with ltac:(unfold dict_item; rewrite H; reflexivity).

(** The statements of [main] up to the first request, for a
    configuration that loaded. *)
Ltac run_preamble Hload Hview Hout Hlogo Htitle Hpage :=
  unfold run, main;
  step_with ltac:(exact Hload);
  step_item Hview; step_item Hout; step;
  step_item Hlogo; step_item Htitle; step_item Hpage;
  do 8 step.

Lemma config_fields (config_file : string) (config : dict) (w : world) :
  load_config config_file w = (Ok config, w) ->
  exists view_name header_logo header_title page_title,
    config !! "view_name" = Some view_name
    /\ config !! "header_logo" = Some header_logo
    /\ config !! "header_title" = Some header_title
    /\ config !! "page_title" = Some page_title.
Proof.
  intros Hload. destruct (load_config_ok _ _ _ _ Hload) as [_ Hreq].
  assert (Hin : forall f, In f ["view_name"; "header_logo"; "header_title"; "page_title"]
                          -> is_Some (config !! f)).
  { intros f Hf. apply Hreq. unfold required. simpl in *. tauto. }
  destruct (Hin "view_name") as [view_name Hview]; [simpl; tauto|].
  destruct (Hin "header_logo") as [header_logo Hlogo]; [simpl; tauto|].
  destruct (Hin "header_title") as [header_title Htitle]; [simpl; tauto|].
  destruct (Hin "page_title") as [page_title Hpage]; [simpl; tauto|].
  eauto 10.
Qed.

(** ** C6: a failed request ends the run *)

(** C6.  Let the configuration load, with a string for [output_file].
    If the reply to the token exchange is not a success, or that one is
    and the reply to the metadata request is not, or both are, a table
    and an image column are found and the reply to the request for the
    rows is not a success, then [main] ends with [HTTPError], the
    process exits with a non-zero status, each request up to the failed
    one was sent once and none after it, and no file was written. *)
Theorem remote_failure_aborts (prog config_file : string) (extra : list string)
  (config : dict) (out : string) (w : world) :
  load_config config_file w = (Ok config, w) ->
  config !! "output_file" = Some (VStr out) ->
  let aborted (st : Z) (sent_requests : list request) :=
    exists w',
      run (prog :: config_file :: extra) w = (Raise (HTTPError st), w')
      /\ exit_code (fst (run (prog :: config_file :: extra) w)) <> 0
      /\ requests w' = (requests w ++ sent_requests)%list
      /\ files w' = files w in
  (failed (app_access_token (env w) API_TOKEN) = true ->
   aborted (status (app_access_token (env w) API_TOKEN)) [ReqToken API_TOKEN])
  /\ (forall base_token base_uuid,
        failed (app_access_token (env w) API_TOKEN) = false ->
        payload (app_access_token (env w) API_TOKEN) = Some (base_token, base_uuid) ->
        failed (metadata (env w) base_token base_uuid) = true ->
        aborted (status (metadata (env w) base_token base_uuid))
          [ReqToken API_TOKEN; ReqMetadata base_token base_uuid])
  /\ (forall base_token base_uuid tables table image_column view_name,
        failed (app_access_token (env w) API_TOKEN) = false ->
        payload (app_access_token (env w) API_TOKEN) = Some (base_token, base_uuid) ->
        failed (metadata (env w) base_token base_uuid) = false ->
        payload (metadata (env w) base_token base_uuid) = Some tables ->
        List.find (fun t => String.eqb (table_name t) TABLE_NAME) tables = Some table ->
        find_image_column (table_columns table) = Some image_column ->
        image_column <> EmptyString ->
        config !! "view_name" = Some view_name ->
        let params := if truthy view_name then Some view_name else None in
        failed (rows (env w) base_token base_uuid (table_name table) params) = true ->
        aborted (status (rows (env w) base_token base_uuid (table_name table) params))
          [ReqToken API_TOKEN; ReqMetadata base_token base_uuid;
           ReqRows base_token base_uuid (table_name table) params]).
Proof.
  intros Hload Hout aborted.
  destruct (config_fields _ _ _ Hload)
    as (view_name & header_logo & header_title & page_title
        & Hview & Hlogo & Htitle & Hpage).
  assert (Hexit : forall st w',
            run (prog :: config_file :: extra) w = (Raise (HTTPError st), w') ->
            exit_code (fst (run (prog :: config_file :: extra) w)) <> 0).
  { intros st w' E. rewrite E. discriminate. }
  split; [|split].
  - intros Hfail.
    assert (E : exists w',
      run (prog :: config_file :: extra) w
      = (Raise (HTTPError (status (app_access_token (env w) API_TOKEN))), w')
      /\ requests w' = (requests w ++ [ReqToken API_TOKEN])%list /\ files w' = files w).
    { eexists. split.
      - run_preamble Hload Hview Hout Hlogo Htitle Hpage.
        eapply bind_raise. unfold get_base_token. rewrite fetch_failed; [reflexivity|].
        autorewrite with world. exact Hfail.
      - autorewrite with world. split; reflexivity. }
    destruct E as (w' & E & R & F). exists w'. eauto using Hexit.
  - intros base_token base_uuid Htok Hpay Hfail.
    assert (E : exists w',
      run (prog :: config_file :: extra) w
      = (Raise (HTTPError (status (metadata (env w) base_token base_uuid))), w')
      /\ requests w' = (requests w ++ [ReqToken API_TOKEN;
                                       ReqMetadata base_token base_uuid])%list
      /\ files w' = files w).
    { eexists. split.
      - run_preamble Hload Hview Hout Hlogo Htitle Hpage.
        step_with ltac:(unfold get_base_token; rewrite (fetch_ok _ _ _ (base_token, base_uuid));
                        [reflexivity | autorewrite with world; assumption ..]).
        cbv beta iota. do 2 step.
        eapply bind_raise. unfold get_metadata. rewrite fetch_failed; [reflexivity|].
        autorewrite with world. exact Hfail.
      - autorewrite with world. rewrite <- app_assoc. split; reflexivity. }
    destruct E as (w' & E & R & F). exists w'. eauto using Hexit.
  - intros base_token base_uuid tables table image_column view_name'
      Htok Hpay Hmeta Hmpay Hfind Hcol Hne Hview' params Hfail.
    assert (view_name' = view_name) by congruence. subst view_name'.
    assert (E : exists w',
      run (prog :: config_file :: extra) w
      = (Raise (HTTPError (status (rows (env w) base_token base_uuid
                                     (table_name table) params))), w')
      /\ requests w' = (requests w ++ [ReqToken API_TOKEN;
                                       ReqMetadata base_token base_uuid;
                                       ReqRows base_token base_uuid
                                         (table_name table) params])%list
      /\ files w' = files w).
    { eexists. split.
      - run_preamble Hload Hview Hout Hlogo Htitle Hpage.
        step_with ltac:(unfold get_base_token; rewrite (fetch_ok _ _ _ (base_token, base_uuid));
                        [reflexivity | autorewrite with world; assumption ..]).
        cbv beta iota. do 2 step.
        step_with ltac:(unfold get_metadata; rewrite (fetch_ok _ _ _ tables);
                        [reflexivity | autorewrite with world; assumption ..]).
        step_with ltac:(unfold select_table; rewrite Hfind; reflexivity).
        step. rewrite Hcol.
        destruct (String.eqb image_column EmptyString) eqn:Q.
        { apply String.eqb_eq in Q. contradiction. }
        do 2 step.
        eapply bind_raise. unfold get_rows. rewrite fetch_failed; [reflexivity|].
        autorewrite with world. exact Hfail.
      - autorewrite with world. rewrite <- !app_assoc. split; reflexivity. }
    destruct E as (w' & E & R & F). exists w'. eauto using Hexit.
Qed.

Lemma remote_failure_aborts_witness :
  (exists w',
     run demo_argv (config_world (failing_env 1)) = (Raise (HTTPError 503), w')
     /\ requests w' = [ReqToken API_TOKEN]
     /\ files w' = files (config_world (failing_env 1)))
  /\ (exists w',
        run demo_argv (config_world (failing_env 2)) = (Raise (HTTPError 503), w')
        /\ requests w' = [ReqToken API_TOKEN;
                          ReqMetadata "session-token" "0123456789abcdef"]
        /\ files w' = files (config_world (failing_env 2)))
  /\ (exists w',
        run demo_argv (config_world (failing_env 3)) = (Raise (HTTPError 503), w')
        /\ requests w' = [ReqToken API_TOKEN;
                          ReqMetadata "session-token" "0123456789abcdef";
                          ReqRows "session-token" "0123456789abcdef" TABLE_NAME
                            (Some (VStr "Available"))]
        /\ files w' = files (config_world (failing_env 3))).
Proof.
  split; [|split].
  - destruct (remote_failure_aborts "generate_catalog.py" "config.json" []
                config_without_button "art/index.html" (config_world (failing_env 1)))
      as (H & _ & _); [reflexivity | reflexivity |].
    destruct H as (w' & E & _ & R & F); [reflexivity|].
    exists w'. split; [exact E|]. split; [exact R | exact F].
  - destruct (remote_failure_aborts "generate_catalog.py" "config.json" []
                config_without_button "art/index.html" (config_world (failing_env 2)))
      as (_ & H & _); [reflexivity | reflexivity |].
    destruct (H "session-token" "0123456789abcdef") as (w' & E & _ & R & F);
      [reflexivity ..|].
    exists w'. split; [exact E|]. split; [exact R | exact F].
  - destruct (remote_failure_aborts "generate_catalog.py" "config.json" []
                config_without_button "art/index.html" (config_world (failing_env 3)))
      as (_ & _ & H); [reflexivity | reflexivity |].
    destruct (H "session-token" "0123456789abcdef" [mkTable TABLE_NAME demo_columns]
                (mkTable TABLE_NAME demo_columns) "Jcpv" (VStr "Available"))
      as (w' & E & _ & R & F); [reflexivity | reflexivity | reflexivity | reflexivity | reflexivity | reflexivity | discriminate | reflexivity | reflexivity |].
    exists w'. split; [exact E|]. split; [exact R | exact F].
Defined.

(** ** C1: a table without an image column *)

(** Without an image column [main] prints a line and returns: no request
    for rows, no file written, and no exception, so the exit status of
    the process is 0. *)
Lemma main_without_image_column (prog config_file : string) (extra : list string)
  (config : dict) (out base_token base_uuid : string) (tables : list table)
  (table : table) (w : world) :
  load_config config_file w = (Ok config, w) ->
  config !! "output_file" = Some (VStr out) ->
  failed (app_access_token (env w) API_TOKEN) = false ->
  payload (app_access_token (env w) API_TOKEN) = Some (base_token, base_uuid) ->
  failed (metadata (env w) base_token base_uuid) = false ->
  payload (metadata (env w) base_token base_uuid) = Some tables ->
  List.find (fun t => String.eqb (table_name t) TABLE_NAME) tables = Some table ->
  find_image_column (table_columns table) = None
  \/ find_image_column (table_columns table) = Some EmptyString ->
  exists w',
    run (prog :: config_file :: extra) w = (Ok tt, w')
    /\ exit_code (fst (run (prog :: config_file :: extra) w)) = 0
    /\ List.last (stdout w') EmptyString = "   ✗ No image column found!"
    /\ requests w' = (requests w ++ [ReqToken API_TOKEN;
                                     ReqMetadata base_token base_uuid])%list
    /\ files w' = files w.
Proof.
  intros Hload Hout Htok Hpay Hmeta Hmpay Hfind Hcol.
  destruct (config_fields _ _ _ Hload)
    as (view_name & header_logo & header_title & page_title
        & Hview & Hlogo & Htitle & Hpage).
  assert (E : exists w',
    run (prog :: config_file :: extra) w = (Ok tt, w')
    /\ List.last (stdout w') EmptyString = "   ✗ No image column found!"
    /\ requests w' = (requests w ++ [ReqToken API_TOKEN;
                                     ReqMetadata base_token base_uuid])%list
    /\ files w' = files w).
  { eexists. split; [|split].
    - run_preamble Hload Hview Hout Hlogo Htitle Hpage.
      step_with ltac:(unfold get_base_token; rewrite (fetch_ok _ _ _ (base_token, base_uuid));
                      [reflexivity | autorewrite with world; assumption ..]).
      cbv beta iota. do 2 step.
      step_with ltac:(unfold get_metadata; rewrite (fetch_ok _ _ _ tables);
                      [reflexivity | autorewrite with world; assumption ..]).
      step_with ltac:(unfold select_table; rewrite Hfind; reflexivity).
      step. destruct Hcol as [-> | ->]; reflexivity.
    - autorewrite with world. apply last_last.
    - autorewrite with world. rewrite <- app_assoc. split; reflexivity. }
  destruct E as (w' & E & L & R & F). exists w'.
  split; [exact E|]. split; [now rewrite E|]. auto.
Qed.

(** C1, on the code.  The run on [no_image_world] prints the message and
    ends without an exception, that is with exit status 0; the claim asks
    for a non-zero status. *)
Theorem no_image_column_exit_status :
  find_image_column [plain_column] = None
  /\ fst (run demo_argv no_image_world) = Ok tt
  /\ exit_code (fst (run demo_argv no_image_world)) = 0
  /\ List.last (stdout (snd (run demo_argv no_image_world))) EmptyString
     = "   ✗ No image column found!"
  /\ files (snd (run demo_argv no_image_world)) = files no_image_world.
Proof.
  split; [reflexivity|].
  destruct (main_without_image_column "generate_catalog.py" "config.json" []
              config_without_button "art/index.html" "session-token" "0123456789abcdef"
              [mkTable TABLE_NAME [plain_column]] (mkTable TABLE_NAME [plain_column])
              no_image_world)
    as (w' & E & X & L & _ & F);
    [reflexivity .. | left; reflexivity |].
  fold demo_argv in E, X. rewrite E in *. auto.
Qed.

(** ** C8, C10 and C2: the rendered page *)

(** The card of a row that has an image. *)
Lemma render_row_card (image_column : string) (config row : dict) (html : string) :
  truthy (dict_get row image_column (VList [])) = true ->
  render_row image_column config row = Ok html ->
  exists image_url image_filename purchase,
    first_image (dict_get row image_column (VList [])) = Ok image_url
    /\ get_image_filename image_url = Ok image_filename
    /\ purchase_button config (extract_fields row) image_filename = Ok purchase
    /\ html = card_open image_filename (py_str (title (extract_fields row)))
              +:+ card_meta (extract_fields row)
              +:+ inquire_button (extract_fields row)
              +:+ purchase +:+ card_close.
Proof.
  intros Himg H. unfold render_row in H. rewrite Himg in H. cbn [negb] in H.
  destruct (first_image _) as [image_url|e] eqn:E1; [|discriminate].
  cbn [rbind] in H.
  destruct (get_image_filename image_url) as [image_filename|e] eqn:E2; [|discriminate].
  cbn [rbind] in H.
  destruct (purchase_button _ _ _) as [purchase|e] eqn:E3; [|discriminate].
  cbn [rbind] in H. inversion H.
  exists image_url, image_filename, purchase. repeat split; assumption.
Qed.

(** A row without images adds nothing to the page. *)
Lemma render_row_no_image (image_column : string) (config row : dict) :
  truthy (dict_get row image_column (VList [])) = false ->
  render_row image_column config row = Ok EmptyString.
Proof. intros H. unfold render_row. now rewrite H. Qed.

Lemma no_image_falsy (image_column : string) (row : dict) :
  row !! image_column = None \/ row !! image_column = Some (VList []) ->
  truthy (dict_get row image_column (VList [])) = false.
Proof. unfold dict_get. intros [-> | ->]; reflexivity. Qed.

Lemma render_rows_skip (image_column : string) (config : dict) (before after : list dict)
  (row : dict) (html : string) :
  render_row image_column config row = Ok EmptyString ->
  render_rows image_column config (before ++ row :: after) html
  = render_rows image_column config (before ++ after) html.
Proof.
  intros Hrow. revert html. induction before as [|r before IH]; intros html.
  - cbn [app render_rows]. rewrite Hrow. cbn [rbind]. now rewrite append_nil_r.
  - cbn [app render_rows]. destruct (render_row image_column config r); cbn [rbind];
      [apply IH | reflexivity].
Qed.

(** C8.  The page of the scenario has one card and one link, a [mailto:]
    link whose subject is the encoding of [Inquiry: Dawn (A-1)], and no
    purchase link; with the purchase button on, the same row has one card
    and two links.  A row whose image field is missing or an empty list
    can be taken out of the rows without changing the page, and a page of
    such rows only is the page of no rows: it has no card. *)
Theorem rendered_page_scenario :
  (email_subject (extract_fields dawn_row) = "Inquiry: Dawn (A-1)"
   /\ count_in (scenario_page config_without_button) card_tag = Some 1%nat
   /\ count_in (scenario_page config_without_button) link_tag = Some 1%nat
   /\ count_in (scenario_page config_without_button) "mailto:" = Some 1%nat
   /\ count_in (scenario_page config_without_button)
        (link_tag +:+ dq +:+ "mailto:jofowood@gmail.com?subject="
         +:+ PyLib.quote "Inquiry: Dawn (A-1)" +:+ "&body=") = Some 1%nat
   /\ count_in (scenario_page config_without_button) "Purchase Info" = Some 0%nat
   /\ count_in (scenario_page config_without_button) form_base_url = Some 0%nat)
  /\ (count_in (scenario_page config_with_button) card_tag = Some 1%nat
      /\ count_in (scenario_page config_with_button) link_tag = Some 2%nat
      /\ count_in (scenario_page config_with_button) "mailto:" = Some 1%nat
      /\ count_in (scenario_page config_with_button)
           (link_tag +:+ dq +:+ form_base_url) = Some 1%nat)
  /\ (forall (before after : list dict) (row : dict) image_column columns
             header_logo header_title page_title config,
        row !! image_column = None \/ row !! image_column = Some (VList []) ->
        generate_html (before ++ row :: after) image_column columns
          header_logo header_title page_title config
        = generate_html (before ++ after) image_column columns
            header_logo header_title page_title config)
  /\ (forall (rows : list dict) image_column columns
             header_logo header_title page_title config,
        Forall (fun row => row !! image_column = None
                           \/ row !! image_column = Some (VList [])) rows ->
        generate_html rows image_column columns header_logo header_title page_title config
        = generate_html [] image_column columns header_logo header_title page_title config
        /\ forall html,
             generate_html rows image_column columns
               header_logo header_title page_title config = Ok html ->
             html = html_head (py_str page_title) (py_str header_logo) (py_str header_title)
                    +:+ html_foot).
Proof.
  split; [|split; [|split]].
  - repeat split; vm_compute; reflexivity.
  - repeat split; vm_compute; reflexivity.
  - intros before after row image_column columns header_logo header_title page_title
      config Hrow.
    unfold generate_html. destruct (negb _); [reflexivity|].
    rewrite render_rows_skip; [reflexivity|].
    now apply render_row_no_image, no_image_falsy.
  - intros rows image_column columns header_logo header_title page_title config Hrows.
    assert (E : forall html, render_rows image_column config rows html = Ok html).
    { induction Hrows as [|row rows Hrow _ IH]; intros html; [reflexivity|].
      cbn [render_rows]. rewrite render_row_no_image by now apply no_image_falsy.
      cbn [rbind]. now rewrite append_nil_r. }
    unfold generate_html. destruct (negb _).
    + split; [reflexivity | discriminate].
    + rewrite E. cbn [render_rows rbind]. split; [reflexivity|].
      intros html H. now inversion H.
Qed.

Lemma rendered_page_scenario_witness :
  generate_html [imageless_row; dawn_row] "Jcpv" demo_columns
    (VStr "logo.png") (VStr "title.png") (VStr "Available Works") config_without_button
  = scenario_page config_without_button
  /\ count_in (generate_html [imageless_row] "Jcpv" demo_columns
                 (VStr "logo.png") (VStr "title.png") (VStr "Available Works")
                 config_without_button) card_tag = Some 0%nat.
Proof.
  destruct rendered_page_scenario as (_ & _ & Hskip & Hnone). split.
  - apply (Hskip [] [dawn_row] imageless_row). right. reflexivity.
  - destruct (Hnone [imageless_row] "Jcpv" demo_columns
                (VStr "logo.png") (VStr "title.png") (VStr "Available Works")
                config_without_button) as [E _].
    + constructor; [right; reflexivity | constructor].
    + rewrite E. vm_compute. reflexivity.
Defined.

(** Every file name starts with the twelve digits, so it is not empty. *)
Lemma get_image_filename_nonempty (image_url : value) (fn : string) :
  get_image_filename image_url = Ok fn -> String.eqb fn EmptyString = false.
Proof.
  unfold get_image_filename. destruct (url_path image_url) as [path|e]; [|discriminate].
  cbn [rbind]. intros H. inversion H.
  destruct (path_hash_shape path) as [L _].
  destruct (PyLib.take_str 12 (MD5.hexdigest path)); [discriminate L | reflexivity].
Qed.


Lemma lines_of_filter_cons (line : display_field -> string -> string) (row : dict)
  (p : display_field -> bool) (d : display_field) (ds : list display_field) :
  lines_of line row (List.filter p (d :: ds))
  = (if p d then line d (py_str (field_value row d)) else EmptyString)
    +:+ lines_of line row (List.filter p ds).
Proof. cbn [List.filter]. destruct (p d); reflexivity. Qed.

Lemma card_meta_shown (row : dict) :
  card_meta (extract_fields row) = lines_of card_line row (shown row).
Proof.
  unfold shown, all_display_fields. rewrite !lines_of_filter_cons.
  cbn [List.filter lines_of fold_right]. rewrite append_nil_r.
  unfold card_meta, when, extract_fields, field_value, card_line, field_key.
  cbn [inventory series year edition image_size paper_size frame_size edition_desc
       medium price].
  rewrite !append_assoc. reflexivity.
Qed.

Lemma email_body_shown (row : dict) :
  email_body (extract_fields row)
  = "I'm interested in the following artwork:" +:+ nl +:+ nl
    +:+ "Title: " +:+ py_str (title (extract_fields row)) +:+ nl
    +:+ lines_of email_line row (shown row).
Proof.
  unfold shown, all_display_fields. rewrite !lines_of_filter_cons.
  cbn [List.filter lines_of fold_right]. rewrite append_nil_r.
  unfold email_body, when, extract_fields, field_value, email_line, field_key.
  cbn [inventory series year edition image_size paper_size frame_size edition_desc
       medium price title].
  rewrite !append_assoc. reflexivity.
Qed.

(** What the code does with the display fields.  In the card of a
    rendered row, the lines between the title and the links, and the
    lines of the inquiry email after its title line, are those of the
    ten display fields other than the title that are present and not
    empty, in the fixed order; such a field that is absent or empty has
    no line in either.  The title is rendered without such a test: it is
    ["Untitled"] when the row has no title, and the row's title as it is
    otherwise. *)
Lemma display_fields_omitted (row : dict) :
  card_meta (extract_fields row) = lines_of card_line row (shown row)
  /\ email_body (extract_fields row)
     = "I'm interested in the following artwork:" +:+ nl +:+ nl
       +:+ "Title: " +:+ py_str (title (extract_fields row)) +:+ nl
       +:+ lines_of email_line row (shown row)
  /\ (forall d,
        row !! field_key d = None \/ row !! field_key d = Some (VStr EmptyString) ->
        ~ In d (shown row))
  /\ (forall d, In d (shown row) -> truthy (field_value row d) = true)
  /\ (row !! "gScu" = None -> title (extract_fields row) = VStr "Untitled")
  /\ (forall v, row !! "gScu" = Some v -> title (extract_fields row) = v)
  /\ (forall image_column config html,
        truthy (dict_get row image_column (VList [])) = true ->
        render_row image_column config row = Ok html ->
        exists image_filename purchase,
          html = card_open image_filename (py_str (title (extract_fields row)))
                 +:+ card_meta (extract_fields row)
                 +:+ (indent +:+ "<a href="
                      +:+ q ("mailto:jofowood@gmail.com?subject="
                             +:+ PyLib.quote (email_subject (extract_fields row))
                             +:+ "&body="
                             +:+ PyLib.quote (email_body (extract_fields row)))
                      +:+ " class=" +:+ q "inquire-btn" +:+ ">Inquire</a>" +:+ nl)
                 +:+ purchase +:+ card_close).
Proof.
  split; [apply card_meta_shown|]. split; [apply email_body_shown|].
  split; [|split; [|split; [|split]]].
  - intros d Habsent Hin. unfold shown in Hin. apply filter_In in Hin.
    destruct Hin as [_ Ht]. unfold field_value, dict_get in Ht.
    destruct Habsent as [E | E]; rewrite E in Ht; discriminate Ht.
  - intros d Hin. unfold shown in Hin. apply filter_In in Hin. tauto.
  - intros H. unfold extract_fields, dict_get. cbn [title]. now rewrite H.
  - intros v H. unfold extract_fields, dict_get. cbn [title]. now rewrite H.
  - intros image_column config html Himg Hrow.
    destruct (render_row_card _ _ _ _ Himg Hrow)
      as (image_url & fn & purchase & _ & _ & _ & Hhtml).
    exists fn, purchase. exact Hhtml.
Qed.

(** A row lacking a price has a card with no price line and an email
    with no price line: the only line of either is the inventory's. *)
Lemma display_fields_omitted_witness :
  ~ In Price (shown unpriced_row)
  /\ card_meta (extract_fields unpriced_row)
     = indent +:+ "<div class=" +:+ q "inv-number" +:+ ">A-1</div>" +:+ nl
  /\ email_body (extract_fields unpriced_row)
     = "I'm interested in the following artwork:" +:+ nl +:+ nl
       +:+ "Title: Dawn" +:+ nl +:+ "Inventory: A-1" +:+ nl.
Proof.
  destruct (display_fields_omitted unpriced_row) as (Hcard & Hmail & Habsent & _).
  split; [|split].
  - apply Habsent. left. reflexivity.
  - rewrite Hcard. vm_compute. reflexivity.
  - rewrite Hmail. vm_compute. reflexivity.
Defined.

(** The omission rule does not hold for the title of every row: an
    empty title is rendered, as an element without text in the card and
    as a line without text in the email. *)
Lemma empty_title_is_rendered :
  ~ (forall row image_column config html,
       row !! "gScu" = Some (VStr EmptyString) ->
       truthy (dict_get row image_column (VList [])) = true ->
       render_row image_column config row = Ok html ->
       PyLib.contains ("<div class=" +:+ q "artwork-title" +:+ "></div>") html = false
       /\ PyLib.contains (PyLib.quote ("Title: " +:+ nl)) html = false).
Proof.
  intros H.
  destruct (render_row "Jcpv" config_without_button untitled_row) as [html|e] eqn:R;
    [|vm_compute in R; discriminate R].
  destruct (H untitled_row "Jcpv" config_without_button html) as [Hcard _];
    [reflexivity | reflexivity | exact R |].
  vm_compute in R. inversion R; subst html. vm_compute in Hcard. discriminate Hcard.
Qed.

(** C2.  The code at a row whose title is present and empty, and that
    has an image: the card has a title element without text and the
    inquiry email a title line without text, where the specification
    has empty fields omitted and the ten other fields are tested with
    [if field:]; the default ["Untitled"] is not used, since it stands in
    for a missing title only.  The inventory number of the same row,
    which is missing, has no line. *)
Theorem empty_title_placeholder :
  untitled_row !! "gScu" = Some (VStr EmptyString)
  /\ title (extract_fields untitled_row) = VStr EmptyString
  /\ shown untitled_row = []
  /\ card_meta (extract_fields untitled_row) = EmptyString
  /\ email_subject (extract_fields untitled_row) = "Inquiry: "
  /\ email_body (extract_fields untitled_row)
     = "I'm interested in the following artwork:" +:+ nl +:+ nl +:+ "Title: " +:+ nl
  /\ exists html,
       render_row "Jcpv" config_without_button untitled_row = Ok html
       /\ PyLib.count_sub ("<div class=" +:+ q "artwork-title" +:+ "></div>") html = 1%nat
       /\ PyLib.count_sub (PyLib.quote ("Title: " +:+ nl)) html = 1%nat
       /\ PyLib.count_sub "Untitled" html = 0%nat.
Proof.
  do 6 (split; [vm_compute; reflexivity|]).
  destruct (render_row "Jcpv" config_without_button untitled_row) as [html|e] eqn:R;
    [|vm_compute in R; discriminate R].
  exists html. split; [reflexivity|].
  vm_compute in R. inversion R; subst html.
  repeat split; vm_compute; reflexivity.
Qed.

(** * Further properties of the script *)

(** ** [load_config] and the start of [main] *)

(** X1.  When [open] finds nothing at the path of the configuration
    file and raises [FileNotFoundError], or when the text of the file
    is not JSON, [load_config] prints one line that says so and exits
    with status 1. *)
Theorem load_config_unreadable (w : world) (config_file : string) :
  (read_text w config_file = Raise FileNotFoundError ->
   load_config config_file w
   = (Raise (SystemExit 1),
      printed w ("Error: Config file '" +:+ config_file +:+ "' not found")))
  /\ (forall text msg,
        files w !! config_file = Some text ->
        json_load (env w) text = JsonInvalid msg ->
        load_config config_file w
        = (Raise (SystemExit 1),
           printed w ("Error: Invalid JSON in config file: " +:+ msg))).
Proof.
  split.
  - intros H. unfold load_config, try_except, load_config_body. now rewrite H.
  - intros text msg H J. unfold load_config, try_except, load_config_body, read_text.
    now rewrite H, J.
Qed.

Lemma load_config_unreadable_witness :
  stdout (snd (load_config "config.json" empty_world))
  = ["Error: Config file 'config.json' not found"]
  /\ stdout (snd (load_config "config.json" broken_json_world))
     = ["Error: Invalid JSON in config file: Expecting value: line 1 column 1 (char 0)"].
Proof.
  destruct (load_config_unreadable empty_world "config.json") as [H _].
  destruct (load_config_unreadable broken_json_world "config.json") as [_ J].
  split.
  - rewrite H; reflexivity.
  - rewrite (J "{...}" "Expecting value: line 1 column 1 (char 0)"); reflexivity.
Defined.

Lemma exn_of_errno_not_exit (errno code : Z) : exn_of_errno errno <> SystemExit code.
Proof.
  unfold exn_of_errno.
  repeat match goal with
         | |- context [if ?b then _ else _] => destruct b
         end; discriminate.
Qed.

(** [open] raises no [SystemExit]. *)
Lemma read_text_raises (w : world) (p : string) (e : exn) (code : Z) :
  read_text w p = Raise e -> e <> SystemExit code.
Proof.
  unfold read_text. intros H.
  destruct (files w !! p); [discriminate H|].
  destruct (has_nul p); [inversion H; discriminate|].
  destruct (String.eqb p EmptyString); [inversion H; discriminate|].
  destruct (PATH_MAX <=? String.length p)%nat; [inversion H; discriminate|].
  destruct (walk w (chain p)) as [|d| | | |]; try (inversion H; discriminate).
  - destruct (files w !! d); inversion H; discriminate.
  - destruct (os_error (env w) (OsOpenRead p)); inversion H;
      [apply exn_of_errno_not_exit | discriminate].
  - destruct (os_error (env w) (OsOpenRead p)); inversion H;
      [apply exn_of_errno_not_exit | discriminate].
Qed.

(** The ways in which [load_config] ends. *)
Lemma load_config_cases (w : world) (config_file : string) :
  (exists config,
     load_config config_file w = (Ok config, w)
     /\ is_Some (config !! "include_purchase_button")
     /\ forall field, In field required -> is_Some (config !! field))
  \/ (exists line,
        load_config config_file w = (Raise (SystemExit 1), printed w ("Error: " +:+ line)))
  \/ (load_config config_file w = (Raise AttributeError, w)
      /\ exists text v,
           read_text w config_file = Ok text
           /\ json_load (env w) text = JsonOther v)
  \/ (exists e,
        load_config config_file w = (Raise e, w)
        /\ caught_by_load_config e = false
        /\ (read_text w config_file = Raise e
            \/ (e = RecursionError
                /\ exists text,
                     read_text w config_file = Ok text
                     /\ json_load (env w) text = TooDeep))).
Proof.
  unfold load_config, try_except, load_config_body.
  destruct (read_text w config_file) as [text|e] eqn:F.
  2:{ destruct e;
        first [ right; left; eexists; reflexivity
              | right; right; right; eexists;
                split; [reflexivity | split; [reflexivity | left; reflexivity]] ]. }
  destruct (json_load (env w) text) as [msg|msg| |msg|cfg|v] eqn:J.
  - right. left. eexists. reflexivity.
  - right. left. eexists. reflexivity.
  - right. right. right. exists RecursionError.
    split; [reflexivity|]. split; [reflexivity|]. right. eauto.
  - right. left. eexists. reflexivity.
  - rewrite missing_after_default.
    destruct (missing_fields cfg) as [|m ms] eqn:E.
    + left. eexists. split; [reflexivity|]. split.
      * rewrite lookup_insert_eq. eauto.
      * intros field Hin.
        assert (Hne : "include_purchase_button" <> field).
        { unfold required in Hin. simpl in Hin.
          destruct Hin as [<-|[<-|[<-|[<-|[<-|[]]]]]]; discriminate. }
        rewrite lookup_insert_ne by exact Hne.
        destruct (cfg !! field) eqn:L; [eauto|].
        assert (In field (missing_fields cfg)) by (apply missing_fields_spec; auto).
        rewrite E in H. contradiction.
    + right. left. eexists. reflexivity.
  - right. right. left. split; [reflexivity | eauto].
Qed.

(** X2.  [load_config] ends in one of four ways.  It returns a
    configuration that has the five required fields and
    [include_purchase_button], leaving the world as it was.  Or it
    prints one line that starts with [Error: ] and exits with status 1.
    Or, for JSON that is not an object, it raises [AttributeError] with
    nothing printed.  Or [open] raises an exception that no handler of
    [load_config] catches (the path is a directory, a permission is
    missing, a name is too long), or [json.load] raises
    [RecursionError], and [load_config] ends with it, again with
    nothing printed.  It never writes a file, makes a directory or
    sends a request. *)
Theorem load_config_outcomes (w : world) (config_file : string) :
  ((exists config,
      load_config config_file w = (Ok config, w)
      /\ is_Some (config !! "include_purchase_button")
      /\ forall field, In field required -> is_Some (config !! field))
   \/ (exists line,
         fst (load_config config_file w) = Raise (SystemExit 1)
         /\ stdout (snd (load_config config_file w)) = (stdout w ++ [line])%list
         /\ PyLib.startswith "Error: " line = true)
   \/ (load_config config_file w = (Raise AttributeError, w)
       /\ exists text v,
            read_text w config_file = Ok text
            /\ json_load (env w) text = JsonOther v)
   \/ (exists e,
         load_config config_file w = (Raise e, w)
         /\ caught_by_load_config e = false
         /\ (read_text w config_file = Raise e
             \/ (e = RecursionError
                 /\ exists text,
                      read_text w config_file = Ok text
                      /\ json_load (env w) text = TooDeep))))
  /\ files (snd (load_config config_file w)) = files w
  /\ dirs (snd (load_config config_file w)) = dirs w
  /\ requests (snd (load_config config_file w)) = requests w.
Proof.
  destruct (load_config_cases w config_file)
    as [(c & E & H) | [(line & E) | [(E & H) | (e & E & H)]]].
  - rewrite E. split; [left; eauto | repeat split].
  - rewrite E. split; [|repeat split]. right. left. exists ("Error: " +:+ line).
    split; [reflexivity|]. split; [reflexivity | apply startswith_append].
  - rewrite E. split; [right; right; left; eauto | repeat split].
  - rewrite E. split; [right; right; right; eauto | repeat split].
Qed.

(** A configuration path that is a directory, and one that the process
    may not read: [load_config] ends with the error of [open]. *)
Example load_config_cannot_open :
  load_config "art" demo_world = (Raise IsADirectoryError, demo_world)
  /\ load_config "secret.json" locked_world = (Raise PermissionError, locked_world)
  /\ fst (load_config "config.json/x" demo_world) = Raise NotADirectoryError
  /\ fst (load_config (repeat_str "x" 300) demo_world) = Raise (OSError 36).
Proof. vm_compute. repeat split; reflexivity. Qed.

(** A configuration file whose bytes are not text: the error is caught
    as a [ValueError]. *)
Example load_config_not_text :
  load_config "config.json" binary_config_world
  = (Raise (SystemExit 1),
     printed binary_config_world
       "Error: 'utf-8' codec can't decode byte 0xff in position 0: invalid start byte").
Proof. reflexivity. Qed.

(** X3.  Without a configuration file on the command line, [main] prints
    the usage and an example and exits with status 1; nothing else
    happens. *)
Theorem main_usage (argv : list string) (w : world) :
  (length argv < 2)%nat ->
  run argv w
  = (Raise (SystemExit 1),
     printed (printed w "Usage: python3 generate_catalog.py <config_file.json>")
       (nl +:+ "Example: python3 generate_catalog.py config_available_works.json"))
  /\ exit_code (fst (run argv w)) = 1.
Proof.
  intros H. destruct argv as [|prog [|config_file extra]]; [| |simpl in H; lia];
    split; reflexivity.
Qed.

Lemma main_usage_witness :
  fst (run ["generate_catalog.py"] demo_world) = Raise (SystemExit 1)
  /\ requests (snd (run ["generate_catalog.py"] demo_world)) = []
  /\ files (snd (run ["generate_catalog.py"] demo_world)) = files demo_world.
Proof.
  destruct (main_usage ["generate_catalog.py"] demo_world) as [E _]; [simpl; lia|].
  rewrite E. repeat split.
Defined.

(** X4.  When [load_config] fails, [main] ends with the same exception in
    the world [load_config] left: the process exits with a non-zero
    status before any directory is made or request sent, and no file is
    written. *)
Theorem main_stops_on_config_error (prog config_file : string) (extra : list string)
  (w w1 : world) (e : exn) :
  load_config config_file w = (Raise e, w1) ->
  run (prog :: config_file :: extra) w = (Raise e, w1)
  /\ exit_code (fst (run (prog :: config_file :: extra) w)) <> 0
  /\ dirs w1 = dirs w /\ requests w1 = requests w /\ files w1 = files w.
Proof.
  intros H.
  assert (E : run (prog :: config_file :: extra) w = (Raise e, w1)).
  { unfold run, main. now apply bind_raise. }
  split; [exact E|]. rewrite E.
  destruct (load_config_cases w config_file)
    as [(c & E1 & _) | [(line & E1) | [(E1 & _) | (e0 & E1 & _ & R)]]];
    rewrite E1 in H; inversion H; subst; repeat split; try discriminate.
  destruct R as [R | (-> & _)]; [|discriminate].
  pose proof (read_text_raises _ _ _ 0 R) as Hne.
  destruct e; try discriminate. cbn. intros ->. now apply Hne.
Qed.

Lemma main_stops_on_config_error_witness :
  fst (run demo_argv empty_world) = Raise (SystemExit 1)
  /\ dirs (snd (run demo_argv empty_world)) = []
  /\ requests (snd (run demo_argv empty_world)) = [].
Proof.
  destruct (main_stops_on_config_error "generate_catalog.py" "config.json" []
              empty_world
              (printed empty_world "Error: Config file 'config.json' not found")
              (SystemExit 1)) as (E & _ & D & R & _); [reflexivity|].
  fold demo_argv in E. rewrite E. cbn [fst snd]. rewrite D, R. repeat split.
Defined.

(** ** The calls to the remote service *)

Lemma fetch_any {A : Type} (req : request) (answer : environment -> reply (option A))
  (w : world) :
  (response <- requests_get req answer ;; raise_for_status response ;;; json_of response) w
  = (fetched (answer (env w)), sent w req).
Proof.
  unfold bind, requests_get, raise_for_status, json_of, fetched.
  destruct (failed (answer (env w))); [reflexivity|].
  unfold ret. destruct (payload (answer (env w))); reflexivity.
Qed.

(** Each of [get_base_token], [get_metadata] and [get_rows] sends
    exactly one request and changes nothing else; an error status of the
    reply is raised whatever its body holds, and only a reply without one
    has its body read.  [get_rows] names the view in its request only
    when the view name is not empty. *)
Lemma remote_calls (w : world) (api_token base_token base_uuid table_name : string)
  (view_name : value) :
  get_base_token api_token w
  = (fetched (app_access_token (env w) api_token), sent w (ReqToken api_token))
  /\ get_metadata base_token base_uuid w
     = (fetched (metadata (env w) base_token base_uuid),
        sent w (ReqMetadata base_token base_uuid))
  /\ (truthy view_name = true ->
      get_rows base_token base_uuid table_name view_name w
      = (fetched (rows (env w) base_token base_uuid table_name (Some view_name)),
         sent w (ReqRows base_token base_uuid table_name (Some view_name))))
  /\ (truthy view_name = false ->
      get_rows base_token base_uuid table_name view_name w
      = (fetched (rows (env w) base_token base_uuid table_name None),
         sent w (ReqRows base_token base_uuid table_name None))).
Proof.
  split; [apply fetch_any|]. split; [apply fetch_any|].
  split; intros H; unfold get_rows; rewrite H; apply fetch_any.
Qed.

(** X5.  When the base has no table named [TABLE_NAME], [main] ends with
    an uncaught [StopIteration] after the token and metadata requests:
    the exit status is not zero, no rows are requested and no file is
    written. *)
Theorem main_table_missing (prog config_file : string) (extra : list string)
  (config : dict) (out base_token base_uuid : string) (tables : list table) (w : world) :
  load_config config_file w = (Ok config, w) ->
  config !! "output_file" = Some (VStr out) ->
  fetched (app_access_token (env w) API_TOKEN) = Ok (base_token, base_uuid) ->
  fetched (metadata (env w) base_token base_uuid) = Ok tables ->
  (forall t, In t tables -> table_name t <> TABLE_NAME) ->
  exists w',
    run (prog :: config_file :: extra) w = (Raise StopIteration, w')
    /\ exit_code (fst (run (prog :: config_file :: extra) w)) <> 0
    /\ requests w' = (requests w ++ [ReqToken API_TOKEN;
                                     ReqMetadata base_token base_uuid])%list
    /\ files w' = files w.
Proof.
  intros Hload Hout Htok Hmeta Hnone.
  destruct (config_fields _ _ _ Hload)
    as (view_name & header_logo & header_title & page_title
        & Hview & Hlogo & Htitle & Hpage).
  assert (E : exists w',
    run (prog :: config_file :: extra) w = (Raise StopIteration, w')
    /\ requests w' = (requests w ++ [ReqToken API_TOKEN;
                                     ReqMetadata base_token base_uuid])%list
    /\ files w' = files w).
  { eexists. split.
    - run_preamble Hload Hview Hout Hlogo Htitle Hpage.
      step_with ltac:(unfold get_base_token; rewrite fetch_any;
                      autorewrite with world; rewrite Htok; reflexivity).
      cbv beta iota. do 2 step.
      step_with ltac:(unfold get_metadata; rewrite fetch_any;
                      autorewrite with world; rewrite Hmeta; reflexivity).
      eapply bind_raise. unfold select_table.
      rewrite find_all_false; [reflexivity|].
      intros t Ht. apply String.eqb_neq. now apply Hnone.
    - autorewrite with world. rewrite <- app_assoc. split; reflexivity. }
  destruct E as (w' & E & R & F). exists w'.
  split; [exact E|]. split; [rewrite E; discriminate|]. auto.
Qed.

Lemma main_table_missing_witness :
  exists w',
    run demo_argv other_table_world = (Raise StopIteration, w')
    /\ length (requests w') = 2%nat
    /\ files w' = files other_table_world.
Proof.
  destruct (main_table_missing "generate_catalog.py" "config.json" []
              config_without_button "art/index.html" "session-token" "0123456789abcdef"
              [mkTable "Archive" demo_columns] other_table_world)
    as (w' & E & _ & R & F); [reflexivity .. | |].
  - intros t [<-|[]]. discriminate.
  - exists w'. split; [exact E|]. split; [now rewrite R | exact F].
Defined.

(** ** [find_image_column] *)

(** X6.  The column [find_image_column] returns is the key or the name of
    one of the columns given; and when it returns none, no column has the
    key [Jcpv]. *)
Theorem find_image_column_sound (columns : list column) :
  (forall k,
     find_image_column columns = Some k ->
     exists c, In c columns /\ (col_key c = Some k \/ col_name c = Some k))
  /\ (find_image_column columns = None ->
      forall c, In c columns -> col_key c <> Some "Jcpv").
Proof.
  unfold find_image_column. split.
  - intros k H.
    destruct (List.find _ columns) as [c|] eqn:F.
    + apply find_some in F. destruct F as [Hin _]. eauto.
    + destruct (List.find (fun col => bool_decide (col_type col = Some "image")) columns)
        as [c|] eqn:G; [|discriminate].
      apply find_some in G. destruct G as [Hin _]. exists c. split; [exact Hin|].
      destruct (col_key c) as [k'|]; [|now right].
      destruct (String.eqb k' EmptyString); [now right | now left].
  - intros H c Hin.
    destruct (List.find _ columns) as [c'|] eqn:F.
    + apply find_some in F. destruct F as [_ F].
      apply bool_decide_eq_true in F. congruence.
    + eapply find_none in F; [|exact Hin]. now apply bool_decide_eq_false in F.
Qed.

Lemma find_image_column_sound_witness :
  exists c,
    In c [plain_column; empty_key_image_column]
    /\ (col_key c = Some "Pic" \/ col_name c = Some "Pic").
Proof.
  destruct (find_image_column_sound [plain_column; empty_key_image_column]) as [H _].
  apply H. reflexivity.
Defined.

(** ** [generate_html] *)

Lemma render_rows_ok (image_column : string) (config : dict) (rows : list dict)
  (cards : list string) (html : string) :
  cards_of image_column config rows cards ->
  render_rows image_column config rows html = Ok (html +:+ concat_str cards).
Proof.
  intros H. revert html. induction H as [|row card rows cards Hrow _ IH]; intros html.
  - cbn [render_rows concat_str fold_right]. now rewrite append_nil_r.
  - cbn [render_rows]. rewrite Hrow. cbn [rbind]. rewrite IH.
    cbn [concat_str fold_right]. now rewrite append_assoc.
Qed.

Lemma render_rows_error (image_column : string) (config : dict)
  (before after : list dict) (row : dict) (cards : list string) (e : exn) (html : string) :
  cards_of image_column config before cards ->
  render_row image_column config row = Raise e ->
  render_rows image_column config (before ++ row :: after) html = Raise e.
Proof.
  intros H Hrow. revert html. induction H as [|r card rows cards Hr _ IH]; intros html.
  - cbn [app render_rows]. now rewrite Hrow.
  - cbn [app render_rows]. rewrite Hr. cbn [rbind]. apply IH.
Qed.

(** X7.  With every column named, the page is its head, then the cards of
    the rows in the order of the rows, then its foot.  If the card of a
    row raises, [generate_html] raises the exception of the first such
    row and there is no page. *)
Theorem page_structure (image_column : string) (columns : list column)
  (header_logo header_title page_title : value) (config : dict) :
  all_named columns = true ->
  (forall rows cards,
     cards_of image_column config rows cards ->
     generate_html rows image_column columns header_logo header_title page_title config
     = Ok (html_head (py_str page_title) (py_str header_logo) (py_str header_title)
           +:+ concat_str cards +:+ html_foot))
  /\ (forall before row after cards e,
        cards_of image_column config before cards ->
        render_row image_column config row = Raise e ->
        generate_html (before ++ row :: after) image_column columns
          header_logo header_title page_title config
        = Raise e).
Proof.
  intros Hnamed. unfold all_named in Hnamed. split.
  - intros rows cards H. unfold generate_html. rewrite Hnamed. cbn [negb].
    rewrite (render_rows_ok _ _ _ _ _ H). cbn [rbind]. now rewrite append_assoc.
  - intros before row after cards e H Hrow. unfold generate_html. rewrite Hnamed.
    cbn [negb]. now rewrite (render_rows_error _ _ _ _ _ _ _ _ H Hrow).
Qed.

Lemma page_structure_witness :
  generate_html [imageless_row; dawn_row; unpriced_row] "Jcpv" demo_columns
    (VStr "logo.png") (VStr "title.png") (VStr "Available Works") config_without_button
  = Ok (html_head "Available Works" "logo.png" "title.png"
        +:+ (dawn_card config_without_button
             +:+ match render_row "Jcpv" config_without_button unpriced_row with
                 | Ok card => card
                 | Raise _ => EmptyString
                 end)
        +:+ html_foot)
  /\ generate_html [dawn_row; numeric_image_row; unpriced_row] "Jcpv" demo_columns
       (VStr "logo.png") (VStr "title.png") (VStr "Available Works")
       config_without_button
     = Raise AttributeError.
Proof.
  destruct (page_structure "Jcpv" demo_columns (VStr "logo.png") (VStr "title.png")
              (VStr "Available Works") config_without_button) as [Hok Herr];
    [reflexivity|].
  split.
  - rewrite (Hok [imageless_row; dawn_row; unpriced_row]
               [EmptyString; dawn_card config_without_button;
                match render_row "Jcpv" config_without_button unpriced_row with
                | Ok card => card
                | Raise _ => EmptyString
                end]).
    + cbn [concat_str fold_right py_str]. now rewrite append_nil_r.
    + constructor; [reflexivity|].
      constructor; [vm_compute; reflexivity|].
      constructor; [vm_compute; reflexivity | constructor].
  - apply (Herr [dawn_row] numeric_image_row [unpriced_row]
             [dawn_card config_without_button]).
    + constructor; [vm_compute; reflexivity | constructor].
    + vm_compute. reflexivity.
Defined.

(** X8.  A column without a name makes [generate_html] raise
    [KeyError('name')] whatever the rows are; when all columns are named,
    the page does not depend on the columns. *)
Theorem generate_html_columns (rows : list dict) (image_column : string)
  (header_logo header_title page_title : value) (config : dict) :
  (forall columns,
     (exists col, In col columns /\ col_name col = None) ->
     generate_html rows image_column columns header_logo header_title page_title config
     = Raise (KeyError "name"))
  /\ (forall columns1 columns2,
        all_named columns1 = true -> all_named columns2 = true ->
        generate_html rows image_column columns1 header_logo header_title page_title config
        = generate_html rows image_column columns2 header_logo header_title page_title
            config).
Proof.
  split.
  - intros columns (col & Hin & Hname). unfold generate_html.
    assert (E : forallb (fun col => bool_decide (is_Some (col_name col))) columns = false).
    { apply not_true_iff_false. intros H. rewrite forallb_forall in H.
      specialize (H col Hin). apply bool_decide_eq_true in H.
      rewrite Hname in H. destruct H as [x H]. discriminate H. }
    now rewrite E.
  - intros columns1 columns2 H1 H2. unfold all_named in *. unfold generate_html.
    now rewrite H1, H2.
Qed.

Lemma generate_html_columns_witness :
  generate_html [dawn_row] "Jcpv" (demo_columns ++ [nameless_column])
    (VStr "logo.png") (VStr "title.png") (VStr "Available Works") config_without_button
  = Raise (KeyError "name")
  /\ generate_html [dawn_row] "Jcpv" [] (VStr "logo.png") (VStr "title.png")
       (VStr "Available Works") config_without_button
     = scenario_page config_without_button.
Proof.
  destruct (generate_html_columns [dawn_row] "Jcpv" (VStr "logo.png") (VStr "title.png")
              (VStr "Available Works") config_without_button) as [Hkey Hany].
  split.
  - apply Hkey. exists nameless_column. split; [|reflexivity].
    apply in_or_app. right. left. reflexivity.
  - apply Hany; reflexivity.
Defined.

(** X9.  For a row with an image whose title is not a string (a number,
    say), the card is rendered when the purchase button is off, with the
    title as [str] prints it; with the button on, the card raises
    [TypeError], because the purchase link passes the title to
    [quote]. *)
Theorem purchase_button_needs_text_title (image_column : string) (config row : dict)
  (image_url : value) (image_filename : string) :
  has_image image_column row = true ->
  first_image (dict_get row image_column (VList [])) = Ok image_url ->
  get_image_filename image_url = Ok image_filename ->
  (forall s, title (extract_fields row) <> VStr s) ->
  (truthy (dict_get config "include_purchase_button" (VBool false)) = true ->
   render_row image_column config row = Raise TypeError)
  /\ (truthy (dict_get config "include_purchase_button" (VBool false)) = false ->
      render_row image_column config row
      = Ok (card_open image_filename (py_str (title (extract_fields row)))
            +:+ card_meta (extract_fields row)
            +:+ inquire_button (extract_fields row) +:+ card_close)).
Proof.
  intros Himg Hfirst Hfn Htitle. unfold has_image in Himg.
  split; intros Hb; unfold render_row; rewrite Himg; cbn [negb];
    rewrite Hfirst; cbn [rbind]; rewrite Hfn; cbn [rbind];
    unfold purchase_button; rewrite Hb.
  - destruct (title (extract_fields row)) as [| | |s|] eqn:T; try reflexivity.
    exfalso. now apply (Htitle s).
  - reflexivity.
Qed.

Lemma purchase_button_needs_text_title_witness :
  render_row "Jcpv" config_with_button numeric_title_row = Raise TypeError
  /\ count_in (render_row "Jcpv" config_without_button numeric_title_row)
       ("<div class=" +:+ q "artwork-title" +:+ ">1984</div>") = Some 1%nat.
Proof.
  destruct (purchase_button_needs_text_title "Jcpv" config_with_button numeric_title_row
              (VStr dawn_url) "c964f01aec55.JPG") as [Hon _];
    [reflexivity | reflexivity | vm_compute; reflexivity | intros s; discriminate |].
  destruct (purchase_button_needs_text_title "Jcpv" config_without_button
              numeric_title_row (VStr dawn_url) "c964f01aec55.JPG") as [_ Hoff];
    [reflexivity | reflexivity | vm_compute; reflexivity | intros s; discriminate |].
  split.
  - apply Hon. reflexivity.
  - rewrite Hoff by reflexivity. vm_compute. reflexivity.
Defined.

(** ** The cache file name is a plain file name *)

Lemma all_chars_impl (p p' : ascii -> bool) (s : string) :
  (forall c, p c = true -> p' c = true) ->
  PyLib.all_chars p s = true -> PyLib.all_chars p' s = true.
Proof.
  intros Himp. induction s as [|c s IH]; intros H; simpl in *; [reflexivity|].
  apply andb_prop in H. destruct H as [Hc Hs]. now rewrite (Himp c Hc), IH.
Qed.

Lemma hex_no_slash (s : string) :
  PyLib.all_chars PyLib.is_hex_lower s = true -> no_slash s = true.
Proof.
  apply all_chars_impl. intros c Hc.
  destruct (Ascii.eqb c "/") eqn:E; [|reflexivity].
  apply Ascii.eqb_eq in E. subst c. discriminate Hc.
Qed.

Lemma split_slash_pieces (s : string) :
  Forall (fun x => no_slash x = true) (PyLib.split_slash s).
Proof.
  induction s as [|c s IH]; cbn [PyLib.split_slash].
  - repeat constructor.
  - destruct (Ascii.eqb c "/") eqn:E; [constructor; [reflexivity | exact IH]|].
    destruct (PyLib.split_slash s) as [|x rest].
    + constructor; [|constructor]. unfold no_slash. simpl. now rewrite E.
    + inversion IH; subst. constructor; [|assumption].
      unfold no_slash in *. simpl. now rewrite E.
Qed.

Lemma last_Forall {A : Type} (P : A -> Prop) (l : list A) (d : A) :
  P d -> Forall P l -> P (List.last l d).
Proof.
  intros Hd H. induction H as [|x l Hx Hl IH]; [exact Hd|].
  destruct l; [exact Hx | exact IH].
Qed.

Lemma path_name_no_slash (p : string) : no_slash (PyLib.path_name p) = true.
Proof.
  unfold PyLib.path_name. apply (last_Forall (fun x => no_slash x = true)); [reflexivity|].
  apply List.Forall_forall. intros x Hx. apply filter_In in Hx. destruct Hx as [Hx _].
  pose proof (split_slash_pieces p) as H. rewrite List.Forall_forall in H. now apply H.
Qed.

Lemma last_dot_tail_suffix (s t : string) :
  PyLib.last_dot_tail s = Some t -> exists pre, s = pre +:+ t.
Proof.
  revert t. induction s as [|c s IH]; intros t H; cbn [PyLib.last_dot_tail] in H;
    [discriminate|].
  destruct (PyLib.last_dot_tail s) as [t'|].
  - inversion H; subst. destruct (IH t eq_refl) as [pre ->]. now exists (String c pre).
  - destruct (Ascii.eqb c "."); [|discriminate]. inversion H. now exists EmptyString.
Qed.

Lemma path_suffix_no_slash (name : string) :
  no_slash name = true -> no_slash (PyLib.path_suffix name) = true.
Proof.
  intros H. unfold PyLib.path_suffix. destruct name as [|c rest]; [reflexivity|].
  destruct (PyLib.last_dot_tail rest) as [t|] eqn:E; [|reflexivity].
  destruct (1 <? String.length t)%nat; [|reflexivity].
  destruct (last_dot_tail_suffix _ _ E) as [pre ->].
  unfold no_slash in *. simpl in H. apply andb_prop in H. destruct H as [_ H].
  rewrite all_chars_app in H. apply andb_prop in H. tauto.
Qed.

(** X10.  The name [get_image_filename] returns has no slash and is not
    empty, so the path the image is stored at is that name directly in
    [art/images]: the cache is flat, whatever the URL. *)
Theorem image_filename_is_flat (image_url : value) (image_filename : string) :
  get_image_filename image_url = Ok image_filename ->
  no_slash image_filename = true
  /\ PyLib.path_join IMAGES_DIR image_filename = "art/images/" +:+ image_filename
  /\ PyLib.path_name (PyLib.path_join IMAGES_DIR image_filename) = image_filename.
Proof.
  intros H. pose proof (get_image_filename_nonempty _ _ H) as Hne.
  unfold get_image_filename in H. destruct (url_path image_url) as [path|e]; [|discriminate].
  cbn [rbind] in H.
  assert (Hfn : PyLib.take_str 12 (MD5.hexdigest path)
                +:+ PyLib.path_suffix (PyLib.path_name path) = image_filename)
    by congruence.
  clear H. destruct (path_hash_shape path) as [Hlen Hhex].
  assert (Hslash : no_slash image_filename = true).
  { subst image_filename. apply no_slash_app.
    - now apply hex_no_slash.
    - apply path_suffix_no_slash, path_name_no_slash. }
  assert (Hjoin : PyLib.path_join IMAGES_DIR image_filename
                  = "art/images/" +:+ image_filename).
  { unfold PyLib.path_join. rewrite Hne. reflexivity. }
  split; [exact Hslash|]. split; [exact Hjoin|].
  rewrite Hjoin. apply path_name_last; [right; now exists "art/images" | exact Hslash |].
  rewrite <- Hfn.
  destruct (PyLib.take_str 12 (MD5.hexdigest path)) as [|c1 [|c2 h]];
    [discriminate Hlen | discriminate Hlen |].
  unfold PyLib.is_component. simpl. destruct (Ascii.eqb c1 "."); reflexivity.
Qed.

Lemma image_filename_is_flat_witness :
  PyLib.path_name (PyLib.path_join IMAGES_DIR "c964f01aec55.JPG") = "c964f01aec55.JPG".
Proof.
  destruct (image_filename_is_flat (VStr dawn_url) "c964f01aec55.JPG") as (_ & _ & H);
    [vm_compute; reflexivity | exact H].
Defined.

(** ** The links of a card *)

Lemma hex_upper_digit (n : Z) :
  0 <= n < 16 -> PyLib.is_quote_safe (PyLib.nth_char PyLib.hex_upper n) = true.
Proof.
  intros H. rewrite <- (Z2Nat.id n) by lia.
  assert (Hk : (Z.to_nat n < 16)%nat) by lia.
  revert Hk. generalize (Z.to_nat n) as k. intros k Hk.
  do 16 (destruct k as [|k]; [reflexivity|]). lia.
Qed.

Lemma quote_href_safe (s : string) :
  PyLib.all_chars is_href_safe (PyLib.quote s) = true.
Proof.
  induction s as [|c s IH]; [reflexivity|]. cbn [PyLib.quote].
  destruct (PyLib.is_quote_safe c) eqn:E.
  - cbn [PyLib.all_chars]. unfold is_href_safe at 1. now rewrite E, IH.
  - rewrite !all_chars_app, IH. unfold PyLib.hex2. cbn [PyLib.all_chars].
    unfold is_href_safe.
    rewrite !hex_upper_digit by apply nibble_bounds. reflexivity.
Qed.

Lemma all_chars_excludes (p : ascii -> bool) (s : string) (c : ascii) :
  PyLib.all_chars p s = true -> p c = false -> PyLib.char_in s c = false.
Proof.
  intros Hs Hc. unfold PyLib.char_in, PyLib.contains.
  induction s as [|a s IH]; [reflexivity|].
  cbn [PyLib.all_chars] in Hs. apply andb_prop in Hs. destruct Hs as [Ha Hs].
  cbn [PyLib.find_sep PyLib.startswith].
  destruct (Ascii.eqb c a) eqn:E.
  - apply Ascii.eqb_eq in E. subst a. congruence.
  - specialize (IH Hs). destruct (PyLib.find_sep (String c EmptyString) s) as [[x y]|];
      [discriminate IH | reflexivity].
Qed.

(** X11.  Whatever the fields of a row hold, the inquiry link is made of
    letters, digits and the characters [_.-~/%:@?=&] only: no double
    quote, angle bracket, space or line break can end the [href] it is
    put in.  The same holds for the purchase link, when there is one. *)
Theorem links_are_attribute_safe (f : fields) :
  PyLib.all_chars is_href_safe (mailto_link f) = true
  /\ (forall c, is_href_safe c = false -> PyLib.char_in (mailto_link f) c = false)
  /\ is_href_safe (ascii_of_nat 34) = false
  /\ (forall config image_filename line,
        truthy (dict_get config "include_purchase_button" (VBool false)) = true ->
        purchase_button config f image_filename = Ok line ->
        exists link,
          line = indent +:+ "<a href=" +:+ q link +:+ " class=" +:+ q "inquire-btn"
                 +:+ " target=" +:+ q "_blank" +:+ ">Purchase Info</a>" +:+ nl
          /\ PyLib.all_chars is_href_safe link = true
          /\ forall c, is_href_safe c = false -> PyLib.char_in link c = false).
Proof.
  assert (Hmail : PyLib.all_chars is_href_safe (mailto_link f) = true).
  { unfold mailto_link. rewrite !all_chars_app, !quote_href_safe. reflexivity. }
  split; [exact Hmail|]. split; [intros c; now apply all_chars_excludes|].
  split; [reflexivity|].
  intros config image_filename line Hb H. unfold purchase_button in H. rewrite Hb in H.
  destruct (py_quote (title f)) as [quoted|e] eqn:Q; [|discriminate].
  cbn [rbind] in H.
  exists (form_base_url +:+ "?entry.370646706=" +:+ quoted +:+ "&entry.673557102="
          +:+ PyLib.quote (github_base_url +:+ "/images/" +:+ image_filename)).
  split; [congruence|].
  assert (Hq : PyLib.all_chars is_href_safe quoted = true).
  { unfold py_quote in Q. destruct (title f); try discriminate.
    inversion Q. apply quote_href_safe. }
  assert (Hlink : PyLib.all_chars is_href_safe
                    (form_base_url +:+ "?entry.370646706=" +:+ quoted
                     +:+ "&entry.673557102="
                     +:+ PyLib.quote (github_base_url +:+ "/images/" +:+ image_filename))
                  = true).
  { rewrite !all_chars_app, Hq, quote_href_safe. reflexivity. }
  split; [exact Hlink | intros c; now apply all_chars_excludes].
Qed.

Lemma links_are_attribute_safe_witness :
  exists link,
    purchase_button config_with_button (extract_fields dawn_row) "c964f01aec55.JPG"
    = Ok (indent +:+ "<a href=" +:+ q link +:+ " class=" +:+ q "inquire-btn"
          +:+ " target=" +:+ q "_blank" +:+ ">Purchase Info</a>" +:+ nl)
    /\ PyLib.char_in link (ascii_of_nat 34) = false.
Proof.
  destruct (purchase_button config_with_button (extract_fields dawn_row)
              "c964f01aec55.JPG") as [line|e] eqn:P; [|vm_compute in P; discriminate P].
  destruct (links_are_attribute_safe (extract_fields dawn_row)) as (_ & _ & _ & H).
  destruct (H config_with_button "c964f01aec55.JPG" line) as (link & E & _ & Hc);
    [reflexivity | exact P |].
  exists link. split; [now rewrite E | apply Hc; reflexivity].
Defined.

(** ** [download_image]: what is requested, and what is written *)

(** [find_sep] cuts at the first occurrence: the separator starts nowhere
    in the text before the cut. *)
Lemma find_sep_first (sep s a b : string) :
  PyLib.find_sep sep s = Some (a, b) ->
  forall x y, a = x +:+ y -> y <> EmptyString ->
              PyLib.startswith sep (y +:+ sep +:+ b) = false.
Proof.
  revert a. induction s as [|c s IH]; intros a H x y Ha Hy.
  - cbn [PyLib.find_sep] in H. destruct (PyLib.startswith sep EmptyString); [|discriminate].
    inversion H; subst. destruct x; destruct y; try discriminate. contradiction.
  - cbn [PyLib.find_sep] in H.
    destruct (PyLib.startswith sep (String c s)) eqn:E.
    + inversion H; subst. destruct x; destruct y; try discriminate. contradiction.
    + destruct (PyLib.find_sep sep s) as [[a' b']|] eqn:F; [|discriminate].
      injection H as <- <-. pose proof (find_sep_Some _ _ _ _ F) as Hs.
      destruct x as [|cx x].
      * change (EmptyString +:+ y) with y in Ha. rewrite <- Ha.
        change (String c a' +:+ sep +:+ b') with (String c (a' +:+ sep +:+ b')).
        now rewrite <- Hs.
      * change (String cx x +:+ y) with (String cx (x +:+ y)) in Ha.
        injection Ha as _ Ha. now apply (IH _ eq_refl x y).
Qed.

Lemma split_nth1 (sep path pre after : string) :
  sep <> EmptyString ->
  PyLib.find_sep sep path = Some (pre, after) ->
  nth 1 (PyLib.split sep path) EmptyString = PyLib.before sep after.
Proof.
  intros Hsep F. rewrite (split_unfold sep path Hsep), F, nth_1_cons.
  rewrite (split_unfold sep after Hsep). unfold PyLib.before.
  destruct (PyLib.find_sep sep after) as [[a b]|]; reflexivity.
Qed.

Lemma fetched_Ok {A : Type} (r : reply (option A)) (a : A) :
  fetched r = Ok a -> failed r = false /\ payload r = Some a.
Proof.
  unfold fetched. destruct (failed r); [discriminate|].
  destruct (payload r); [|discriminate]. intros H. inversion H. auto.
Qed.

(** X12.  Take an image for which [path.exists()] finds no file and
    raises nothing, and cut its decoded path at the first [/asset/]; of
    what follows, take the text up to the next [/asset/], if there is
    one, and cut it at its first slash, into an id and a relative path.
    Let the service give a link for that relative path and answer the
    download with success; let the file open for writing (its name has
    no NUL byte and at most 255 bytes, its directory exists, the system
    does not refuse); and let the body arrive and be written whole.
    Then [download_image] sends these two requests, writes the bytes at
    the output path, reports it and returns [True].  The relative path
    is all that follows the id when [/asset/] occurs once; a second
    [/asset/] and what follows it are left out of the request. *)
Theorem download_image_fetches (image_url : value) (token output_path : string)
  (path pre after id rel link : string) (w : world) :
  stat w output_path = Ok false ->
  url_path image_url = Ok path ->
  PyLib.find_sep "/asset/" path = Some (pre, after) ->
  PyLib.find_sep "/" (PyLib.before "/asset/" after) = Some (id, rel) ->
  fetched (app_download_link (env w) token rel) = Ok link ->
  failed (download (env w) link) = false ->
  open_write w output_path = None ->
  transfer_failure w link output_path = None ->
  download_image image_url token output_path w
  = (Ok true,
     printed
       (written (sent (sent w (ReqDownloadLink token rel)) (ReqDownload link))
          output_path (payload (download (env w) link)))
       ("  ✓ Downloaded: " +:+ PyLib.path_name output_path))
  /\ (PyLib.contains "/asset/" after = false ->
      path = pre +:+ "/asset/" +:+ id +:+ "/" +:+ rel)
  /\ (forall seg more,
        PyLib.find_sep "/asset/" after = Some (seg, more) ->
        path = pre +:+ "/asset/" +:+ id +:+ "/" +:+ rel +:+ "/asset/" +:+ more).
Proof.
  intros Hex Hurl F G Hlink Hdl Hopen Hwhole.
  pose proof (find_sep_Some _ _ _ _ F) as Hpath.
  pose proof (find_sep_Some _ _ _ _ G) as Hseg.
  split; [|split].
  - assert (C : PyLib.contains "/asset/" path = true)
      by (unfold PyLib.contains; now rewrite F).
    assert (Hn : nth 1 (PyLib.split "/asset/" path) EmptyString
                 = PyLib.before "/asset/" after)
      by (apply split_nth1 with pre; [discriminate | assumption]).
    assert (D : (1 <? length (PyLib.split1 "/"
                                (nth 1 (PyLib.split "/asset/" path) EmptyString)))%nat
                = true)
      by (rewrite Hn; unfold PyLib.split1; rewrite G; reflexivity).
    rewrite (download_image_steps _ _ _ _ _ Hex Hurl C D). cbv zeta.
    rewrite Hn. unfold PyLib.split1. rewrite G. cbn [nth].
    rewrite Hlink, Hdl.
    destruct (save_and_report_cases output_path link (payload (download (env w) link))
                (sent (sent w (ReqDownloadLink token rel)) (ReqDownload link)))
      as [(e & O & _) | [(_ & e & n & T & _) | (_ & _ & E)]].
    + rewrite !open_write_sent in O. congruence.
    + change (transfer_failure w link output_path = Some (e, n)) in T. congruence.
    + exact E.
  - intros C. unfold PyLib.contains in C. unfold PyLib.before in Hseg.
    destruct (PyLib.find_sep "/asset/" after) as [[a b]|]; [discriminate C|].
    now rewrite Hpath, Hseg.
  - intros seg more S. unfold PyLib.before in Hseg. rewrite S in Hseg.
    apply find_sep_Some in S. rewrite Hpath, S, Hseg. now rewrite !append_assoc.
Qed.

Lemma download_image_fetches_witness :
  files (snd (download_image (VStr dawn_url) API_TOKEN dawn_path demo_world)) !! dawn_path
  = Some "JPEG bytes"
  /\ requests (snd (download_image (VStr nested_asset_url) API_TOKEN dawn_path demo_world))
     = [ReqDownloadLink API_TOKEN "images";
        ReqDownload "https://cloud.seatable.io/seafhttp/files/t/file.JPG"].
Proof.
  destruct (download_image_fetches (VStr dawn_url) API_TOKEN dawn_path
              "/workspace/1/asset/u-1/images/2024-02/file.JPG" "/workspace/1"
              "u-1/images/2024-02/file.JPG" "u-1" "images/2024-02/file.JPG"
              "https://cloud.seatable.io/seafhttp/files/t/file.JPG" demo_world)
    as (E1 & _); [reflexivity .. |].
  destruct (download_image_fetches (VStr nested_asset_url) API_TOKEN dawn_path
              "/workspace/1/asset/u-1/images/asset/file.JPG" "/workspace/1"
              "u-1/images/asset/file.JPG" "u-1" "images"
              "https://cloud.seatable.io/seafhttp/files/t/file.JPG" demo_world)
    as (E2 & _); [reflexivity .. |].
  split.
  - rewrite E1. reflexivity.
  - rewrite E2. reflexivity.
Defined.

(** The same image when the file cannot be opened for writing: a cache
    name with a NUL byte passes [path.exists()], both requests are sent,
    and [open] raises [ValueError]; without the directory [art/images],
    [open] raises [FileNotFoundError]. *)
Example download_image_cannot_open :
  let nul := String (ascii_of_nat 0) EmptyString in
  let r := download_image (VStr dawn_url) API_TOKEN ("art/images/a" +:+ nul +:+ ".jpg")
             demo_world in
  fst r = Raise (ValueError "embedded null byte")
  /\ length (requests (snd r)) = 2%nat
  /\ files (snd r) = files demo_world
  /\ fst (download_image (VStr dawn_url) API_TOKEN dawn_path
            (mkWorld (env demo_world) (files demo_world) [] [] []))
     = Raise FileNotFoundError.
Proof. vm_compute. repeat split; reflexivity. Qed.

(** Where [path.exists()] finds nothing, nothing exists. *)
Lemma stat_false_absent (w : world) (p : string) :
  stat w p = Ok false -> exists_at w p = false.
Proof. unfold stat. destruct (exists_at w p); [discriminate | reflexivity]. Qed.

(** What one call of [download_image] can change. *)
Lemma download_image_effects (image_url : value) (token output_path : string)
  (w w' : world) (r : result bool) :
  download_image image_url token output_path w = (r, w') ->
  env w' = env w /\ dirs w' = dirs w
  /\ (files w' = files w
      \/ (stat w output_path = Ok false
          /\ open_write w output_path = None
          /\ exists link,
               failed (download (env w) link) = false
               /\ ((r = Ok true
                    /\ transfer_failure w link output_path = None
                    /\ files w'
                       = <[output_path := payload (download (env w) link)]> (files w))
                   \/ (exists e n,
                         r = Raise e
                         /\ transfer_failure w link output_path = Some (e, n)
                         /\ files w'
                            = <[output_path :=
                                  PyLib.take_str n (payload (download (env w) link))]>
                                (files w))))).
Proof.
  intros H.
  destruct (stat w output_path) as [[|]|e0] eqn:Hex.
  { rewrite (download_image_found _ _ _ _ Hex) in H. inversion H; subst.
    repeat split. now left. }
  2:{ rewrite (download_image_lookup_fails _ _ _ _ _ Hex) in H. inversion H; subst.
      repeat split. now left. }
  destruct (url_path image_url) as [path|e] eqn:Hurl.
  2:{ unfold download_image, bind, path_exists in H. rewrite Hex in H.
      unfold lift in H. rewrite Hurl in H. inversion H; subst. repeat split. now left. }
  assert (Hrej : rejected path -> env w' = env w /\ dirs w' = dirs w /\ files w' = files w).
  { intros R. destruct (download_image_rejects _ token output_path _ w Hurl R Hex)
      as [line E]. rewrite E in H. inversion H; subst. repeat split. }
  destruct (PyLib.contains "/asset/" path) eqn:C.
  2:{ destruct Hrej as (A & B & F); [now left|]. repeat split; auto. }
  destruct (1 <? length (PyLib.split1 "/" (nth 1 (PyLib.split "/asset/" path) EmptyString)))%nat
    eqn:D.
  2:{ destruct Hrej as (A & B & F); [right; now split|]. repeat split; auto. }
  clear Hrej.
  rewrite (download_image_steps _ _ _ _ _ Hex Hurl C D) in H. cbv zeta in H.
  destruct (fetched (app_download_link (env w) token _)) as [link|e];
    [|inversion H; subst; repeat split; now left].
  destruct (failed (download (env w) link)) eqn:Dl;
    [inversion H; subst; repeat split; now left|].
  match type of H with
  | save_and_report _ _ _ ?W = _ =>
      destruct (save_and_report_cases output_path link (payload (download (env w) link)) W)
        as [(e & O & E) | [(O & e & n & T & E) | (O & T & E)]];
        rewrite E in H; inversion H; subst;
        try rewrite !open_write_sent in O
  end.
  - repeat split. now left.
  - repeat split. right. split; [reflexivity|]. split; [exact O|].
    exists link. split; [exact Dl|]. right. exists e, n. repeat split. exact T.
  - repeat split. right. split; [reflexivity|]. split; [exact O|].
    exists link. split; [exact Dl|]. left. repeat split. exact T.
Qed.

(** X13.  [download_image] changes at most one file, the one at its
    output path, and only when [path.exists()] found nothing there and
    the download was answered with success.  A call that returns [False]
    writes nothing.  When the file has been opened and the body breaks
    off, or a write fails, the call raises and leaves the bytes written
    before the failure at the output path: a partial file.  No call
    makes a directory. *)
Theorem download_image_writes_once (image_url : value) (token output_path : string)
  (w w' : world) (r : result bool) :
  download_image image_url token output_path w = (r, w') ->
  dirs w' = dirs w
  /\ (forall p, p <> output_path -> files w' !! p = files w !! p)
  /\ (forall content, files w !! output_path = Some content ->
                      files w' !! output_path = Some content)
  /\ (r = Ok false -> files w' = files w)
  /\ (files w' <> files w ->
      stat w output_path = Ok false
      /\ open_write w output_path = None
      /\ exists link,
           failed (download (env w) link) = false
           /\ ((r = Ok true
                /\ transfer_failure w link output_path = None
                /\ files w' !! output_path = Some (payload (download (env w) link)))
               \/ (exists e n,
                     r = Raise e
                     /\ transfer_failure w link output_path = Some (e, n)
                     /\ files w' !! output_path
                        = Some (PyLib.take_str n (payload (download (env w) link)))))).
Proof.
  intros H. destruct (download_image_effects _ _ _ _ _ _ H) as (_ & Hd & Hf).
  split; [exact Hd|].
  destruct Hf as [Hf | (Hex & Hopen & link & Hok & Hf)].
  - rewrite Hf. repeat split; try reflexivity; try tauto; intros X; contradiction.
  - assert (Hnone : files w !! output_path = None).
    { apply stat_false_absent in Hex. unfold exists_at in Hex.
      apply orb_false_elim in Hex. destruct Hex as [Hex _].
      apply bool_decide_eq_false in Hex. destruct (files w !! output_path); [|reflexivity].
      exfalso. apply Hex. eauto. }
    destruct Hf as [(Hr & T & Hf) | (e & n & Hr & T & Hf)]; rewrite Hf.
    + split; [intros p Hp; now rewrite lookup_insert_ne|].
      split; [intros content Hc; congruence|].
      split; [intros X; congruence|].
      intros _. split; [exact Hex|]. split; [exact Hopen|].
      exists link. split; [exact Hok|]. left.
      split; [exact Hr|]. split; [exact T | now rewrite lookup_insert_eq].
    + split; [intros p Hp; now rewrite lookup_insert_ne|].
      split; [intros content Hc; congruence|].
      split; [intros X; congruence|].
      intros _. split; [exact Hex|]. split; [exact Hopen|].
      exists link. split; [exact Hok|]. right. exists e, n.
      split; [exact Hr|]. split; [exact T | now rewrite lookup_insert_eq].
Qed.

Lemma download_image_writes_once_witness :
  files (snd (download_image (VStr dawn_url) API_TOKEN dawn_path demo_world))
    !! "config.json" = Some "{...}"
  /\ exists w',
       download_image (VStr dawn_url) API_TOKEN dawn_path broken_stream_world
       = (Raise StreamError, w')
       /\ files w' !! dawn_path = Some "JPEG".
Proof.
  split.
  - destruct (download_image (VStr dawn_url) API_TOKEN dawn_path demo_world)
      as [r w'] eqn:E.
    destruct (download_image_writes_once _ _ _ _ _ _ E) as (_ & H & _).
    cbn [snd]. rewrite H; [reflexivity | discriminate].
  - destruct (download_image (VStr dawn_url) API_TOKEN dawn_path broken_stream_world)
      as [r w'] eqn:E.
    assert (Hr : r = Raise StreamError).
    { assert (X : fst (download_image (VStr dawn_url) API_TOKEN dawn_path
                         broken_stream_world) = r) by now rewrite E.
      rewrite <- X. vm_compute. reflexivity. }
    assert (Hw : files w' !! dawn_path <> files broken_stream_world !! dawn_path).
    { assert (X : snd (download_image (VStr dawn_url) API_TOKEN dawn_path
                         broken_stream_world) = w') by now rewrite E.
      rewrite <- X. vm_compute. discriminate. }
    destruct (download_image_writes_once _ _ _ _ _ _ E) as (_ & _ & _ & _ & H).
    destruct H as (_ & _ & link & _ & [(Hok & _) | (e & n & _ & T & F)]).
    + intros X. apply Hw. now rewrite X.
    + congruence.
    + exists w'. split; [now rewrite Hr|]. rewrite F.
      vm_compute in T. inversion T; subst. reflexivity.
Defined.

(** A partial file is taken for the image by the next call: after a
    body that broke off, [path.exists()] finds the file and nothing is
    asked again. *)
Example partial_file_is_kept :
  let first := download_image (VStr dawn_url) API_TOKEN dawn_path broken_stream_world in
  let second := download_image (VStr dawn_url) API_TOKEN dawn_path (snd first) in
  fst first = Raise StreamError
  /\ files (snd first) !! dawn_path = Some "JPEG"
  /\ fst second = Ok true
  /\ requests (snd second) = requests (snd first)
  /\ files (snd second) !! dawn_path = Some "JPEG".
Proof. vm_compute. repeat split; reflexivity. Qed.

(** ** The download loop of [main] *)

Lemma loop_frame_refl (w : world) : loop_frame w w 0.
Proof.
  repeat split; auto. exists []. rewrite app_nil_r. repeat split; auto.
Qed.

Lemma loop_frame_printed (w : world) (line : string) : loop_frame w (printed w line) 0.
Proof.
  repeat split; auto. exists []. autorewrite with world. rewrite app_nil_r.
  repeat split; auto.
Qed.

Lemma loop_frame_trans (w w1 w2 : world) (k1 k2 : nat) :
  loop_frame w w1 k1 -> loop_frame w1 w2 k2 -> loop_frame w w2 (k1 + k2).
Proof.
  intros (E1 & D1 & K1 & O1 & n1 & R1 & L1 & F1) (E2 & D2 & K2 & O2 & n2 & R2 & L2 & F2).
  split; [congruence|]. split; [congruence|]. split; [auto|].
  split; [intros p Hp; rewrite O2, O1; auto|].
  exists (n1 ++ n2)%list. split; [rewrite R2, R1; now rewrite app_assoc|].
  split; [rewrite length_app; lia | now apply Forall_app].
Qed.

Lemma loop_frame_weaken (w w' : world) (k k' : nat) :
  (k <= k')%nat -> loop_frame w w' k -> loop_frame w w' k'.
Proof.
  intros Hk (E & D & K & O & new & R & L & F). repeat split; auto.
  exists new. repeat split; auto. lia.
Qed.

(** One call of [download_image] leaves every file as it is or absent,
    but for a new file at its output path. *)
Lemma download_image_keeps (image_url : value) (token output_path : string)
  (w w' : world) (r : result bool) :
  download_image image_url token output_path w = (r, w') ->
  (forall p content, files w !! p = Some content -> files w' !! p = Some content)
  /\ (forall p, p <> output_path -> files w' !! p = files w !! p).
Proof.
  intros H. destruct (download_image_effects _ _ _ _ _ _ H) as (_ & _ & Hf).
  destruct Hf as [Hf | (Hex & _ & link & _ & Hf)]; [rewrite Hf; split; auto|].
  assert (Hnone : files w !! output_path = None).
  { apply stat_false_absent in Hex. unfold exists_at in Hex.
    apply orb_false_elim in Hex. destruct Hex as [Hex _].
    apply bool_decide_eq_false in Hex. destruct (files w !! output_path); [|reflexivity].
    exfalso. apply Hex. eauto. }
  destruct Hf as [(_ & _ & Hf) | (e & n & _ & _ & Hf)]; rewrite Hf; split.
  - intros p content Hp. rewrite lookup_insert_ne; [exact Hp | congruence].
  - intros p Hp. now rewrite lookup_insert_ne.
  - intros p content Hp. rewrite lookup_insert_ne; [exact Hp | congruence].
  - intros p Hp. now rewrite lookup_insert_ne.
Qed.

(** One call of [download_image] for a file in [art/images/]. *)
Lemma download_image_frame (image_url : value) (fn : string) (w w' : world)
  (r : result bool) :
  download_image image_url API_TOKEN ("art/images/" +:+ fn) w = (r, w') ->
  loop_frame w w' 1.
Proof.
  intros H.
  destruct (download_image_effects _ _ _ _ _ _ H) as (He & Hd & Hf).
  destruct (download_image_once _ _ _ _ _ _ H) as [(new & Hr & Hnew) _].
  split; [exact He|]. split; [exact Hd|].
  assert (Hfiles : (forall p content, files w !! p = Some content ->
                                      files w' !! p = Some content)
                   /\ (forall p, PyLib.startswith "art/images/" p = false ->
                                 files w' !! p = files w !! p)).
  { destruct (download_image_keeps _ _ _ _ _ _ H) as [K O]. split; [exact K|].
    intros p Hp. apply O. intros ->. rewrite startswith_append in Hp. discriminate Hp. }
  destruct Hfiles as [K O]. split; [exact K|]. split; [exact O|].
  exists new. split; [exact Hr|].
  destruct Hnew as [-> | [(rel & ->) | (rel & u & ->)]]; split; simpl; try lia;
    repeat constructor.
Qed.

(** One round of the loop. *)
Lemma download_step_frame (image_column : string) (total i : nat) (row : dict)
  (w w' : world) (r : result bool) :
  download_step image_column total i row w = (r, w') ->
  (has_image image_column row = false /\ r = Ok false /\ w' = w)
  \/ (has_image image_column row = true
      /\ (r = Ok true \/ exists e, r = Raise e)
      /\ loop_frame w w' 1).
Proof.
  intros H. unfold download_step in H. fold (has_image image_column row) in H.
  destruct (has_image image_column row) eqn:Himg; cbn [negb] in H.
  2:{ left. inversion H. auto. }
  right. split; [reflexivity|].
  unfold bind at 1 in H. unfold lift at 1 in H.
  destruct (first_image _) as [image_url|e].
  2:{ inversion H; subst. split; [eauto|].
      apply (loop_frame_weaken _ _ 0); [lia | apply loop_frame_refl]. }
  unfold bind at 1 in H. unfold lift at 1 in H.
  destruct (get_image_filename image_url) as [fn|e] eqn:Hfn.
  2:{ inversion H; subst. split; [eauto|].
      apply (loop_frame_weaken _ _ 0); [lia | apply loop_frame_refl]. }
  unfold PyLib.path_join in H. rewrite (get_image_filename_nonempty _ _ Hfn) in H.
  change (IMAGES_DIR +:+ "/" +:+ fn) with ("art/images/" +:+ fn) in H.
  unfold bind at 1 in H. unfold print at 1 in H. cbv beta iota in H.
  unfold bind at 1 in H.
  match type of H with
  | context [download_image ?u ?t ?o ?w0] =>
      destruct (download_image u t o w0) as [r0 w2] eqn:D
  end.
  apply download_image_frame in D.
  assert (Hframe : loop_frame w w2 1).
  { eapply (loop_frame_trans _ _ _ 0 1); [apply loop_frame_printed | exact D]. }
  destruct r0 as [b|e]; inversion H; subst; split; eauto.
Qed.

(** The whole loop. *)
Lemma download_loop_frame (image_column : string) (total : nat) (rows : list dict) :
  forall (i count : nat) (w w' : world) (r : result nat),
    download_loop image_column total i rows count w = (r, w') ->
    loop_frame w w' (image_rows image_column rows)
    /\ (forall n, r = Ok n -> n = (count + image_rows image_column rows)%nat).
Proof.
  unfold image_rows.
  induction rows as [|row rows IH]; intros i count w w' r H.
  - inversion H; subst. split; [apply loop_frame_refl|].
    intros n Hn. inversion Hn. simpl. lia.
  - cbn [download_loop] in H. unfold bind at 1 in H.
    destruct (download_step image_column total i row w) as [r1 w1] eqn:S.
    cbn [List.filter].
    destruct (download_step_frame _ _ _ _ _ _ _ S)
      as [(Himg & -> & ->) | (Himg & Hr1 & Hframe)]; rewrite Himg.
    + apply IH in H. exact H.
    + cbn [length]. destruct Hr1 as [-> | [e ->]].
      * apply IH in H. destruct H as [Hf Hn]. split.
        -- apply (loop_frame_trans _ _ _ 1 _ Hframe Hf).
        -- intros n E. rewrite (Hn n E). lia.
      * inversion H; subst. split; [|discriminate].
        apply (loop_frame_weaken _ _ 1); [lia | exact Hframe].
Qed.

(** A row without an image costs the download loop nothing: no
    line is printed, no request sent, and the count of images stays. *)
Lemma download_loop_skips_imageless (image_column : string) (total i count : nat)
  (row : dict) (rest : list dict) (w : world) :
  has_image image_column row = false ->
  download_loop image_column total i (row :: rest) count w
  = download_loop image_column total (S i) rest count w.
Proof.
  intros H. cbn [download_loop]. unfold bind at 1, download_step.
  fold (has_image image_column row). now rewrite H.
Qed.

(** X14.  When the download loop ends without an exception, the number
    of images it reports is the number of rows that have an image, those
    whose download was given up included. *)
Theorem download_loop_counts_rows (image_column : string) (total i count n : nat)
  (rows : list dict) (w w' : world) :
  download_loop image_column total i rows count w = (Ok n, w') ->
  n = (count + image_rows image_column rows)%nat.
Proof.
  intros H. destruct (download_loop_frame _ _ _ _ _ _ _ _ H) as [_ Hn]. now apply Hn.
Qed.

Lemma download_loop_counts_rows_witness :
  exists (n : nat) (w' : world),
    download_loop "Jcpv" 3 1 mixed_rows 0 demo_world = (Ok n, w')
    /\ n = (0 + image_rows "Jcpv" mixed_rows)%nat
    /\ image_rows "Jcpv" mixed_rows = 2%nat.
Proof.
  destruct (download_loop "Jcpv" 3 1 mixed_rows 0 demo_world) as [r w'] eqn:E.
  assert (Hr : r = Ok 2%nat).
  { assert (X : fst (download_loop "Jcpv" 3 1 mixed_rows 0 demo_world) = r)
      by now rewrite E.
    rewrite <- X. vm_compute. reflexivity. }
  subst r. exists 2%nat, w'. split; [reflexivity|].
  split; [|reflexivity].
  exact (download_loop_counts_rows "Jcpv" 3 1 0 2 mixed_rows demo_world w' E).
Defined.

(** X15.  Whatever the rows and the replies, and however it ends, the
    download loop changes no file that exists, adds no file outside
    [art/images/], and makes no directory. *)
Theorem download_loop_keeps_files (image_column : string) (total i count : nat)
  (rows : list dict) (w w' : world) (r : result nat) :
  download_loop image_column total i rows count w = (r, w') ->
  (forall p content, files w !! p = Some content -> files w' !! p = Some content)
  /\ (forall p, PyLib.startswith "art/images/" p = false -> files w' !! p = files w !! p)
  /\ dirs w' = dirs w.
Proof.
  intros H.
  destruct (download_loop_frame _ _ _ _ _ _ _ _ H) as [(_ & D & K & O & _) _]. auto.
Qed.

Lemma download_loop_keeps_files_witness :
  files (snd (download_loop "Jcpv" 3 1 mixed_rows 0 demo_world)) !! "config.json"
  = Some "{...}"
  /\ files (snd (download_loop "Jcpv" 3 1 mixed_rows 0 demo_world)) !! "art/index.html"
     = None.
Proof.
  destruct (download_loop "Jcpv" 3 1 mixed_rows 0 demo_world) as [r w'] eqn:E.
  destruct (download_loop_keeps_files _ _ _ _ _ _ _ _ E) as (K & O & _).
  cbn [snd]. split.
  - apply K. reflexivity.
  - rewrite O; reflexivity.
Defined.

(** X16.  The download loop sends at most two requests for each row that
    has an image, and only requests for a download link, made with the
    API token, and downloads. *)
Theorem download_loop_requests (image_column : string) (total i count : nat)
  (rows : list dict) (w w' : world) (r : result nat) :
  download_loop image_column total i rows count w = (r, w') ->
  exists new,
    requests w' = (requests w ++ new)%list
    /\ (length new <= 2 * image_rows image_column rows)%nat
    /\ Forall is_download_request new.
Proof.
  intros H.
  destruct (download_loop_frame _ _ _ _ _ _ _ _ H) as [(_ & _ & _ & _ & R) _]. exact R.
Qed.

Lemma download_loop_requests_witness :
  exists new,
    requests (snd (download_loop "Jcpv" 3 1 mixed_rows 0 demo_world)) = new
    /\ (length new <= 4)%nat.
Proof.
  destruct (download_loop "Jcpv" 3 1 mixed_rows 0 demo_world) as [r w'] eqn:E.
  destruct (download_loop_requests _ _ _ _ _ _ _ _ E) as (new & R & L & _).
  exists new. cbn [snd]. split; [now rewrite R | exact L].
Defined.

(** ** [main], from the rows to the catalog *)

Lemma dirs_printed w l : dirs (printed w l) = dirs w. Proof. reflexivity. Qed.
Lemma dirs_sent w r : dirs (sent w r) = dirs w. Proof. reflexivity. Qed.
Lemma dirs_written w p c : dirs (written w p c) = dirs w. Proof. reflexivity. Qed.
Lemma dirs_made_dir w p : dirs (made_dir w p) = (dirs w ++ missing_dirs w p)%list.
Proof. reflexivity. Qed.
#[global] Hint Rewrite dirs_printed dirs_sent dirs_written dirs_made_dir : world.

Lemma write_failure_printed (w : world) (line p : string) :
  write_failure (printed w line) p = write_failure w p.
Proof. reflexivity. Qed.

(** What looking a path up finds depends on the directories and on the
    files on the way to it. *)
Lemma walk_agree (w w' : world) (prefixes : list string) :
  dirs w' = dirs w ->
  (forall d, In d prefixes -> files w' !! d = files w !! d) ->
  walk w' prefixes = walk w prefixes.
Proof.
  intros Hd. induction prefixes as [|d rest IH]; intros Hf; [reflexivity|].
  cbn [walk]. unfold is_dir, is_file. rewrite Hd, (Hf d (or_introl eq_refl)).
  rewrite IH; [reflexivity|]. intros x Hx. apply Hf. now right.
Qed.

Lemma open_write_agree (w w' : world) (p : string) :
  env w' = env w -> dirs w' = dirs w ->
  (forall d, In d (chain p) -> files w' !! d = files w !! d) ->
  open_write w' p = open_write w p.
Proof.
  intros He Hd Hf. unfold open_write. now rewrite (walk_agree w w' _ Hd Hf), He.
Qed.

(** The statements of [main] from the first request to the loop over
    the rows. *)
Ltac run_to_loop Hload Hview Hout Hlogo Htitle Hpage Htok Hmeta Hfind Hcol Q Hrows params :=
  run_preamble Hload Hview Hout Hlogo Htitle Hpage;
  step_with ltac:(unfold get_base_token; rewrite fetch_any;
                  autorewrite with world; rewrite Htok; reflexivity);
  cbv beta iota; do 2 step;
  step_with ltac:(unfold get_metadata; rewrite fetch_any;
                  autorewrite with world; rewrite Hmeta; reflexivity);
  step_with ltac:(unfold select_table; rewrite Hfind; reflexivity);
  step; rewrite Hcol, Q; do 2 step;
  step_with ltac:(unfold get_rows; fold params; rewrite fetch_any;
                  autorewrite with world; rewrite Hrows; reflexivity);
  do 2 step.

(** X17.  Let the configuration load, let the directory of the output
    file and [art/images] be directories that can be made or that
    exist, and let the token, the metadata, the table, the image column
    and the rows be obtained.  Then, when the download loop starts,
    [main] has made the directories that were missing, written no file
    and sent these three requests.  If the loop raises, [main] ends with
    that exception.  Otherwise the page is [generate_html] of the rows
    fetched.  If that raises, or if the output file cannot be opened for
    writing (its path is a directory, as for an [output_file] that is
    empty or [art]), [main] ends with the exception and the files are as
    the loop left them: there is no catalog.  If a write fails, [main]
    ends with its error and the output file holds the start of the
    page.  If not, [main] writes the page at the output path, as its
    last change to the files, sends nothing more and returns. *)
Theorem main_writes_catalog_last (prog config_file : string) (extra : list string)
  (config : dict) (out base_token base_uuid image_column : string)
  (view_name header_logo header_title page_title : value)
  (tables : list table) (table : table) (fetched_rows : list dict) (w : world) :
  load_config config_file w = (Ok config, w) ->
  config !! "view_name" = Some view_name ->
  config !! "output_file" = Some (VStr out) ->
  config !! "header_logo" = Some header_logo ->
  config !! "header_title" = Some header_title ->
  config !! "page_title" = Some page_title ->
  fetched (app_access_token (env w) API_TOKEN) = Ok (base_token, base_uuid) ->
  fetched (metadata (env w) base_token base_uuid) = Ok tables ->
  List.find (fun t => String.eqb (table_name t) TABLE_NAME) tables = Some table ->
  find_image_column (table_columns table) = Some image_column ->
  image_column <> EmptyString ->
  let params := if truthy view_name then Some view_name else None in
  fetched (rows (env w) base_token base_uuid (table_name table) params)
  = Ok fetched_rows ->
  can_make_dir w (path_parent (Path out)) = true ->
  can_make_dir (made_dir w (path_parent (Path out))) IMAGES_DIR = true ->
  exists w1,
    env w1 = env w
    /\ files w1 = files w
    /\ dirs w1 = dirs (made_dir (made_dir w (path_parent (Path out))) IMAGES_DIR)
    /\ requests w1 = (requests w ++ [ReqToken API_TOKEN;
                                     ReqMetadata base_token base_uuid;
                                     ReqRows base_token base_uuid (table_name table)
                                       params])%list
    /\ forall r w2,
         download_loop image_column (length fetched_rows) 1 fetched_rows 0 w1 = (r, w2) ->
         match r with
         | Raise e => run (prog :: config_file :: extra) w = (Raise e, w2)
         | Ok _ =>
             match generate_html fetched_rows image_column (table_columns table)
                     header_logo header_title page_title config with
             | Raise e =>
                 exists w3,
                   run (prog :: config_file :: extra) w = (Raise e, w3)
                   /\ files w3 = files w2 /\ requests w3 = requests w2
             | Ok html =>
                 match open_write w2 (Path out), write_failure w2 (Path out) with
                 | Some e, _ =>
                     exists w3,
                       run (prog :: config_file :: extra) w = (Raise e, w3)
                       /\ files w3 = files w2 /\ requests w3 = requests w2
                 | None, Some (e, n) =>
                     exists w3,
                       run (prog :: config_file :: extra) w = (Raise e, w3)
                       /\ files w3 = <[Path out := PyLib.take_str n html]> (files w2)
                       /\ requests w3 = requests w2
                 | None, None =>
                     exists w3,
                       run (prog :: config_file :: extra) w = (Ok tt, w3)
                       /\ files w3 = <[Path out := html]> (files w2)
                       /\ requests w3 = requests w2
                 end
             end
         end.
Proof.
  intros Hload Hview Hout Hlogo Htitle Hpage Htok Hmeta Hfind Hcol Hne params Hrows _ _.
  assert (Q : String.eqb image_column EmptyString = false)
    by now apply String.eqb_neq.
  eexists. split; [|split; [|split; [|split]]].
  5:{ intros r w2 L.
      destruct r as [n|e].
      - destruct (generate_html fetched_rows image_column (table_columns table)
                    header_logo header_title page_title config) as [html|e] eqn:G.
        + destruct (open_write w2 (Path out)) as [e|] eqn:O;
            [|destruct (write_failure w2 (Path out)) as [[e k]|] eqn:WF].
          * eexists. split.
            -- run_to_loop Hload Hview Hout Hlogo Htitle Hpage Htok Hmeta Hfind Hcol Q
                 Hrows params.
               step_with ltac:(exact L).
               do 2 step.
               step_with ltac:(unfold lift; rewrite G; reflexivity).
               eapply bind_raise. unfold write_file.
               rewrite !open_write_printed, O. reflexivity.
            -- autorewrite with world. split; reflexivity.
          * eexists. split.
            -- run_to_loop Hload Hview Hout Hlogo Htitle Hpage Htok Hmeta Hfind Hcol Q
                 Hrows params.
               step_with ltac:(exact L).
               do 2 step.
               step_with ltac:(unfold lift; rewrite G; reflexivity).
               eapply bind_raise. unfold write_file.
               rewrite !open_write_printed, O. unfold store.
               rewrite !write_failure_printed, WF. reflexivity.
            -- autorewrite with world. split; reflexivity.
          * eexists. split.
            -- run_to_loop Hload Hview Hout Hlogo Htitle Hpage Htok Hmeta Hfind Hcol Q
                 Hrows params.
               step_with ltac:(exact L).
               do 2 step.
               step_with ltac:(unfold lift; rewrite G; reflexivity).
               step_with ltac:(unfold write_file; rewrite !open_write_printed, O;
                               unfold store; rewrite !write_failure_printed, WF;
                               reflexivity).
               do 5 step. reflexivity.
            -- autorewrite with world. split; reflexivity.
        + eexists. split.
          * run_to_loop Hload Hview Hout Hlogo Htitle Hpage Htok Hmeta Hfind Hcol Q
              Hrows params.
            step_with ltac:(exact L).
            do 2 step.
            eapply bind_raise. unfold lift. rewrite G. reflexivity.
          * autorewrite with world. split; reflexivity.
      - run_to_loop Hload Hview Hout Hlogo Htitle Hpage Htok Hmeta Hfind Hcol Q
          Hrows params.
        eapply bind_raise. exact L. }
  - autorewrite with world. reflexivity.
  - autorewrite with world. reflexivity.
  - autorewrite with world. reflexivity.
  - autorewrite with world. rewrite <- !app_assoc. reflexivity.
Qed.

Lemma main_writes_catalog_last_witness :
  exists w3 html,
    run demo_argv demo_world = (Ok tt, w3)
    /\ scenario_page config_without_button = Ok html
    /\ files w3 !! "art/index.html" = Some html.
Proof.
  destruct (main_writes_catalog_last "generate_catalog.py" "config.json" []
              config_without_button "art/index.html" "session-token" "0123456789abcdef"
              "Jcpv" (VStr "Available") (VStr "logo.png") (VStr "title.png")
              (VStr "Available Works") [mkTable TABLE_NAME demo_columns]
              (mkTable TABLE_NAME demo_columns) [dawn_row] demo_world)
    as (w1 & He & Hf & Hd & _ & H);
    [reflexivity .. | discriminate | reflexivity | reflexivity | reflexivity |].
  destruct (download_loop "Jcpv" (length [dawn_row]) 1 [dawn_row] 0 w1) as [r w2] eqn:L.
  specialize (H r w2 eq_refl). fold demo_argv in H.
  destruct (download_loop_frame _ _ _ _ _ _ _ _ L) as [(He2 & Hd2 & _ & Ho & _) _].
  destruct r as [n|e].
  - cbn [table_columns] in H. fold (scenario_page config_without_button) in H.
    destruct (scenario_page config_without_button) as [html|e] eqn:G.
    + assert (O : open_write w2 (Path "art/index.html")
                  = open_write demo_world (Path "art/index.html")).
      { apply open_write_agree; [congruence | rewrite Hd2, Hd; reflexivity |].
        intros d Hin. rewrite Ho, Hf; [reflexivity|].
        vm_compute in Hin. destruct Hin as [<-|[<-|[]]]; reflexivity. }
      assert (WF : write_failure w2 (Path "art/index.html") = None).
      { unfold write_failure. rewrite He2, He. reflexivity. }
      rewrite O, WF in H. change (open_write demo_world (Path "art/index.html")) with
        (@None exn) in H. cbv iota in H.
      destruct H as (w3 & E & F & _). exists w3, html.
      split; [exact E|]. split; [reflexivity|]. rewrite F.
      change (Path "art/index.html") with "art/index.html". apply lookup_insert_eq.
    + vm_compute in G. discriminate G.
  - assert (X : fst (run demo_argv demo_world) = Raise e) by now rewrite H.
    vm_compute in X. discriminate X.
Defined.

(** The output paths that are directories, and a disk that is full: the
    run ends with the error of [open] or of the write; only in the last
    case is there an output file, and it is not the whole page. *)
Example main_cannot_write_catalog :
  let base := demo_env [mkTable TABLE_NAME demo_columns] [dawn_row] in
  let to_art := config_world
                  (mkEnv (fun _ => JsonObject (<[ "output_file" := VStr "art" ]> demo_config))
                     (app_access_token base) (metadata base) (rows base)
                     (app_download_link base) (download base)
                     (fun _ => None) (fun _ => None) (fun _ => None)) in
  let to_nothing := config_world
                  (mkEnv (fun _ => JsonObject (<[ "output_file" := VStr "" ]> demo_config))
                     (app_access_token base) (metadata base) (rows base)
                     (app_download_link base) (download base)
                     (fun _ => None) (fun _ => None) (fun _ => None)) in
  let disk_full := config_world
                  (with_faults base (fun _ => None)
                     (fun p => if String.eqb p "art/index.html" then Some (28, 9%nat)
                               else None)
                     (fun _ => None)) in
  fst (run demo_argv to_art) = Raise IsADirectoryError
  /\ files (snd (run demo_argv to_art)) !! "art" = None
  /\ fst (run demo_argv to_nothing) = Raise IsADirectoryError
  /\ fst (run demo_argv disk_full) = Raise (OSError 28)
  /\ files (snd (run demo_argv disk_full)) !! "art/index.html" = Some "<!DOCTYPE".
Proof. vm_compute. repeat split; reflexivity. Qed.

(** ** The cache file name and the parts of a URL *)

Lemma char_in_cons (x c : ascii) (s : string) :
  PyLib.char_in (String x s) c = Ascii.eqb c x || PyLib.char_in s c.
Proof.
  unfold PyLib.char_in, PyLib.contains. cbn [PyLib.find_sep PyLib.startswith].
  destruct (Ascii.eqb c x); [reflexivity|].
  destruct (PyLib.find_sep (String c EmptyString) s) as [[a b]|]; reflexivity.
Qed.

Lemma find_sep_absent (c : ascii) (s : string) :
  PyLib.char_in s c = false -> PyLib.find_sep (String c EmptyString) s = None.
Proof.
  unfold PyLib.char_in, PyLib.contains.
  destruct (PyLib.find_sep (String c EmptyString) s); [discriminate | reflexivity].
Qed.

Lemma find_sep_char (c : ascii) (a b : string) :
  PyLib.char_in a c = false ->
  PyLib.find_sep (String c EmptyString) (a +:+ String c b) = Some (a, b).
Proof.
  induction a as [|x a IH]; intros H.
  - change (EmptyString +:+ String c b) with (String c b).
    cbn [PyLib.find_sep PyLib.startswith]. now rewrite Ascii.eqb_refl.
  - rewrite char_in_cons in H. apply orb_false_elim in H. destruct H as [Hx Ha].
    change (String x a +:+ String c b) with (String x (a +:+ String c b)).
    cbn [PyLib.find_sep PyLib.startswith]. rewrite Hx. now rewrite (IH Ha).
Qed.

Lemma before_absent (c : ascii) (s : string) :
  PyLib.char_in s c = false -> PyLib.before (String c EmptyString) s = s.
Proof. intros H. unfold PyLib.before. now rewrite find_sep_absent. Qed.

Lemma before_char (c : ascii) (a b : string) :
  PyLib.char_in a c = false ->
  PyLib.before (String c EmptyString) (a +:+ String c b) = a.
Proof. intros H. unfold PyLib.before. now rewrite find_sep_char. Qed.

Lemma before_app (c : ascii) (a b : string) :
  PyLib.char_in a c = false ->
  PyLib.before (String c EmptyString) (a +:+ b)
  = a +:+ PyLib.before (String c EmptyString) b.
Proof.
  induction a as [|x a IH]; intros H; [reflexivity|].
  rewrite char_in_cons in H. apply orb_false_elim in H. destruct H as [Hx Ha].
  specialize (IH Ha). unfold PyLib.before in *.
  change (String x a +:+ b) with (String x (a +:+ b)).
  cbn [PyLib.find_sep PyLib.startswith]. rewrite Hx.
  destruct (PyLib.find_sep (String c EmptyString) (a +:+ b)) as [[p r]|];
    simpl; now rewrite IH.
Qed.

Lemma char_in_app (c : ascii) (a b : string) :
  PyLib.char_in (a +:+ b) c = PyLib.char_in a c || PyLib.char_in b c.
Proof.
  induction a as [|x a IH]; [reflexivity|].
  change (String x a +:+ b) with (String x (a +:+ b)).
  now rewrite !char_in_cons, IH, orb_assoc.
Qed.

Lemma filter_str_keeps (p : ascii -> bool) (s : string) :
  PyLib.all_chars p s = true -> PyLib.filter_str p s = s.
Proof.
  induction s as [|c s IH]; intros H; [reflexivity|].
  cbn [PyLib.all_chars] in H. apply andb_prop in H. destruct H as [Hc Hs].
  cbn [PyLib.filter_str]. now rewrite Hc, IH.
Qed.

Lemma splitnetloc_host (host tail : string) :
  PyLib.all_chars (fun c => negb (PyLib.char_in "/?#" c)) host = true ->
  match tail with
  | EmptyString => true
  | String c _ => PyLib.char_in "/?#" c
  end = true ->
  PyLib.splitnetloc (host +:+ tail) = (host, tail).
Proof.
  intros Hh Ht. induction host as [|c host IH].
  - change (EmptyString +:+ tail) with tail.
    destruct tail as [|x tail]; [reflexivity|].
    cbn [PyLib.splitnetloc]. now rewrite Ht.
  - cbn [PyLib.all_chars] in Hh. apply andb_prop in Hh. destruct Hh as [Hc Hh].
    apply negb_true_iff in Hc.
    change (String c host +:+ tail) with (String c (host +:+ tail)).
    cbn [PyLib.splitnetloc]. now rewrite Hc, (IH Hh).
Qed.

(** The path of a web URL: the text between the host and the first [?]
    or [#]. *)
Lemma urlparse_path_after_scheme (scheme host tail path : string) :
  scheme = "http" \/ scheme = "https" ->
  plain_host host = true -> plain_path path = true ->
  PyLib.all_chars keeps_byte tail = true ->
  match tail with
  | EmptyString => true
  | String c _ => PyLib.char_in "/?#" c
  end = true ->
  PyLib.before "?" (PyLib.before "#" tail) = path ->
  PyLib.urlparse_path (scheme +:+ "://" +:+ host +:+ tail) = Some path.
Proof.
  unfold plain_host, plain_path. intros Hs Hh Hp Ht Hhead Hcut.
  apply andb_prop in Hh. destruct Hh as [Hh Hh3].
  apply andb_prop in Hh. destruct Hh as [Hh1 Hh2]. apply negb_true_iff in Hh1.
  apply andb_prop in Hp. destruct Hp as [Hp _].
  apply andb_prop in Hp. destruct Hp as [_ Hp4]. apply negb_true_iff in Hp4.
  assert (Hkeep : PyLib.all_chars keeps_byte (scheme +:+ "://" +:+ host +:+ tail) = true).
  { rewrite !all_chars_app, Hh3, Ht. destruct Hs as [-> | ->]; reflexivity. }
  assert (Hstrip : PyLib.lstrip_c0 (scheme +:+ "://" +:+ host +:+ tail)
                   = scheme +:+ "://" +:+ host +:+ tail).
  { destruct Hs as [-> | ->]; reflexivity. }
  assert (Hsplit : PyLib.split_scheme (scheme +:+ "://" +:+ host +:+ tail)
                   = (scheme, "//" +:+ host +:+ tail)).
  { unfold PyLib.split_scheme.
    change (scheme +:+ "://" +:+ host +:+ tail)
      with (scheme +:+ String ":" ("//" +:+ host +:+ tail)).
    rewrite find_sep_char by (destruct Hs as [-> | ->]; reflexivity).
    destruct Hs as [-> | ->]; reflexivity. }
  unfold PyLib.urlparse_path. rewrite Hstrip.
  rewrite (filter_str_keeps (fun c => negb (PyLib.is_unsafe_url_byte c)) _ Hkeep), Hsplit.
  change (PyLib.startswith "//" ("//" +:+ host +:+ tail)) with true. cbv iota.
  change (PyLib.drop_str 2 ("//" +:+ host +:+ tail)) with (host +:+ tail).
  rewrite (splitnetloc_host host tail Hh2 Hhead), Hh1, Hcut.
  change (PyLib.contains ";" path) with (PyLib.char_in path ";"). rewrite Hp4.
  now rewrite andb_false_r.
Qed.

Lemma plain_path_head (path rest : string) :
  String.eqb path EmptyString || PyLib.startswith "/" path = true ->
  match path +:+ rest with
  | EmptyString => true
  | String c _ => PyLib.char_in "/?#" c
  end = true
  \/ path = EmptyString.
Proof.
  destruct path as [|x path]; [now right|]. intros H. left.
  cbn [String.eqb PyLib.startswith orb] in H.
  destruct (Ascii.eqb "/" x) eqn:E; [|discriminate H].
  apply Ascii.eqb_eq in E. subst x. reflexivity.
Qed.

Lemma before_query (path query : string) :
  PyLib.char_in path "#" = false -> PyLib.char_in path "?" = false ->
  PyLib.before "?" (PyLib.before "#" (path +:+ "?" +:+ query)) = path.
Proof.
  intros H1 H2. rewrite (before_app "#" path) by exact H1.
  assert (B : exists rest, PyLib.before "#" ("?" +:+ query) = String "?" rest).
  { unfold PyLib.before. cbn [String.append PyLib.find_sep PyLib.startswith].
    change (Ascii.eqb "#" "?") with false. cbv iota.
    destruct (PyLib.find_sep "#" query) as [[a b]|]; eexists; reflexivity. }
  destruct B as [rest ->]. now apply before_char.
Qed.

(** X18.  The cache file name of an image depends on the path of its URL
    only: two web URLs with the same path get the same name, whatever
    their scheme ([http] or [https]), their host and port, and a query,
    with or without a fragment, after the path.  The name is the first
    twelve digits of the MD5 of the decoded path, then the suffix of its
    last segment.  The host is plain ASCII without brackets, and the path
    has no semicolon. *)
Theorem cache_name_ignores_host_and_query
    (scheme1 scheme2 host1 host2 path query : string) :
  scheme1 = "http" \/ scheme1 = "https" ->
  scheme2 = "http" \/ scheme2 = "https" ->
  plain_host host1 = true -> plain_host host2 = true ->
  plain_path path = true -> plain_query query = true ->
  get_image_filename (VStr (scheme1 +:+ "://" +:+ host1 +:+ path +:+ "?" +:+ query))
  = get_image_filename (VStr (scheme2 +:+ "://" +:+ host2 +:+ path))
  /\ get_image_filename (VStr (scheme2 +:+ "://" +:+ host2 +:+ path))
     = Ok (PyLib.take_str 12 (MD5.hexdigest (PyLib.unquote path))
           +:+ PyLib.path_suffix (PyLib.path_name (PyLib.unquote path))).
Proof.
  intros Hs1 Hs2 Hh1 Hh2 Hp Hq.
  assert (Hp' := Hp). unfold plain_path in Hp'.
  apply andb_prop in Hp'. destruct Hp' as [Hp' Hp5].
  apply andb_prop in Hp'. destruct Hp' as [Hp' _].
  apply andb_prop in Hp'. destruct Hp' as [Hp' Hp3]. apply negb_true_iff in Hp3.
  apply andb_prop in Hp'. destruct Hp' as [Hp1 Hp2]. apply negb_true_iff in Hp2.
  assert (U1 : PyLib.urlparse_path (scheme1 +:+ "://" +:+ host1 +:+ path +:+ "?" +:+ query)
               = Some path).
  { apply urlparse_path_after_scheme; try assumption.
    - rewrite !all_chars_app, Hp5. exact Hq.
    - destruct (plain_path_head path ("?" +:+ query) Hp1) as [H | ->];
        [exact H | reflexivity].
    - now apply before_query. }
  assert (U2 : PyLib.urlparse_path (scheme2 +:+ "://" +:+ host2 +:+ path) = Some path).
  { apply urlparse_path_after_scheme; try assumption.
    - destruct (plain_path_head path EmptyString Hp1) as [H | ->]; [|reflexivity].
      now rewrite append_nil_r in H.
    - rewrite (before_absent "#" path) by exact Hp2. now apply before_absent. }
  unfold get_image_filename, url_path. rewrite U1, U2. split; reflexivity.
Qed.

Lemma cache_name_ignores_host_and_query_witness :
  get_image_filename
    (VStr "https://cloud.seatable.io/workspace/1/asset/u-1/images/2024-02/file.JPG?dl=1#top")
  = get_image_filename
      (VStr "http://mirror.example.org:8080/workspace/1/asset/u-1/images/2024-02/file.JPG").
Proof.
  refine (proj1 (cache_name_ignores_host_and_query "https" "http" "cloud.seatable.io"
            "mirror.example.org:8080" "/workspace/1/asset/u-1/images/2024-02/file.JPG"
            "dl=1#top" _ _ _ _ _ _)).
  - right. reflexivity.
  - left. reflexivity.
  - reflexivity.
  - reflexivity.
  - reflexivity.
  - reflexivity.
Defined.

(** ** The inquiry link, decoded *)

Lemma safe_not_percent (c : ascii) :
  PyLib.is_quote_safe c = true -> Ascii.eqb "%" c = false.
Proof.
  destruct c as [[] [] [] [] [] [] [] []]; intros H; try reflexivity;
    vm_compute in H; discriminate H.
Qed.

Lemma unquote_escape (c : ascii) (rest : string) :
  PyLib.unquote_bytes ("%" +:+ PyLib.hex2 PyLib.hex_upper (PyLib.byte_of c) +:+ rest)
  = String c (PyLib.unquote_bytes rest).
Proof. destruct c as [[] [] [] [] [] [] [] []]; reflexivity. Qed.

Lemma unquote_bytes_quote (s : string) : PyLib.unquote_bytes (PyLib.quote s) = s.
Proof.
  induction s as [|c s IH]; [reflexivity|].
  cbn [PyLib.quote]. destruct (PyLib.is_quote_safe c) eqn:E.
  - cbn [PyLib.unquote_bytes]. rewrite Ascii.eqb_sym, (safe_not_percent c E).
    now rewrite IH.
  - now rewrite unquote_escape, IH.
Qed.

Lemma quote_without_percent (s : string) :
  PyLib.char_in (PyLib.quote s) "%" = false -> PyLib.quote s = s.
Proof.
  induction s as [|c s IH]; [reflexivity|].
  cbn [PyLib.quote]. destruct (PyLib.is_quote_safe c) eqn:E.
  - rewrite char_in_cons. intros H. apply orb_false_elim in H. destruct H as [_ H].
    now rewrite (IH H).
  - change ("%" +:+ PyLib.hex2 PyLib.hex_upper (PyLib.byte_of c) +:+ PyLib.quote s)
      with (String "%" (PyLib.hex2 PyLib.hex_upper (PyLib.byte_of c) +:+ PyLib.quote s)).
    rewrite char_in_cons. discriminate.
Qed.

Lemma unquote_quote (s : string) :
  PyLib.utf8_replace s = s -> PyLib.unquote (PyLib.quote s) = s.
Proof.
  intros H. unfold PyLib.unquote.
  change (PyLib.contains "%" (PyLib.quote s)) with (PyLib.char_in (PyLib.quote s) "%").
  destruct (PyLib.char_in (PyLib.quote s) "%") eqn:E.
  - now rewrite unquote_bytes_quote.
  - now apply quote_without_percent.
Qed.

Lemma quote_is_quoted (s : string) : PyLib.all_chars is_quoted (PyLib.quote s) = true.
Proof.
  induction s as [|c s IH]; [reflexivity|]. cbn [PyLib.quote].
  destruct (PyLib.is_quote_safe c) eqn:E.
  - cbn [PyLib.all_chars]. unfold is_quoted at 1. now rewrite E, IH.
  - rewrite !all_chars_app, IH. unfold PyLib.hex2. cbn [PyLib.all_chars].
    unfold is_quoted.
    rewrite !hex_upper_digit by apply nibble_bounds. reflexivity.
Qed.

(** X19.  The inquiry link carries the subject and the body of the email
    intact: for well-formed text, the link is the address, then the
    encoded subject, then the encoded body; the encoded parts hold
    letters, digits and [_.-~/%] only, so that the first [&] of the link
    is the one between them; and decoding each part gives back the
    subject and the body. *)
Theorem inquiry_link_round_trip (f : fields) :
  PyLib.utf8_replace (email_subject f) = email_subject f ->
  PyLib.utf8_replace (email_body f) = email_body f ->
  exists subject body,
    mailto_link f
    = "mailto:jofowood@gmail.com?subject=" +:+ subject +:+ "&body=" +:+ body
    /\ PyLib.all_chars is_quoted subject = true
    /\ PyLib.all_chars is_quoted body = true
    /\ PyLib.find_sep "&" (subject +:+ "&body=" +:+ body) = Some (subject, "body=" +:+ body)
    /\ PyLib.unquote subject = email_subject f
    /\ PyLib.unquote body = email_body f.
Proof.
  intros Hs Hb. exists (PyLib.quote (email_subject f)), (PyLib.quote (email_body f)).
  split; [reflexivity|].
  split; [apply quote_is_quoted|]. split; [apply quote_is_quoted|].
  split; [|split; now apply unquote_quote].
  change ("&body=" +:+ PyLib.quote (email_body f))
    with (String "&" ("body=" +:+ PyLib.quote (email_body f))).
  apply find_sep_char.
  apply (all_chars_excludes is_quoted); [apply quote_is_quoted | reflexivity].
Qed.

Lemma inquiry_link_round_trip_witness :
  exists subject body,
    mailto_link (extract_fields ampersand_row)
    = "mailto:jofowood@gmail.com?subject=" +:+ subject +:+ "&body=" +:+ body
    /\ PyLib.unquote subject = "Inquiry: Dawn & Dusk? (A-1)".
Proof.
  destruct (inquiry_link_round_trip (extract_fields ampersand_row))
    as (subject & body & E & _ & _ & _ & S & _).
  - vm_compute. reflexivity.
  - vm_compute. reflexivity.
  - exists subject, body. split; [exact E|]. rewrite S. vm_compute. reflexivity.
Defined.

(** ** The download loop and the cache *)

Lemma cached_found (image_column : string) (w : world) (row : dict) :
  cached image_column w row -> found image_column w row.
Proof.
  intros H Hi. destruct (H Hi) as (image_url & fn & H1 & H2 & H3).
  exists image_url, fn. split; [exact H1|]. split; [exact H2|]. now apply stat_exists.
Qed.

(** The download loop in a state where [path.exists()] finds the image
    of every row. *)
Lemma download_loop_all_found (image_column : string) (total : nat) (rows : list dict) :
  forall (i count : nat) (w : world),
  Forall (found image_column w) rows ->
  exists w',
    download_loop image_column total i rows count w
    = (Ok (count + image_rows image_column rows)%nat, w')
    /\ requests w' = requests w /\ files w' = files w /\ dirs w' = dirs w.
Proof.
  induction rows as [|row rest IH]; intros i count w H.
  - exists w. cbn. rewrite Nat.add_0_r. repeat split.
  - inversion H as [|? ? Hrow Hrest]; subst.
    unfold image_rows. cbn [download_loop List.filter].
    destruct (has_image image_column row) eqn:E.
    + destruct (Hrow E) as (image_url & fn & H1 & H2 & H3).
      set (line := "   [" +:+ nat_str i +:+ "/" +:+ nat_str total +:+ "] "
           +:+ py_str (dict_get row "gScu"
                         (dict_get row "Title" (dict_get row "Name" (VStr "Untitled"))))).
      set (w1 := printed (printed w line)
                   ("  ✓ Already exists: " +:+ PyLib.path_name (PyLib.path_join IMAGES_DIR fn))).
      assert (Hstep : download_step image_column total i row w = (Ok true, w1)).
      { unfold download_step. fold (has_image image_column row). rewrite E.
        cbn [negb]. rewrite H1.
        unfold bind at 1. cbn [lift]. unfold bind at 1. rewrite H2. cbn [lift].
        unfold bind at 1, print. fold line.
        unfold bind at 1.
        rewrite (download_image_found _ _ _ (printed w line))
          by now rewrite stat_printed.
        reflexivity. }
      destruct (IH (S i) (S count) w1) as (w' & L & R & F & D).
      { eapply Forall_impl; [exact Hrest|]. intros r Hr Hi.
        destruct (Hr Hi) as (u & f & A & B & C). exists u, f.
        split; [exact A|]. split; [exact B|]. unfold w1. now rewrite !stat_printed. }
      exists w'. unfold bind at 1. rewrite Hstep. cbv iota beta. rewrite L.
      cbn [length]. unfold image_rows. split; [f_equal; f_equal; lia|].
      now rewrite R, F, D.
    + destruct (IH (S i) count w Hrest) as (w' & L & R & F & D).
      exists w'. unfold bind at 1, download_step. fold (has_image image_column row).
      rewrite E. cbn [negb ret]. cbv iota beta. rewrite L. repeat split; assumption.
Qed.

(** X20.  When the image of every row is in the cache already, the
    download loop sends no request and writes no file; it only counts
    the rows that have an image. *)
Theorem download_loop_cached (image_column : string) (total i count : nat)
  (rows : list dict) (w : world) :
  Forall (cached image_column w) rows ->
  exists w',
    download_loop image_column total i rows count w
    = (Ok (count + image_rows image_column rows)%nat, w')
    /\ requests w' = requests w /\ files w' = files w /\ dirs w' = dirs w.
Proof.
  intros H. apply download_loop_all_found.
  eapply Forall_impl; [exact H|]. intros row. apply cached_found.
Qed.

Lemma download_loop_cached_witness :
  exists w',
    download_loop "Jcpv" 1 1 [dawn_row] 0
      (written demo_world dawn_path "bytes")
    = (Ok 1%nat, w')
    /\ requests w' = [].
Proof.
  destruct (download_loop_cached "Jcpv" 1 1 0 [dawn_row]
              (written demo_world dawn_path "bytes"))
    as (w' & L & R & _).
  - constructor; [|constructor]. intros _.
    exists (VStr dawn_url), "c964f01aec55.JPG". repeat split; vm_compute; reflexivity.
  - exists w'. split; [exact L | exact R].
Defined.

(** After a call of [download_image] that returned, for a URL with the
    structure, [path.exists()] finds the file. *)
Lemma download_image_caches (image_url : value) (token output_path : string)
  (w w' : world) (b : bool) :
  download_image image_url token output_path w = (Ok b, w') ->
  recognized image_url = true ->
  stat w' output_path = Ok true.
Proof.
  intros H Hrec.
  destruct (stat w output_path) as [[|]|e0] eqn:Hex.
  { rewrite (download_image_found _ _ _ _ Hex) in H. inversion H; subst.
    now rewrite stat_printed. }
  2:{ rewrite (download_image_lookup_fails _ _ _ _ _ Hex) in H. discriminate H. }
  unfold recognized in Hrec.
  destruct (url_path image_url) as [path|e] eqn:Hurl; [|discriminate Hrec].
  apply andb_prop in Hrec. destruct Hrec as [Hc Hl].
  rewrite (download_image_steps _ _ _ _ _ Hex Hurl Hc Hl) in H. cbv zeta in H.
  destruct (fetched (app_download_link (env w) token _)) as [link|e]; [|discriminate H].
  destruct (failed (download (env w) link)); [discriminate H|].
  match type of H with
  | save_and_report _ _ _ ?W = _ =>
      destruct (save_and_report_cases output_path link (payload (download (env w) link)) W)
        as [(e & _ & E) | [(_ & e & n & _ & E) | (_ & _ & E)]];
        rewrite E in H; [discriminate H | discriminate H |]
  end.
  inversion H; subst. apply stat_exists.
  rewrite exists_at_printed. apply exists_at_written.
Qed.

(** What [path.exists()] finds, it finds again when files have been
    added and none changed or removed. *)
Lemma walk_reached_mono (w w' : world) (prefixes : list string) :
  dirs w' = dirs w ->
  (forall p content, files w !! p = Some content -> files w' !! p = Some content) ->
  match walk w prefixes with
  | ReachedDir | ReachedFile _ => walk w' prefixes = walk w prefixes
  | _ => True
  end.
Proof.
  intros Hd Hk. induction prefixes as [|d rest IH]; [reflexivity|].
  cbn [walk]. destruct (NAME_MAX <? String.length (PyLib.path_name d))%nat; [exact I|].
  assert (Hdir : is_dir w' d = is_dir w d) by (unfold is_dir; now rewrite Hd).
  rewrite Hdir. destruct (is_dir w d); [exact IH|].
  unfold is_file. destruct (files w !! d) as [content|] eqn:F.
  - rewrite (Hk _ _ F). cbn. destruct rest; [reflexivity | exact I].
  - cbn. destruct rest; exact I.
Qed.

Lemma stat_true_mono (w w' : world) (p : string) :
  dirs w' = dirs w ->
  (forall q content, files w !! q = Some content -> files w' !! q = Some content) ->
  stat w p = Ok true -> stat w' p = Ok true.
Proof.
  intros Hd Hk. unfold stat.
  destruct (exists_at w p) eqn:E.
  - intros _. assert (E' : exists_at w' p = true).
    { unfold exists_at in *. rewrite Hd. apply orb_true_iff in E. apply orb_true_iff.
      destruct E as [E | E]; [left | now right].
      apply bool_decide_eq_true in E. apply bool_decide_eq_true.
      destruct E as [content E]. exists content. now apply Hk. }
    now rewrite E'.
  - destruct (exists_at w' p); [reflexivity|].
    destruct (has_nul p); [discriminate|].
    destruct (PATH_MAX <=? String.length p)%nat; [discriminate|].
    pose proof (walk_reached_mono w w' (chain p) Hd Hk) as M.
    destruct (walk w (chain p)) eqn:W; try rewrite M; try reflexivity;
      try discriminate;
      destruct (os_error (env w) (OsStat p)) as [errno|];
      try destruct (ignored_by_exists errno); discriminate.
Qed.

Lemma found_mono (image_column : string) (w w' : world) (k : nat) (row : dict) :
  loop_frame w w' k -> found image_column w row -> found image_column w' row.
Proof.
  intros (_ & Hd & Hkeep & _) Hc Hi.
  destruct (Hc Hi) as (image_url & fn & H1 & H2 & H3).
  exists image_url, fn. split; [exact H1|]. split; [exact H2|].
  now apply (stat_true_mono w w').
Qed.

Lemma download_step_caches (image_column : string) (total i : nat) (row : dict)
  (w w' : world) (b : bool) :
  download_step image_column total i row w = (Ok b, w') ->
  negb (has_image image_column row) || recognized (image_of image_column row) = true ->
  found image_column w' row.
Proof.
  intros H Hrec Hi. rewrite Hi in Hrec. cbn [negb orb] in Hrec.
  unfold image_of in Hrec.
  unfold download_step in H. fold (has_image image_column row) in H. rewrite Hi in H.
  cbn [negb] in H.
  destruct (first_image (dict_get row image_column (VList []))) as [image_url|e] eqn:F;
    [|discriminate H].
  unfold bind at 1 in H. cbn [lift] in H.
  destruct (get_image_filename image_url) as [fn|e] eqn:G; [|discriminate H].
  unfold bind at 1 in H. cbn [lift] in H.
  unfold bind at 1, print in H. unfold bind at 1 in H.
  match type of H with
  | context [download_image ?u ?t ?p ?w0] =>
      destruct (download_image u t p w0) as [r0 w0'] eqn:D
  end.
  destruct r0 as [b0|e]; [|discriminate H].
  cbn [ret] in H. inversion H; subst.
  exists image_url, fn. split; [reflexivity|]. split; [exact G|].
  exact (download_image_caches _ _ _ _ _ _ D Hrec).
Qed.

Lemma download_loop_caches (image_column : string) (total : nat) (rows : list dict) :
  forall (i count n : nat) (w w1 : world),
    all_recognized image_column rows = true ->
    download_loop image_column total i rows count w = (Ok n, w1) ->
    Forall (found image_column w1) rows.
Proof.
  induction rows as [|row rest IH]; intros i count n w w1 Hrec H; [constructor|].
  cbn [all_recognized forallb] in Hrec. apply andb_prop in Hrec.
  destruct Hrec as [Hrow Hrest].
  cbn [download_loop] in H. unfold bind at 1 in H.
  destruct (download_step image_column total i row w) as [r0 w0] eqn:S.
  destruct r0 as [b|e]; [|discriminate H].
  constructor.
  - destruct (download_loop_frame _ _ _ _ _ _ _ _ H) as [Hf _].
    exact (found_mono _ _ _ _ _ Hf (download_step_caches _ _ _ _ _ _ _ S Hrow)).
  - exact (IH _ _ _ _ _ Hrest H).
Qed.

(** X21.  Running the download loop a second time costs nothing: when
    it has ended without an exception for rows whose image URLs all have
    the [/asset/<id>/<rest>] structure, the same loop started in the
    state it left ends with the same count, sends no request and writes
    no file. *)
Theorem second_run_downloads_nothing (image_column : string) (total i count n : nat)
  (rows : list dict) (w w1 : world) :
  all_recognized image_column rows = true ->
  download_loop image_column total i rows count w = (Ok n, w1) ->
  exists w2,
    download_loop image_column total i rows count w1 = (Ok n, w2)
    /\ requests w2 = requests w1 /\ files w2 = files w1 /\ dirs w2 = dirs w1.
Proof.
  intros Hrec H.
  destruct (download_loop_frame _ _ _ _ _ _ _ _ H) as [_ Hn].
  rewrite (Hn n eq_refl).
  exact (download_loop_all_found image_column total rows i count w1
           (download_loop_caches _ _ _ _ _ _ _ _ Hrec H)).
Qed.

Lemma second_run_downloads_nothing_witness :
  exists w1 w2,
    download_loop "Jcpv" 2 1 [dawn_row; imageless_row] 0 demo_world = (Ok 1%nat, w1)
    /\ length (requests w1) = 2%nat
    /\ download_loop "Jcpv" 2 1 [dawn_row; imageless_row] 0 w1 = (Ok 1%nat, w2)
    /\ requests w2 = requests w1.
Proof.
  destruct (download_loop "Jcpv" 2 1 [dawn_row; imageless_row] 0 demo_world)
    as [r w1] eqn:E.
  assert (Hr : r = Ok 1%nat).
  { assert (X : fst (download_loop "Jcpv" 2 1 [dawn_row; imageless_row] 0 demo_world) = r)
      by now rewrite E.
    rewrite <- X. vm_compute. reflexivity. }
  subst r.
  destruct (second_run_downloads_nothing "Jcpv" 2 1 0 1 [dawn_row; imageless_row]
              demo_world w1) as (w2 & L & R & _).
  - vm_compute. reflexivity.
  - exact E.
  - exists w1, w2. split; [reflexivity|]. split; [|split; [exact L | exact R]].
    assert (X : snd (download_loop "Jcpv" 2 1 [dawn_row; imageless_row] 0 demo_world) = w1)
      by now rewrite E.
    rewrite <- X. vm_compute. reflexivity.
Defined.


(** ** C10: the image of a card and the file of the download *)





